(** * Order lifecycle and stock consistency of the shopping backend

    A shallow embedding of the Express route handlers that create, pay,
    cancel, refund and update orders (routes/order.js, routes/payment.js),
    of the product routes that write price, offer and stock
    (routes/product.js) and of the shipping estimator (routes/shipping.js),
    over an explicit copy of the three MongoDB collections they use.

    Numbers.  JavaScript numbers are taken at their exact values: counts
    (stock, quantity) are integers [Z], money (price, offer, total, refund
    amount, shipping rates) are rationals [Q].  Rounding of binary floating
    point is outside the model, so equalities between amounts are stated
    with [==] ([Qeq]).  Where a handler can compute NaN from well-typed
    input (the shipping estimator), the number is an [option Q].

    Effects.  Every handler is a function from the database (and the
    request) to the new database and the HTTP reply.  A write that the
    handler awaits before a later [return] is visible in the database that
    is returned together with the error reply.  Requests are handled one
    after the other; a handler gets the [userId] that the [auth] middleware
    leaves in [req.user], and an exception inside its [try] is the error
    reply of its [catch] (500; 400 for the payment webhook). *)

From Stdlib Require Import ZArith QArith String List Bool Lia.
From stdpp Require Import gmap strings list fin_maps.
Import ListNotations.

Local Open Scope string_scope.
Local Open Scope Z_scope.

(** ** Data model *)

(** An ObjectId, as the hexadecimal string the routes compare with
    [toString()]. *)
Abbreviation ObjectId := string.

(** models/Product.js, the fields the modelled routes read or write. *)
Record Product := mkProduct {
  name : string;
  price : Q;
  description : string;
  imageUrl : string;
  vendor : ObjectId;
  offer : Q;
  category : string;
  stock : Z;
}.

(** models/Order.js, [orderItemSchema]. *)
Record OrderItem := mkOrderItem {
  product : ObjectId;
  quantity : Z;
  priceAtPurchase : Q;
}.

(** models/Order.js, the [status] enum. *)
Inductive OrderStatus :=
  | pending | paid | shipped | delivered | cancelled | refunded.

(** models/Order.js, the [paymentStatus] enum. *)
Inductive PaymentStatus :=
  | payment_pending | payment_paid | payment_failed | payment_refunded.

Record Address := mkAddress {
  street : string;
  city : string;
  state : string;
  zipCode : string;
  country : string;
  phone : string;
}.

(** models/Order.js, [orderSchema].  [trackingNumber] and [notes] are
    written by no route and are left out. *)
Record Order := mkOrder {
  customer : ObjectId;
  items : list OrderItem;
  total : Q;
  status : OrderStatus;
  shippingAddress : option Address;
  paymentMethod : string;
  paymentStatus : PaymentStatus;
}.

(** Modelled from the spec: models/User.js is not among the sources; the
    routes only read [user._id] (the key of the collection) and [user.role],
    one of the strings customer, vendor, admin. *)
Record User := mkUser {
  role : string;
}.

(** The three collections. *)
Record Db := mkDb {
  users : gmap string User;
  products : gmap string Product;
  orders : gmap string Order;
}.

(** What a handler sends: [res.status(code).json(payload)] or
    [res.status(code).json({ message })]. *)
Inductive Reply (A : Type) :=
  | Json (code : nat) (payload : A)
  | Fail (code : nat) (message : string).
Arguments Json {A} code payload.
Arguments Fail {A} code message.

(** ** routes/order.js: POST / *)

(** One element of [req.body.items]. *)
Record ReqItem := mkReqItem {
  req_product : ObjectId;
  req_quantity : Z;
}.

(** [x < y] on numbers. *)
Definition Qlt_bool (x y : Q) : bool := negb (Qle_bool y x).

(** [x || 0] on a number. *)
Definition or_zero (x : Q) : Q := if Qeq_bool x 0 then 0%Q else x.

Definition set_stock (p : Product) (s : Z) : Product :=
  mkProduct (name p) (price p) (description p) (imageUrl p) (vendor p)
            (offer p) (category p) s.

(** How the [for (const item of items)] loop ends: it falls through with
    the accumulated [total] and [orderItems], or a [return res.status(..)]
    inside the body leaves the handler. *)
Inductive LoopExit :=
  | LoopDone (total : Q) (orderItems : list OrderItem)
  | LoopReturn (code : nat) (message : string).

(** The loop of lines 21-41.  The product collection is threaded through:
    [findByIdAndUpdate] at the end of an iteration is awaited before the
    next [findById]. *)
Fixpoint order_loop (ps : gmap string Product) (its : list ReqItem)
    (total : Q) (orderItems : list OrderItem) : gmap string Product * LoopExit :=
  match its with
  | [] => (ps, LoopDone total orderItems)
  | item :: rest =>
    match ps !! req_product item with
    | None => (ps, LoopReturn 404 "Product not found")
    | Some p =>
      if stock p <? req_quantity item
      then (ps, LoopReturn 400 ("Insufficient stock for " ++ name p))
      else
        let discount := or_zero (offer p) in
        let price := (price p * (1 - discount / 100))%Q in
        order_loop
          (<[req_product item := set_stock p (stock p - req_quantity item)]> ps)
          rest
          (total + price * inject_Z (req_quantity item))%Q
          (orderItems ++ [mkOrderItem (req_product item) (req_quantity item) price])
    end
  end.

(** [new Order({ customer, items, total, shippingAddress })] with the
    schema defaults. *)
Definition new_Order (c : ObjectId) (its : list OrderItem) (t : Q)
    (addr : option Address) : Order :=
  mkOrder c its t pending addr "cash_on_delivery" payment_pending.

(** POST /api/orders.  [oid] is the ObjectId that [new Order] generates. *)
Definition post_order (db : Db) (userId : ObjectId) (oid : ObjectId)
    (its : list ReqItem) (addr : option Address) : Db * Reply Order :=
  match users db !! userId with
  | None => (db, Fail 403 "Only customers can place orders")
  | Some user =>
    if negb (String.eqb (role user) "customer")
    then (db, Fail 403 "Only customers can place orders")
    else
      match its with
      | [] => (db, Fail 400 "No items in order")
      | _ =>
        match order_loop (products db) its 0%Q [] with
        | (ps, LoopReturn code msg) =>
            (mkDb (users db) ps (orders db), Fail code msg)
        | (ps, LoopDone total orderItems) =>
            let order := new_Order userId orderItems total addr in
            (mkDb (users db) ps (<[oid := order]> (orders db)), Json 201 order)
        end
      end
  end.

(** ** routes/order.js: the other writes *)

Definition set_status (o : Order) (s : OrderStatus) : Order :=
  mkOrder (customer o) (items o) (total o) s (shippingAddress o)
          (paymentMethod o) (paymentStatus o).

(** The strings of the [status] enum. *)
Definition status_of_string (s : string) : option OrderStatus :=
  if String.eqb s "pending" then Some pending
  else if String.eqb s "paid" then Some paid
  else if String.eqb s "shipped" then Some shipped
  else if String.eqb s "delivered" then Some delivered
  else if String.eqb s "cancelled" then Some cancelled
  else if String.eqb s "refunded" then Some refunded
  else None.

(** Does the vendor [uid] own the product of this line?  This is the
    filter [{ vendor: user._id, _id: { $in: productIds } }]. *)
Definition vendor_of_line (ps : gmap string Product) (uid : ObjectId)
    (it : OrderItem) : bool :=
  match ps !! product it with
  | Some p => String.eqb (vendor p) uid
  | None => false
  end.

(** The body of PUT /:id.  A key that is absent from the body is
    [undefined] in the update document and is not written. *)
Record OrderUpdate := mkOrderUpdate {
  upd_status : option string;
  upd_total : option Q;
  upd_shippingAddress : option Address;
}.

(** PUT /api/orders/:id (admin only).  [runValidators] refuses a status
    outside the enum; the exception is caught and answered with 500. *)
Definition put_order (db : Db) (userId : ObjectId) (id : ObjectId)
    (body : OrderUpdate) : Db * Reply Order :=
  match users db !! userId with
  | None => (db, Fail 403 "Only admins can update orders")
  | Some user =>
    if negb (String.eqb (role user) "admin")
    then (db, Fail 403 "Only admins can update orders")
    else
      match option_map status_of_string (upd_status body) with
      | Some None => (db, Fail 500 "Error updating order")
      | st =>
        match orders db !! id with
        | None => (db, Fail 404 "Order not found")
        | Some o =>
          let o' :=
            mkOrder (customer o) (items o)
                    (default (total o) (upd_total body))
                    (default (status o) (mjoin st))
                    (match upd_shippingAddress body with
                     | Some a => Some a
                     | None => shippingAddress o
                     end)
                    (paymentMethod o) (paymentStatus o) in
          (mkDb (users db) (products db) (<[id := o']> (orders db)), Json 200 o')
        end
      end
  end.

(** [for (const item of order.items) findByIdAndUpdate(item.product,
    { $inc: { stock: item.quantity } })]; an id without a document is left
    alone. *)
Fixpoint restore_stock (ps : gmap string Product) (its : list OrderItem)
    : gmap string Product :=
  match its with
  | [] => ps
  | it :: rest =>
    restore_stock
      (alter (fun p => set_stock p (stock p + quantity it)) (product it) ps) rest
  end.

(** DELETE /api/orders/:id (cancel).  [user.role] on a user that is not
    found throws, which the handler answers with 500. *)
Definition delete_order (db : Db) (userId : ObjectId) (id : ObjectId)
    : Db * Reply Order :=
  match orders db !! id with
  | None => (db, Fail 404 "Order not found")
  | Some o =>
    match users db !! userId with
    | None => (db, Fail 500 "Error cancelling order")
    | Some user =>
      if String.eqb (role user) "customer" && negb (String.eqb (customer o) userId)
      then (db, Fail 403 "Access denied")
      else if String.eqb (role user) "vendor"
              && negb (existsb (vendor_of_line (products db) userId) (items o))
      then (db, Fail 403 "Access denied")
      else
        match status o with
        | pending =>
          let o' := set_status o cancelled in
          (mkDb (users db) (products db) (<[id := o']> (orders db)), Json 200 o')
        | paid =>
          let o' := set_status o cancelled in
          (mkDb (users db) (restore_stock (products db) (items o))
                (<[id := o']> (orders db)), Json 200 o')
        | _ => (db, Fail 400 "Order cannot be cancelled at this stage")
        end
    end
  end.

(** PATCH /api/orders/:id/pay. *)
Definition patch_order_pay (db : Db) (userId : ObjectId) (id : ObjectId)
    : Db * Reply Order :=
  match users db !! userId with
  | None => (db, Fail 403 "Only customers can pay for orders")
  | Some user =>
    if negb (String.eqb (role user) "customer")
    then (db, Fail 403 "Only customers can pay for orders")
    else
      match orders db !! id with
      | None => (db, Fail 404 "Order not found")
      | Some o =>
        if negb (String.eqb (customer o) userId)
        then (db, Fail 404 "Order not found")
        else
          match status o with
          | pending =>
            let o' := set_status o paid in
            (mkDb (users db) (products db) (<[id := o']> (orders db)), Json 200 o')
          | _ => (db, Fail 400 "Order is not pending")
          end
      end
  end.

Definition validStatuses : list string := ["shipped"; "delivered"; "cancelled"].

(** PATCH /api/orders/:id/status (vendor). *)
Definition patch_order_status (db : Db) (userId : ObjectId) (id : ObjectId)
    (new_status : string) : Db * Reply Order :=
  match users db !! userId with
  | None => (db, Fail 403 "Only vendors can update order status")
  | Some user =>
    if negb (String.eqb (role user) "vendor")
    then (db, Fail 403 "Only vendors can update order status")
    else if negb (existsb (String.eqb new_status) validStatuses)
    then (db, Fail 400 "Invalid status")
    else
      match orders db !! id with
      | None => (db, Fail 404 "Order not found or not related to your products")
      | Some o =>
        if negb (existsb (vendor_of_line (products db) userId) (items o))
        then (db, Fail 404 "Order not found or not related to your products")
        else
          match status_of_string new_status with
          | None => (db, Fail 500 "Error updating order status")
          | Some s =>
            let o' := set_status o s in
            (mkDb (users db) (products db) (<[id := o']> (orders db)), Json 200 o')
          end
      end
  end.

(** ** routes/payment.js *)

(** The [order] object of the confirmation reply. *)
Record ConfirmReply := mkConfirmReply {
  conf_id : ObjectId;
  conf_status : OrderStatus;
  conf_paymentStatus : PaymentStatus;
}.

(** POST /api/payments/confirm.  An empty string stands for a missing
    (falsy) [paymentIntentId] or [orderId]. *)
Definition post_payment_confirm (db : Db) (userId : ObjectId)
    (paymentIntentId : string) (orderId : ObjectId) : Db * Reply ConfirmReply :=
  if String.eqb paymentIntentId "" || String.eqb orderId ""
  then (db, Fail 400 "Payment intent ID and order ID are required")
  else
    match orders db !! orderId with
    | None => (db, Fail 404 "Order not found")
    | Some o =>
      match users db !! userId with
      | None => (db, Fail 500 "Error confirming payment")
      | Some user =>
        if negb (String.eqb (customer o) userId)
        then (db, Fail 403 "Access denied")
        else
          let o' := mkOrder (customer o) (items o) (total o) paid
                            (shippingAddress o) "card" payment_paid in
          (mkDb (users db) (products db) (<[orderId := o']> (orders db)),
           Json 200 (mkConfirmReply orderId paid payment_paid))
      end
    end.

(** The simulated refund of the reply, without its generated id. *)
Record Refund := mkRefund {
  refund_amount : Q;
  refund_reason : string;
  refund_status : string;
  refund_orderId : ObjectId;
}.

(** POST /api/payments/refund.  [amount] is the number of the body; a
    missing amount is refused by [!amount] exactly as 0 is. *)
Definition post_payment_refund (db : Db) (userId : ObjectId)
    (orderId : ObjectId) (amount : Q) (reason : string) : Db * Reply Refund :=
  if String.eqb orderId "" || Qeq_bool amount 0
  then (db, Fail 400 "Order ID and amount are required")
  else
    match orders db !! orderId with
    | None => (db, Fail 404 "Order not found")
    | Some o =>
      match users db !! userId with
      | None => (db, Fail 500 "Error processing refund")
      | Some user =>
        if negb (String.eqb (role user) "admin")
           && negb (String.eqb (customer o) userId)
        then (db, Fail 403 "Access denied")
        else
          match paymentStatus o with
          | payment_paid =>
            if Qlt_bool (total o) amount
            then (db, Fail 400 "Refund amount cannot exceed order total")
            else
              let refund :=
                mkRefund amount
                         (if String.eqb reason "" then "Customer request" else reason)
                         "succeeded" orderId in
              let o' :=
                if Qeq_bool amount (total o)
                then mkOrder (customer o) (items o) (total o) refunded
                             (shippingAddress o) (paymentMethod o) payment_refunded
                else o in
              (mkDb (users db) (products db) (<[orderId := o']> (orders db)),
               Json 200 refund)
          | _ => (db, Fail 400 "Order is not paid")
          end
      end
    end.

(** [req.body.data] of a webhook event, as far as the handler reads it.
    The two handled event types read [data.object.metadata]: without
    [data], or without [data.object], that read throws. *)
Inductive WebhookData :=
  | NoData
  | NoObject
  | NoMetadata
  | Metadata (orderId : ObjectId).

(** POST /api/payments/webhook.  [Metadata orderId] carries
    [data.object.metadata.orderId], empty when the metadata has none;
    [findByIdAndUpdate] on an id without a document writes nothing; what
    is thrown inside [try] is answered 400. *)
Definition post_payment_webhook (db : Db) (type : string) (data : WebhookData)
    : Db * Reply unit :=
  if String.eqb type "payment_intent.succeeded" then
    match data with
    | NoData | NoObject => (db, Fail 400 "Webhook error")
    | NoMetadata => (db, Json 200 tt)
    | Metadata orderId =>
      if String.eqb orderId "" then (db, Json 200 tt)
      else
        (mkDb (users db) (products db)
              (alter (fun o => mkOrder (customer o) (items o) (total o) paid
                                       (shippingAddress o) (paymentMethod o)
                                       payment_paid) orderId (orders db)),
         Json 200 tt)
    end
  else if String.eqb type "payment_intent.payment_failed" then
    match data with
    | NoData | NoObject => (db, Fail 400 "Webhook error")
    | NoMetadata => (db, Json 200 tt)
    | Metadata orderId =>
      if String.eqb orderId "" then (db, Json 200 tt)
      else
        (mkDb (users db) (products db)
              (alter (fun o => mkOrder (customer o) (items o) (total o) (status o)
                                       (shippingAddress o) (paymentMethod o)
                                       payment_failed) orderId (orders db)),
         Json 200 tt)
    end
  else (db, Json 200 tt).

(** ** routes/product.js: the writes to existing products *)

(** The body of PUT /:id; an absent key is not written. *)
Record ProductUpdate := mkProductUpdate {
  upd_name : option string;
  upd_price : option Q;
  upd_description : option string;
  upd_imageUrl : option string;
  upd_offer : option Q;
  upd_category : option string;
  upd_stock : option Z;
}.

Definition apply_update (b : ProductUpdate) (p : Product) : Product :=
  mkProduct (default (name p) (upd_name b)) (default (price p) (upd_price b))
            (default (description p) (upd_description b))
            (default (imageUrl p) (upd_imageUrl b)) (vendor p)
            (default (offer p) (upd_offer b))
            (default (category p) (upd_category b))
            (default (stock p) (upd_stock b)).

(** PUT /api/products/:id (the owning vendor, or an admin). *)
Definition put_product (db : Db) (userId : ObjectId) (id : ObjectId)
    (body : ProductUpdate) : Db * Reply Product :=
  match users db !! userId with
  | None => (db, Fail 403 "Only vendors and admins can update products")
  | Some user =>
    if negb (String.eqb (role user) "vendor") && negb (String.eqb (role user) "admin")
    then (db, Fail 403 "Only vendors and admins can update products")
    else
      match products db !! id with
      | None => (db, Fail 404 "Product not found or not owned by you")
      | Some p =>
        if String.eqb (role user) "vendor" && negb (String.eqb (vendor p) userId)
        then (db, Fail 404 "Product not found or not owned by you")
        else
          let p' := apply_update body p in
          (mkDb (users db) (<[id := p']> (products db)) (orders db), Json 200 p')
      end
  end.

(** DELETE /api/products/:id. *)
Definition delete_product (db : Db) (userId : ObjectId) (id : ObjectId)
    : Db * Reply unit :=
  match users db !! userId with
  | None => (db, Fail 403 "Only vendors and admins can delete products")
  | Some user =>
    if negb (String.eqb (role user) "vendor") && negb (String.eqb (role user) "admin")
    then (db, Fail 403 "Only vendors and admins can delete products")
    else
      match products db !! id with
      | None => (db, Fail 404 "Product not found")
      | Some p =>
        if String.eqb (role user) "vendor" && negb (String.eqb (vendor p) userId)
        then (db, Fail 404 "Product not found")
        else (mkDb (users db) (delete id (products db)) (orders db), Json 200 tt)
      end
  end.

(** PATCH /api/products/:id/stock (the owning vendor). *)
Definition patch_product_stock (db : Db) (userId : ObjectId) (id : ObjectId)
    (new_stock : Z) : Db * Reply Product :=
  match users db !! userId with
  | None => (db, Fail 403 "Only vendors can update stock")
  | Some user =>
    if negb (String.eqb (role user) "vendor")
    then (db, Fail 403 "Only vendors can update stock")
    else if new_stock <? 0
    then (db, Fail 400 "Stock must be a non-negative number")
    else
      match products db !! id with
      | None => (db, Fail 404 "Product not found or not owned by you")
      | Some p =>
        if negb (String.eqb (vendor p) userId)
        then (db, Fail 404 "Product not found or not owned by you")
        else
          let p' := set_stock p new_stock in
          (mkDb (users db) (<[id := p']> (products db)) (orders db), Json 200 p')
      end
  end.

(** PATCH /api/products/:id/offer (the owning vendor). *)
Definition patch_product_offer (db : Db) (userId : ObjectId) (id : ObjectId)
    (new_offer : Q) : Db * Reply Product :=
  match users db !! userId with
  | None => (db, Fail 403 "Only vendors can update offers")
  | Some user =>
    if negb (String.eqb (role user) "vendor")
    then (db, Fail 403 "Only vendors can update offers")
    else if Qlt_bool new_offer 0 || Qlt_bool 100 new_offer
    then (db, Fail 400 "Offer must be a number between 0 and 100")
    else
      match products db !! id with
      | None => (db, Fail 404 "Product not found or not owned by you")
      | Some p =>
        if negb (String.eqb (vendor p) userId)
        then (db, Fail 404 "Product not found or not owned by you")
        else
          let p' := mkProduct (name p) (price p) (description p) (imageUrl p)
                              (vendor p) new_offer (category p) (stock p) in
          (mkDb (users db) (<[id := p']> (products db)) (orders db), Json 200 p')
      end
  end.

(** ** routes/shipping.js: POST /calculate *)

(** One element of [req.body.items]; [price] may be absent. *)
Record ShipItem := mkShipItem {
  ship_quantity : Z;
  ship_price : option Q;
}.

Record Rate := mkRate {
  base : Q;
  perKg : Q;
  maxDays : nat;
}.

(** The own keys of the [shippingRates] object literal. *)
Definition shippingRates (method : string) : option Rate :=
  if String.eqb method "standard" then Some (mkRate 5.99 2.50 7)
  else if String.eqb method "express" then Some (mkRate 12.99 4.00 3)
  else if String.eqb method "overnight" then Some (mkRate 24.99 6.00 1)
  else None.

(** The loop of lines 24-29, returning [(totalWeight, totalValue)]. *)
Fixpoint shipping_loop (its : list ShipItem) (totalWeight totalValue : Q) : Q * Q :=
  match its with
  | [] => (totalWeight, totalValue)
  | item :: rest =>
    let itemWeight := 0.5%Q in
    shipping_loop rest
      (totalWeight + itemWeight * inject_Z (ship_quantity item))%Q
      (totalValue
       + match ship_price item with Some x => or_zero x | None => 0 end
         * inject_Z (ship_quantity item))%Q
  end.

(** The members every object literal inherits from [Object.prototype].
    [shippingRates[name]] finds them as well as the own keys: each is a
    function, and [__proto__] the prototype object itself, so each is truthy
    and has no [base], [perKg] or [maxDays]. *)
Definition objectPrototypeKeys : list string :=
  [ "constructor"; "__defineGetter__"; "__defineSetter__"; "hasOwnProperty";
    "__lookupGetter__"; "__lookupSetter__"; "isPrototypeOf";
    "propertyIsEnumerable"; "toString"; "valueOf"; "__proto__";
    "toLocaleString" ].

(** What [shippingRates[shippingMethod] || shippingRates.standard] (line
    50) evaluates to: an entry of the table, or an inherited member. *)
Inductive RateObject :=
  | OwnRate (r : Rate)
  | Inherited.

Definition rate_of (shippingMethod : string) : RateObject :=
  match shippingRates shippingMethod with
  | Some r => OwnRate r
  | None =>
    if existsb (String.eqb shippingMethod) objectPrototypeKeys
    then Inherited
    else OwnRate (mkRate 5.99 2.50 7)
  end.

(** The reply of POST /calculate.  [shippingCost] is [None] when the
    handler computes NaN, which the JSON reply carries as null;
    [estimatedDays] is [None] when [rate.maxDays] is undefined and the key
    is left out of the reply; [totalWeight] is the number that the handler
    prints with [toFixed(2)]. *)
Record Quote := mkQuote {
  shippingCost : option Q;
  estimatedDays : option nat;
  shippingMethod : string;
  totalWeight : Q;
  freeShipping : bool;
}.

(** POST /api/shipping/calculate.  An empty [destination] stands for a
    missing one; [method] is [None] when the body has no [shippingMethod],
    and a string otherwise.  Reading [base] and [perKg] off an inherited
    member gives undefined, and the sum of line 51 is then NaN. *)
Definition post_shipping_calculate (its : list ShipItem) (destination : string)
    (method : option string) : Reply Quote :=
  let shippingMethod := default "standard" method in
  match its with
  | [] => Fail 400 "Items are required"
  | _ =>
    if String.eqb destination ""
    then Fail 400 "Destination address is required"
    else
      let '(totalWeight, totalValue) := shipping_loop its 0 0 in
      let rate := rate_of shippingMethod in
      let shippingCost :=
        match rate with
        | OwnRate r => Some (base r + totalWeight * perKg r)%Q
        | Inherited => None
        end in
      let finalShippingCost :=
        if Qlt_bool 50 totalValue then Some 0%Q else shippingCost in
      Json 200 (mkQuote finalShippingCost
                        (match rate with
                         | OwnRate r => Some (maxDays r)
                         | Inherited => None
                         end)
                        shippingMethod totalWeight (Qlt_bool 50 totalValue))
  end.

(** ** The system: every modelled write as one request

    These are all the routes of the sources that write the order
    collection, and the routes that write an existing product.  The other
    routes read, or write users, categories, notifications and new
    products. *)

Inductive Request :=
  | PostOrder (userId : ObjectId) (its : list ReqItem) (addr : option Address)
  | PutOrder (userId id : ObjectId) (body : OrderUpdate)
  | DeleteOrder (userId id : ObjectId)
  | PatchOrderPay (userId id : ObjectId)
  | PatchOrderStatus (userId id : ObjectId) (new_status : string)
  | PostPaymentConfirm (userId : ObjectId) (paymentIntentId : string) (orderId : ObjectId)
  | PostPaymentRefund (userId orderId : ObjectId) (amount : Q) (reason : string)
  | PostPaymentWebhook (type : string) (data : WebhookData)
  | PutProduct (userId id : ObjectId) (body : ProductUpdate)
  | DeleteProduct (userId id : ObjectId)
  | PatchProductStock (userId id : ObjectId) (new_stock : Z)
  | PatchProductOffer (userId id : ObjectId) (new_offer : Q).

(** The database after a request.  A new order gets an ObjectId that no
    stored order has. *)
Definition handle (db : Db) (r : Request) : Db :=
  match r with
  | PostOrder u its addr => fst (post_order db u (fresh (dom (orders db))) its addr)
  | PutOrder u id body => fst (put_order db u id body)
  | DeleteOrder u id => fst (delete_order db u id)
  | PatchOrderPay u id => fst (patch_order_pay db u id)
  | PatchOrderStatus u id s => fst (patch_order_status db u id s)
  | PostPaymentConfirm u pi id => fst (post_payment_confirm db u pi id)
  | PostPaymentRefund u id a reason => fst (post_payment_refund db u id a reason)
  | PostPaymentWebhook ty data => fst (post_payment_webhook db ty data)
  | PutProduct u id body => fst (put_product db u id body)
  | DeleteProduct u id => fst (delete_product db u id)
  | PatchProductStock u id s => fst (patch_product_stock db u id s)
  | PatchProductOffer u id o => fst (patch_product_offer db u id o)
  end.

(** Any sequence of requests. *)
Definition run (db : Db) (rs : list Request) : Db := fold_left handle rs db.

(** ** The sums of the specification *)

(** Unit price of a line: price x (1 - offer/100). *)
Definition line_price (p : Product) : Q := (price p * (1 - offer p / 100))%Q.

(** Sum over all lines of price x (1 - offer/100) x quantity, with the
    products as they are in [ps]. *)
Fixpoint spec_total (ps : gmap string Product) (its : list ReqItem) : Q :=
  match its with
  | [] => 0%Q
  | it :: rest =>
    (match ps !! req_product it with
     | Some p => line_price p * inject_Z (req_quantity it)
     | None => 0
     end + spec_total ps rest)%Q
  end.

(** Quantity that the lines [its] order of product [k]. *)
Fixpoint ordered_quantity (k : ObjectId) (its : list OrderItem) : Z :=
  match its with
  | [] => 0
  | it :: rest =>
    (if String.eqb (product it) k then quantity it else 0) + ordered_quantity k rest
  end.

(** Quantity that the request lines [its] ask of product [k]. *)
Fixpoint requested (k : ObjectId) (its : list ReqItem) : Z :=
  match its with
  | [] => 0
  | it :: rest =>
    (if String.eqb (req_product it) k then req_quantity it else 0) + requested k rest
  end.

(** The line the loop pushes for a request item. *)
Definition line_for (ps : gmap string Product) (it : ReqItem) (l : OrderItem) : Prop :=
  product l = req_product it /\ quantity l = req_quantity it /\
  exists p, ps !! req_product it = Some p /\ (priceAtPurchase l == line_price p)%Q.

(** Can the line [it] be served once the earlier lines [seen] of the same
    request have been served?  Its product exists and its quantity is at
    most the stock that those lines leave. *)
Definition in_stock (ps : gmap string Product) (seen : list ReqItem)
    (it : ReqItem) : bool :=
  match ps !! req_product it with
  | Some p => req_quantity it <=? stock p - requested (req_product it) seen
  | None => false
  end.

Fixpoint all_in_stock (ps : gmap string Product) (seen its : list ReqItem) : bool :=
  match its with
  | [] => true
  | it :: rest => in_stock ps seen it && all_in_stock ps (seen ++ [it]) rest
  end.

(** The three ways POST / refuses a customer's item list, with the reply
    of each: the list is empty (the specification's InvalidInput), or the
    first line that cannot be served names a product that does not exist
    (NotFound) or asks more than the stock left of it (InsufficientStock). *)
Inductive Rejected (ps : gmap string Product) : list ReqItem -> nat -> string -> Prop :=
  | RejectedEmpty : Rejected ps [] 400 "No items in order"
  | RejectedNotFound pre bad post :
      all_in_stock ps [] pre = true ->
      ps !! req_product bad = None ->
      Rejected ps (pre ++ bad :: post) 404 "Product not found"
  | RejectedStock pre bad post p :
      all_in_stock ps [] pre = true ->
      ps !! req_product bad = Some p ->
      stock p - requested (req_product bad) pre < req_quantity bad ->
      Rejected ps (pre ++ bad :: post) 400 ("Insufficient stock for " ++ name p).

(** The permission check of DELETE /:id, read as a condition: a customer
    cancels only an own order, a vendor only an order with a line on one of
    the vendor's products; any other role (the admin) is let through. *)
Definition may_cancel (ps : gmap string Product) (uid : ObjectId) (u : User)
    (o : Order) : Prop :=
  (role u = "customer" -> customer o = uid) /\
  (role u = "vendor" -> existsb (vendor_of_line ps uid) (items o) = true).

(** Is [r] an admin update of order [id] whose body carries a total? *)
Definition writes_total (id : ObjectId) (r : Request) : bool :=
  match r with
  | PutOrder _ id' body =>
    String.eqb id' id && match upd_total body with Some _ => true | None => false end
  | _ => false
  end.

(** [o'] is [o] with the same lines and the same total. *)
Definition same_snapshot (o o' : Order) : Prop :=
  items o' = items o /\ total o' = total o.

(** Units of quantity across all items. *)
Definition units (its : list ShipItem) : Z :=
  fold_right Z.add 0 (map ship_quantity its).

(** 0.5 kg per unit of quantity. *)
Definition spec_weight (its : list ShipItem) : Q := (0.5 * inject_Z (units its))%Q.

(** The quote carries a number as cost, and that number is [x]. *)
Definition cost_is (q : Quote) (x : Q) : Prop :=
  exists c, shippingCost q = Some c /\ (c == x)%Q.

(** Subtotal: sum of price x quantity. *)
Fixpoint spec_subtotal (its : list ShipItem) : Q :=
  match its with
  | [] => 0%Q
  | it :: rest =>
    (match ship_price it with Some x => x | None => 0 end
     * inject_Z (ship_quantity it) + spec_subtotal rest)%Q
  end.

Definition terminal (s : OrderStatus) : bool :=
  match s with
  | delivered | cancelled | refunded => true
  | _ => false
  end.

(** ** Sample data *)

Definition lamp (s : Z) : Product :=
  mkProduct "Lamp" 10 "" "" "v1" 0 "general" s.

Definition desk (s : Z) : Product :=
  mkProduct "Desk" 80 "" "" "v1" 50 "general" s.

Definition demo_users : gmap string User :=
  {[ "c1" := mkUser "customer"; "v1" := mkUser "vendor"; "a1" := mkUser "admin" ]}.

(** A customer, a vendor with 5 lamps and 2 desks, an admin, no order. *)
Definition demo_db : Db :=
  mkDb demo_users {[ "p1" := lamp 5; "p2" := desk 2 ]} ∅.

(** An order of customer c1 for two lamps and a desk. *)
Definition demo_order (s : OrderStatus) (ps : PaymentStatus) : Order :=
  mkOrder "c1" [mkOrderItem "p1" 2 10; mkOrderItem "p2" 1 40] 60 s None
          "cash_on_delivery" ps.

Definition demo_db_with (s : OrderStatus) (ps : PaymentStatus) : Db :=
  mkDb demo_users {[ "p1" := lamp 3; "p2" := desk 1 ]} {[ "o1" := demo_order s ps ]}.

(** ** Conditions on the whole database *)

(** Every product has a stock of at least 0 and every line of a stored
    order a quantity of at least 0. *)
Definition stock_sane (db : Db) : Prop :=
  (forall k p, products db !! k = Some p -> 0 <= stock p) /\
  (forall id o l, orders db !! id = Some o -> In l (items o) -> 0 <= quantity l).

(** A request that sends no negative quantity and no negative stock. *)
Definition benign (r : Request) : bool :=
  match r with
  | PostOrder _ its _ => forallb (fun it => 0 <=? req_quantity it) its
  | PutProduct _ _ body =>
    match upd_stock body with Some s => 0 <=? s | None => true end
  | _ => true
  end.

(** A catalogue with prices of at least 0 and offers between 0 and 100. *)
Definition priced_sanely (ps : gmap string Product) : Prop :=
  forall k p, ps !! k = Some p -> (0 <= price p)%Q /\ (0 <= offer p)%Q /\ (offer p <= 100)%Q.

(** Two products that differ at most in their stock. *)
Definition same_but_stock (p p' : Product) : Prop := set_stock p' (stock p) = p.

(** Every product of [ps'] was already in [ps], with the same vendor. *)
Definition products_from (ps ps' : gmap string Product) : Prop :=
  forall k p', ps' !! k = Some p' -> exists p, ps !! k = Some p /\ vendor p' = vendor p.

(** Every order of [os'] was already in [os], with the same lines. *)
Definition orders_from (os os' : gmap string Order) : Prop :=
  forall id o', os' !! id = Some o' -> exists o, os !! id = Some o /\ items o' = items o.

(** Every stock of [ps] is at least 0. *)
Definition stocks_nonneg (ps : gmap string Product) : Prop :=
  forall k p, ps !! k = Some p -> 0 <= stock p.

(** ** routes/order.js: GET /:id *)

(** GET /api/orders/:id.  The reply is the order; the handler sends it
    with its customer and the products of its lines populated, and reading
    [_id] of a populated reference whose document is gone throws, which is
    the 500 reply. *)
Definition get_order (db : Db) (userId id : ObjectId) : Reply Order :=
  match orders db !! id with
  | None => Fail 404 "Order not found"
  | Some o =>
    match users db !! userId with
    | None => Fail 500 "Error fetching order"
    | Some user =>
      if String.eqb (role user) "customer" then
        match users db !! customer o with
        | None => Fail 500 "Error fetching order"
        | Some _ =>
          if negb (String.eqb (customer o) userId)
          then Fail 403 "Access denied"
          else Json 200 o
        end
      else if String.eqb (role user) "vendor" then
        if forallb (fun it => bool_decide (is_Some (products db !! product it))) (items o)
        then
          if negb (existsb (vendor_of_line (products db) userId) (items o))
          then Fail 403 "Access denied"
          else Json 200 o
        else Fail 500 "Error fetching order"
      else Json 200 o
    end
  end.

(** ** routes/shipping.js: GET /methods and GET /track/:orderId *)

Record ShippingMethod := mkShippingMethod {
  method_id : string;
  method_name : string;
  method_description : string;
  basePrice : Q;
  perKgPrice : Q;
}.

(** The list that GET /api/shipping/methods sends. *)
Definition shippingMethods : list ShippingMethod :=
  [ mkShippingMethod "standard" "Standard Shipping" "5-7 business days" 5.99 2.50;
    mkShippingMethod "express" "Express Shipping" "2-3 business days" 12.99 4.00;
    mkShippingMethod "overnight" "Overnight Shipping" "Next business day" 24.99 6.00 ].

(** [c.toUpperCase()] on an ASCII character. *)
Definition upper_ascii (c : Ascii.ascii) : Ascii.ascii :=
  let n := Ascii.nat_of_ascii c in
  if (97 <=? n)%nat && (n <=? 122)%nat then Ascii.ascii_of_nat (n - 32) else c.

Fixpoint toUpperCase (s : string) : string :=
  match s with
  | EmptyString => EmptyString
  | String c rest => String (upper_ascii c) (toUpperCase rest)
  end.

(** [s.slice(-8)]: the last eight characters, all of [s] when it is
    shorter. *)
Definition slice_last8 (s : string) : string :=
  substring (String.length s - 8) 8 s.

(** One entry of [trackingInfo.updates], without its timestamp. *)
Record TrackingUpdate := mkTrackingUpdate {
  update_status : string;
  update_location : string;
  update_description : string;
}.

(** [trackingInfo], without [estimatedDelivery]. *)
Record TrackingInfo := mkTrackingInfo {
  tracking_orderId : ObjectId;
  trackingNumber : string;
  tracking_status : OrderStatus;
  updates : list TrackingUpdate;
}.

(** GET /api/shipping/track/:orderId.  No route writes
    [order.trackingNumber], so the number is the generated one.  The two
    branches for shipped and delivered orders read [destination], which is
    not declared in this handler: the ReferenceError is the 500 reply. *)
Definition get_shipping_track (db : Db) (userId orderId : ObjectId)
    : Reply TrackingInfo :=
  match orders db !! orderId with
  | None => Fail 404 "Order not found"
  | Some o =>
    match users db !! userId with
    | None => Fail 500 "Error fetching tracking information"
    | Some user =>
      if String.eqb (role user) "customer" && negb (String.eqb (customer o) userId)
      then Fail 403 "Access denied"
      else
        match status o with
        | shipped | delivered => Fail 500 "Error fetching tracking information"
        | _ =>
          Json 200
            (mkTrackingInfo orderId ("TRK" ++ toUpperCase (slice_last8 orderId)) (status o)
               [ mkTrackingUpdate "Order Placed" "Warehouse"
                   "Order has been placed and is being processed";
                 mkTrackingUpdate "Processing" "Warehouse"
                   "Order is being prepared for shipment" ])
        end
    end
  end.

(** ** routes/payment.js: GET /history *)

(** [Math.ceil(total / limit)] on a count and a positive limit. *)
Definition ceil_div (total : nat) (limit : positive) : nat :=
  Nat.div (total + (Pos.to_nat limit - 1)) (Pos.to_nat limit).

(** [.limit(limit).skip((page - 1) * limit)]: the cursor skips first. *)
Definition page_of {A : Type} (limit page : positive) (l : list A) : list A :=
  firstn (Pos.to_nat limit) (skipn ((Pos.to_nat page - 1) * Pos.to_nat limit) l).

Record History := mkHistory {
  payments : list (ObjectId * Order);
  totalPages : nat;
  currentPage : positive;
  history_total : nat;
}.

(** GET /api/payments/history for query parameters [page] and [limit] that
    are positive integers.  [newest_first] is the order collection sorted by
    [createdAt], newest first: the model stores no timestamps, so the sorted
    list is given.  A customer sees the own orders, everybody else all. *)
Definition get_payment_history (db : Db) (newest_first : list (ObjectId * Order))
    (userId : ObjectId) (page limit : positive) : Reply History :=
  match users db !! userId with
  | None => Fail 500 "Error fetching payment history"
  | Some user =>
    let found :=
      if String.eqb (role user) "customer"
      then List.filter (fun x => String.eqb (customer (snd x)) userId) newest_first
      else newest_first in
    let total := length found in
    Json 200 (mkHistory (page_of limit page found) (ceil_div total limit) page total)
  end.

(** The orders that GET /history pages through for this caller. *)
Definition history_found (newest_first : list (ObjectId * Order)) (userId : ObjectId)
    (u : User) : list (ObjectId * Order) :=
  if String.eqb (role u) "customer"
  then List.filter (fun x => String.eqb (customer (snd x)) userId) newest_first
  else newest_first.

(** The payments of page [i + 1]. *)
Definition history_page (db : Db) (newest_first : list (ObjectId * Order))
    (userId : ObjectId) (limit : positive) (i : nat) : list (ObjectId * Order) :=
  match get_payment_history db newest_first userId (Pos.of_succ_nat i) limit with
  | Json _ h => payments h
  | Fail _ _ => []
  end.

(** ** routes/cart.js *)

(** One line of a cart. *)
Record CartItem := mkCartItem {
  cart_product : ObjectId;
  cart_quantity : Z;
}.

(** [items.findIndex(f)], [None] for -1. *)
Fixpoint findIndex {A : Type} (f : A -> bool) (l : list A) : option nat :=
  match l with
  | [] => None
  | x :: rest => if f x then Some 0%nat else S <$> findIndex f rest
  end.

(** The lines after [POST /add]: the quantity is added to the first line
    on the product, or a new line is pushed. *)
Definition cart_add (its : list CartItem) (p : ObjectId) (q : Z) : list CartItem :=
  match findIndex (fun i => String.eqb (cart_product i) p) its with
  | Some itemIndex =>
    alter (fun i => mkCartItem (cart_product i) (cart_quantity i + q)) itemIndex its
  | None => (its ++ [mkCartItem p q])%list
  end.

(** The lines after [POST /remove]. *)
Definition cart_remove (its : list CartItem) (p : ObjectId) : list CartItem :=
  List.filter (fun i => negb (String.eqb (cart_product i) p)) its.

(** POST /api/cart/add.  [carts] holds the lines of the cart of each
    customer who has one; an empty [product] stands for a missing one. *)
Definition post_cart_add (db : Db) (carts : gmap string (list CartItem))
    (userId : ObjectId) (p : ObjectId) (q : Z)
    : gmap string (list CartItem) * Reply (list CartItem) :=
  match users db !! userId with
  | None => (carts, Fail 403 "Only customers can use cart")
  | Some user =>
    if negb (String.eqb (role user) "customer")
    then (carts, Fail 403 "Only customers can use cart")
    else if String.eqb p "" || (q =? 0) || (q <? 1)
    then (carts, Fail 400 "Product and valid quantity required")
    else
      let its := cart_add (default [] (carts !! userId)) p q in
      (<[userId := its]> carts, Json 200 its)
  end.

(** POST /api/cart/remove. *)
Definition post_cart_remove (db : Db) (carts : gmap string (list CartItem))
    (userId : ObjectId) (p : ObjectId)
    : gmap string (list CartItem) * Reply (list CartItem) :=
  match users db !! userId with
  | None => (carts, Fail 403 "Only customers can use cart")
  | Some user =>
    if negb (String.eqb (role user) "customer")
    then (carts, Fail 403 "Only customers can use cart")
    else
      match carts !! userId with
      | None => (carts, Fail 404 "Cart not found")
      | Some its =>
        let its' := cart_remove its p in
        (<[userId := its']> carts, Json 200 its')
      end
  end.

(** POST /api/cart/clear. *)
Definition post_cart_clear (db : Db) (carts : gmap string (list CartItem))
    (userId : ObjectId) : gmap string (list CartItem) * Reply (list CartItem) :=
  match users db !! userId with
  | None => (carts, Fail 403 "Only customers can use cart")
  | Some user =>
    if negb (String.eqb (role user) "customer")
    then (carts, Fail 403 "Only customers can use cart")
    else
      match carts !! userId with
      | None => (carts, Fail 404 "Cart not found")
      | Some _ => (<[userId := []]> carts, Json 200 [])
      end
  end.

(** GET /api/cart: the stored cart, or a new empty one that is not saved. *)
Definition get_cart (db : Db) (carts : gmap string (list CartItem))
    (userId : ObjectId) : Reply (list CartItem) :=
  match users db !! userId with
  | None => Fail 403 "Only customers can use cart"
  | Some user =>
    if negb (String.eqb (role user) "customer")
    then Fail 403 "Only customers can use cart"
    else Json 200 (default [] (carts !! userId))
  end.

Inductive CartRequest :=
  | CartAdd (userId p : ObjectId) (q : Z)
  | CartRemove (userId p : ObjectId)
  | CartClear (userId : ObjectId).

Definition cart_handle (db : Db) (carts : gmap string (list CartItem))
    (r : CartRequest) : gmap string (list CartItem) :=
  match r with
  | CartAdd u p q => fst (post_cart_add db carts u p q)
  | CartRemove u p => fst (post_cart_remove db carts u p)
  | CartClear u => fst (post_cart_clear db carts u)
  end.

(** Units of product [k] in a cart. *)
Fixpoint cart_units (k : ObjectId) (its : list CartItem) : Z :=
  match its with
  | [] => 0
  | i :: rest =>
    (if String.eqb (cart_product i) k then cart_quantity i else 0) + cart_units k rest
  end.

(** No two lines on one product, and every quantity at least 1. *)
Definition cart_ok (its : list CartItem) : Prop :=
  List.NoDup (map cart_product its) /\ Forall (fun i => 1 <= cart_quantity i) its.

(** ** routes/shipping.js: the address book *)

(** One element of [user.addresses] (the README lists an addresses array
    in the User model). *)
Record SavedAddress := mkSavedAddress {
  saved_id : ObjectId;
  saved_address : Address;
  isDefault : bool;
}.

Definition set_default (b : bool) (a : SavedAddress) : SavedAddress :=
  mkSavedAddress (saved_id a) (saved_address a) b.

(** POST /api/shipping/address.  [book] holds the [addresses] array of each
    user document, [new_id] is the id the pushed subdocument gets, and an
    empty string stands for a missing field. *)
Definition post_shipping_address (db : Db) (book : gmap string (list SavedAddress))
    (userId new_id : ObjectId) (a : Address) (is_default : bool)
    : gmap string (list SavedAddress) * Reply SavedAddress :=
  if String.eqb (street a) "" || String.eqb (city a) "" || String.eqb (state a) ""
     || String.eqb (zipCode a) "" || String.eqb (country a) ""
  then (book, Fail 400 "All address fields are required")
  else
    match users db !! userId with
    | None => (book, Fail 404 "User not found")
    | Some _ =>
      let addresses := default [] (book !! userId) in
      if (length addresses =? 0)%nat || is_default
      then
        let address := mkSavedAddress new_id a true in
        (<[userId := (map (set_default false) addresses ++ [address])%list]> book,
         Json 200 address)
      else
        let address := mkSavedAddress new_id a is_default in
        (<[userId := (addresses ++ [address])%list]> book, Json 200 address)
    end.

(** DELETE /api/shipping/addresses/:id. *)
Definition delete_shipping_address (db : Db) (book : gmap string (list SavedAddress))
    (userId id : ObjectId) : gmap string (list SavedAddress) * Reply unit :=
  match users db !! userId with
  | None => (book, Fail 404 "Address not found")
  | Some _ =>
    let addresses := default [] (book !! userId) in
    match findIndex (fun a => String.eqb (saved_id a) id) addresses with
    | None => (book, Fail 404 "Address not found")
    | Some addressIndex =>
      let was_default :=
        match addresses !! addressIndex with
        | Some deletedAddress => isDefault deletedAddress
        | None => false
        end in
      let rest := delete addressIndex addresses in
      let rest' :=
        if was_default && (0 <? length rest)%nat
        then alter (set_default true) 0%nat rest
        else rest in
      (<[userId := rest']> book, Json 200 tt)
    end
  end.

(** PATCH /api/shipping/addresses/:id/default. *)
Definition patch_shipping_address_default (db : Db)
    (book : gmap string (list SavedAddress)) (userId id : ObjectId)
    : gmap string (list SavedAddress) * Reply SavedAddress :=
  match users db !! userId with
  | None => (book, Fail 404 "Address not found")
  | Some _ =>
    let addresses := default [] (book !! userId) in
    match findIndex (fun a => String.eqb (saved_id a) id) addresses with
    | None => (book, Fail 404 "Address not found")
    | Some addressIndex =>
      let addresses' :=
        alter (set_default true) addressIndex (map (set_default false) addresses) in
      match addresses' !! addressIndex with
      | Some a => (<[userId := addresses']> book, Json 200 a)
      | None => (book, Fail 500 "Error setting default address")
      end
    end
  end.

Inductive AddressRequest :=
  | AddressAdd (userId new_id : ObjectId) (a : Address) (is_default : bool)
  | AddressDelete (userId id : ObjectId)
  | AddressDefault (userId id : ObjectId).

Definition address_handle (db : Db) (book : gmap string (list SavedAddress))
    (r : AddressRequest) : gmap string (list SavedAddress) :=
  match r with
  | AddressAdd u n a d => fst (post_shipping_address db book u n a d)
  | AddressDelete u id => fst (delete_shipping_address db book u id)
  | AddressDefault u id => fst (patch_shipping_address_default db book u id)
  end.

(** Number of default addresses. *)
Definition defaults (l : list SavedAddress) : nat := length (List.filter isDefault l).

(** An address book has exactly one default address unless it is empty. *)
Definition book_ok (l : list SavedAddress) : Prop := l = [] \/ defaults l = 1%nat.

(** A sample address. *)
Definition home : Address := mkAddress "1 Main St" "Springfield" "IL" "62701" "USA" "".

(** ** routes/category.js *)

(** A category document, with the fields the routes name (models/Category.js
    is not among the sources). *)
Record Category := mkCategory {
  cat_name : string;
  cat_description : string;
  cat_imageUrl : string;
  parentCategory : option ObjectId;
  cat_isActive : bool;
}.

(** A node of the reply of GET /hierarchy/tree. *)
#[warnings="-register-all"] Inductive CategoryTree :=
  | CategoryNode (id : ObjectId) (c : Category) (children : list CategoryTree).

(** [buildTree] of GET /hierarchy/tree over the array [categories].  The
    JavaScript function recurses without a bound; here a call that runs out
    of [fuel] is [None]. *)
Fixpoint buildTree (fuel : nat) (categories : list (ObjectId * Category))
    (parentId : option ObjectId) : option (list CategoryTree) :=
  match fuel with
  | O => None
  | S fuel' =>
    mapM (fun cat =>
            CategoryNode (fst cat) (snd cat) <$> buildTree fuel' categories (Some (fst cat)))
         (List.filter (fun cat => bool_decide (parentCategory (snd cat) = parentId))
                      categories)
  end.

(** GET /api/categories/hierarchy/tree.  [by_name] is the category
    collection sorted by name, as [find().sort({ name: 1 })] returns it. *)
Definition get_category_tree (fuel : nat) (by_name : list (ObjectId * Category))
    : option (list CategoryTree) :=
  buildTree fuel (List.filter (fun cat => cat_isActive (snd cat)) by_name) None.

(** [getAllSubcategories] of GET /:id/products over the category
    collection, with [fuel] as for [buildTree]. *)
Fixpoint getAllSubcategories (fuel : nat) (cats : list (ObjectId * Category))
    (categoryId : ObjectId) : option (list ObjectId) :=
  match fuel with
  | O => None
  | S fuel' =>
    let subcategories :=
      List.filter (fun cat => bool_decide (parentCategory (snd cat) = Some categoryId))
                  cats in
    subIds ← mapM (fun sub => getAllSubcategories fuel' cats (fst sub)) subcategories;
    Some (categoryId :: concat subIds)
  end.

(** [findByIdAndDelete] on the collection. *)
Fixpoint remove_category (id : ObjectId) (cats : list (ObjectId * Category))
    : list (ObjectId * Category) :=
  match cats with
  | [] => []
  | cat :: rest => if String.eqb (fst cat) id then rest else cat :: remove_category id rest
  end.

(** DELETE /api/categories/:id (admin only). *)
Definition delete_category (db : Db) (cats : list (ObjectId * Category))
    (userId id : ObjectId) : list (ObjectId * Category) * Reply Category :=
  match users db !! userId with
  | None => (cats, Fail 403 "Admin access only")
  | Some user =>
    if negb (String.eqb (role user) "admin")
    then (cats, Fail 403 "Admin access only")
    else
      let productCount :=
        size (filter (fun kp => category (snd kp) = id) (products db)) in
      if (0 <? productCount)%nat
      then (cats, Fail 400
              "Cannot delete category with products. Please move or delete products first.")
      else
        let subcategoryCount :=
          length (List.filter (fun cat => bool_decide (parentCategory (snd cat) = Some id))
                              cats) in
        if (0 <? subcategoryCount)%nat
        then (cats, Fail 400
                "Cannot delete category with subcategories. Please delete subcategories first.")
        else
          match List.find (fun cat => String.eqb (fst cat) id) cats with
          | None => (cats, Fail 404 "Category not found")
          | Some cat => (remove_category id cats, Json 200 (snd cat))
          end
  end.

(** [path] lists a category, its parent, the parent of that, and so on up
    to a category without parent; [parentId] names the first of them. *)
Fixpoint chain (cats : list (ObjectId * Category)) (path : list ObjectId)
    (parentId : option ObjectId) : Prop :=
  match path with
  | [] => parentId = None
  | x :: rest =>
    parentId = Some x /\ exists c, In (x, c) cats /\ chain cats rest (parentCategory c)
  end.

(** Every parent that a category names is a category of the collection. *)
Definition parents_resolve (cats : list (ObjectId * Category)) : Prop :=
  forall id c q, In (id, c) cats -> parentCategory c = Some q -> In q (map fst cats).

(** Sample categories: b under a, and c and d under each other. *)
Definition demo_categories : list (ObjectId * Category) :=
  [ ("a", mkCategory "Audio" "" "" None true);
    ("b", mkCategory "Bass" "" "" (Some "a") true);
    ("c", mkCategory "Cables" "" "" (Some "d") true);
    ("d", mkCategory "Docks" "" "" (Some "c") true) ].

(** ** routes/admin.js: the revenue of GET /analytics *)

(** The [$match] of the revenue aggregation: status paid or delivered. *)
Definition counts_as_revenue (o : Order) : bool :=
  match status o with
  | paid | delivered => true
  | _ => false
  end.

(** What an order adds to the [$sum] of [total]. *)
Definition revenue_of (o : Order) : Q := if counts_as_revenue o then total o else 0%Q.

(** [totalRevenue[0]?.total || 0]: the sum of [total] over the matching
    orders, 0 when there is none. *)
Definition totalRevenue (db : Db) : Q :=
  or_zero (map_fold (fun _ o acc => (acc + revenue_of o)%Q) 0%Q (orders db)).

(** ** The routers *)

Inductive Method := GET | POST | PUT | PATCH | DELETE.

(** A segment of a route path: a literal, or a parameter such as [:id]. *)
Inductive Segment :=
  | Lit (s : string)
  | Param.

(** The handlers of routes/order.js, in the order of the file. *)
Inductive OrderRoute :=
  | PlaceOrder | GetOrderById | UpdateOrder | CancelOrder | GetOrdersByStatus
  | GetMyOrders | GetVendorOrders | PayOrder | UpdateOrderStatus.

Definition order_routes : list (Method * list Segment * OrderRoute) :=
  [ (POST, [], PlaceOrder);
    (GET, [Param], GetOrderById);
    (PUT, [Param], UpdateOrder);
    (DELETE, [Param], CancelOrder);
    (GET, [Lit "status"; Param], GetOrdersByStatus);
    (GET, [Lit "mine"], GetMyOrders);
    (GET, [Lit "vendor"], GetVendorOrders);
    (PATCH, [Param; Lit "pay"], PayOrder);
    (PATCH, [Param; Lit "status"], UpdateOrderStatus) ].

(** The handlers of routes/notifications.js, in the order of the file. *)
Inductive NotificationRoute :=
  | GetNotifications | MarkRead | MarkAllRead | DeleteNotification | ClearNotifications.

Definition notification_routes : list (Method * list Segment * NotificationRoute) :=
  [ (GET, [], GetNotifications);
    (PATCH, [Param; Lit "read"], MarkRead);
    (PATCH, [Lit "read-all"], MarkAllRead);
    (DELETE, [Param], DeleteNotification);
    (DELETE, [Lit "clear"], ClearNotifications) ].

Definition Method_eqb (a b : Method) : bool :=
  match a, b with
  | GET, GET | POST, POST | PUT, PUT | PATCH, PATCH | DELETE, DELETE => true
  | _, _ => false
  end.

Section Routing.
(** How the router compares a literal segment with a segment of the
    request path. *)
Variable lit_eq : string -> string -> bool.

(** Does the route path match the segments of the request path?  A
    parameter matches any segment. *)
Fixpoint path_matches (pattern : list Segment) (path : list string) : bool :=
  match pattern, path with
  | [], [] => true
  | Lit s :: pattern', x :: path' => lit_eq s x && path_matches pattern' path'
  | Param :: pattern', x :: path' => path_matches pattern' path'
  | _, _ => false
  end.

(** The handler a router runs: the first route, in the order of
    declaration, whose method and path match.  No handler of the sources
    passes the request on. *)
Fixpoint dispatch {H : Type} (routes : list (Method * list Segment * H))
    (m : Method) (path : list string) : option H :=
  match routes with
  | [] => None
  | (m', pattern, h) :: rest =>
    if Method_eqb m' m && path_matches pattern path
    then Some h
    else dispatch rest m path
  end.
End Routing.

(** ** routes/product.js: POST / *)

(** The body of POST /api/products; an absent key is [None]. *)
Record NewProduct := mkNewProduct {
  np_name : option string;
  np_price : option Q;
  np_description : option string;
  np_imageUrl : option string;
  np_offer : option Q;
  np_category : option string;
  np_stock : option Z;
}.

(** POST /api/products (a vendor or an admin); [newId] is the id of the
    new document.  The schema requires [name] and [price]: without one of
    them (an empty name counts as none) [save] throws and the reply is 500.
    The vendor is the caller; [offer || 0], [category || 'general'] and
    [stock || 0] are stored, the stock as it was sent. *)
Definition post_product (db : Db) (userId newId : ObjectId) (body : NewProduct)
    : Db * Reply Product :=
  match users db !! userId with
  | None => (db, Fail 403 "Only vendors and admins can add products")
  | Some user =>
    if negb (String.eqb (role user) "vendor") && negb (String.eqb (role user) "admin")
    then (db, Fail 403 "Only vendors and admins can add products")
    else
      match np_name body, np_price body with
      | Some n, Some pr =>
        if String.eqb n "" then (db, Fail 500 "Error adding product")
        else
          let p := mkProduct n pr (default "" (np_description body))
                             (default "" (np_imageUrl body)) userId
                             (or_zero (default 0%Q (np_offer body)))
                             (match np_category body with
                              | Some c => if String.eqb c "" then "general" else c
                              | None => "general"
                              end)
                             (default 0 (np_stock body)) in
          (mkDb (users db) (<[newId := p]> (products db)) (orders db), Json 201 p)
      | _, _ => (db, Fail 500 "Error adding product")
      end
  end.

(** Every request that writes the order collection or the stock of the
    catalogue: the requests of [Request] and the creation of a product, which
    gets a fresh id.  (POST /:id/images writes the image list only, which
    [Product] leaves out.) *)
Inductive CatalogueRequest :=
  | Write (r : Request)
  | PostProduct (userId : ObjectId) (body : NewProduct).

Definition catalogue_handle (db : Db) (r : CatalogueRequest) : Db :=
  match r with
  | Write r => handle db r
  | PostProduct userId body =>
    fst (post_product db userId (fresh (dom (products db))) body)
  end.

Definition catalogue_run (db : Db) (rs : list CatalogueRequest) : Db :=
  fold_left catalogue_handle rs db.

(** A request that sends no negative quantity and no negative stock. *)
Definition catalogue_benign (r : CatalogueRequest) : bool :=
  match r with
  | Write r => benign r
  | PostProduct _ body =>
    match np_stock body with Some s => 0 <=? s | None => true end
  end.

(** * Proofs *)

(** ** Numbers and strings *)

Lemma Qlt_bool_iff (x y : Q) : Qlt_bool x y = true <-> (x < y)%Q.
Proof.
  unfold Qlt_bool. rewrite negb_true_iff. split.
  - intros H. apply Qnot_le_lt. intros Hle.
    apply Qle_bool_iff in Hle. congruence.
  - intros H. destruct (Qle_bool y x) eqn:E; [|reflexivity].
    apply Qle_bool_iff in E. exfalso. exact (Qlt_not_le _ _ H E).
Qed.

Lemma Qlt_bool_false_iff (x y : Q) : Qlt_bool x y = false <-> (y <= x)%Q.
Proof.
  unfold Qlt_bool. rewrite negb_false_iff. apply Qle_bool_iff.
Qed.

Lemma or_zero_eq (x : Q) : (or_zero x == x)%Q.
Proof.
  unfold or_zero. destruct (Qeq_bool x 0) eqn:E; [|reflexivity].
  apply Qeq_bool_iff in E. symmetry. exact E.
Qed.

Lemma unit_price_eq (p : Product) :
  (price p * (1 - or_zero (offer p) / 100) == line_price p)%Q.
Proof. unfold line_price. rewrite or_zero_eq. reflexivity. Qed.

Lemma set_stock_same (p : Product) : set_stock p (stock p) = p.
Proof. destruct p; reflexivity. Qed.

(** ** The order loop *)

Lemma requested_absent (k : ObjectId) (its : list ReqItem) :
  ~ In k (map req_product its) -> requested k its = 0.
Proof.
  induction its as [|it rest IH]; simpl; [reflexivity|].
  intros H. destruct (String.eqb_spec (req_product it) k) as [E|E].
  - exfalso. apply H. left. exact E.
  - rewrite IH; [reflexivity|]. intros Hin. apply H. right. exact Hin.
Qed.

Lemma spec_total_insert_stock (ps : gmap string Product) k p s its :
  ps !! k = Some p ->
  spec_total (<[k := set_stock p s]> ps) its = spec_total ps its.
Proof.
  intros Hk. induction its as [|it rest IH]; simpl; [reflexivity|].
  rewrite IH. destruct (decide (k = req_product it)) as [->|Hne].
  - rewrite lookup_insert_eq, Hk. reflexivity.
  - rewrite lookup_insert_ne by exact Hne. reflexivity.
Qed.

Lemma line_for_insert_stock (ps : gmap string Product) k p s it l :
  ps !! k = Some p ->
  line_for (<[k := set_stock p s]> ps) it l -> line_for ps it l.
Proof.
  intros Hk (H1 & H2 & q & Hq & Hpr). split; [exact H1|]. split; [exact H2|].
  destruct (decide (k = req_product it)) as [->|Hne].
  - rewrite lookup_insert_eq in Hq. inversion Hq; subst q.
    exists p. split; [exact Hk|exact Hpr].
  - rewrite lookup_insert_ne in Hq by exact Hne. exists q. split; assumption.
Qed.

(** What a run of the loop that falls through has computed. *)
Lemma order_loop_done its : forall ps t ls ps' t' ls',
  order_loop ps its t ls = (ps', LoopDone t' ls') ->
  (t' == t + spec_total ps its)%Q /\
  (exists ls0, ls' = (ls ++ ls0)%list /\ Forall2 (line_for ps) its ls0) /\
  (forall k, ps' !! k = (fun p => set_stock p (stock p - requested k its)) <$> ps !! k).
Proof.
  induction its as [|it rest IH]; intros ps t ls ps' t' ls' H; simpl in H.
  - inversion H; subst. split; [simpl; ring|]. split.
    + exists []. rewrite app_nil_r. split; [reflexivity|constructor].
    + intros k. simpl. destruct (ps' !! k) as [p|]; simpl; [|reflexivity].
      rewrite Z.sub_0_r, set_stock_same. reflexivity.
  - destruct (ps !! req_product it) as [p|] eqn:Hp; [|discriminate].
    destruct (stock p <? req_quantity it) eqn:Hlt; [discriminate|].
    apply IH in H. destruct H as (Ht & (ls0 & Hls & Hf) & Hst).
    split; [|split].
    + rewrite Ht. simpl. rewrite Hp.
      rewrite (spec_total_insert_stock _ _ _ _ _ Hp).
      rewrite unit_price_eq. ring.
    + exists (mkOrderItem (req_product it) (req_quantity it)
                (price p * (1 - or_zero (offer p) / 100))%Q :: ls0).
      split; [rewrite Hls, <- app_assoc; reflexivity|].
      constructor.
      * split; [reflexivity|]. split; [reflexivity|].
        exists p. split; [exact Hp|apply unit_price_eq].
      * eapply Forall2_impl; [exact Hf|].
        intros x y. apply line_for_insert_stock. exact Hp.
    + intros k. rewrite Hst. simpl.
      destruct (String.eqb_spec (req_product it) k) as [E|E].
      * subst k. rewrite lookup_insert_eq, Hp. simpl.
        f_equal. unfold set_stock; simpl. f_equal. lia.
      * rewrite lookup_insert_ne by exact E. reflexivity.
Qed.

(** The loop over [pre ++ rest] is the loop over [pre] followed by the
    loop over [rest], when [pre] falls through. *)
Lemma order_loop_app pre : forall rest ps t ls ps1 t1 ls1,
  order_loop ps pre t ls = (ps1, LoopDone t1 ls1) ->
  order_loop ps (pre ++ rest) t ls = order_loop ps1 rest t1 ls1.
Proof.
  induction pre as [|it pre IH]; intros rest ps t ls ps1 t1 ls1 H; simpl in *.
  - inversion H; subst. reflexivity.
  - destruct (ps !! req_product it) as [p|]; [|discriminate].
    destruct (stock p <? req_quantity it); [discriminate|].
    eapply IH. exact H.
Qed.

Lemma requested_app (k : ObjectId) (a b : list ReqItem) :
  requested k (a ++ b) = requested k a + requested k b.
Proof.
  induction a as [|it a IH]; simpl; [reflexivity|]. rewrite IH. lia.
Qed.

Lemma requested_nonneg (k : ObjectId) (its : list ReqItem) :
  (forall it, In it its -> 0 <= req_quantity it) -> 0 <= requested k its.
Proof.
  induction its as [|it rest IH]; simpl; intros H; [lia|].
  assert (0 <= req_quantity it) by (apply H; left; reflexivity).
  assert (0 <= requested k rest) by (apply IH; intros x Hx; apply H; right; exact Hx).
  destruct (String.eqb (req_product it) k); lia.
Qed.

(** Lines on pairwise distinct products are in stock as soon as each asks
    at most the stock of its product. *)
Lemma all_in_stock_distinct (ps : gmap string Product) its : forall seen,
  List.NoDup (map req_product its) ->
  (forall it, In it its -> ~ In (req_product it) (map req_product seen)) ->
  (forall it, In it its ->
     exists p, ps !! req_product it = Some p /\ req_quantity it <= stock p) ->
  all_in_stock ps seen its = true.
Proof.
  induction its as [|it rest IH]; intros seen Hnd Hseen Hall; simpl; [reflexivity|].
  inversion Hnd as [|? ? Hnotin Hnd']; subst.
  apply andb_true_iff. split.
  - unfold in_stock. destruct (Hall it (or_introl eq_refl)) as (p & Hp & Hq).
    rewrite Hp, (requested_absent _ _ (Hseen it (or_introl eq_refl))).
    apply Z.leb_le. lia.
  - apply IH; [exact Hnd'| |].
    + intros x Hx Hin. rewrite map_app in Hin. apply in_app_or in Hin.
      destruct Hin as [Hin|[Hin|[]]].
      * exact (Hseen x (or_intror Hx) Hin).
      * apply Hnotin. rewrite Hin. apply in_map. exact Hx.
    + intros x Hx. apply Hall. right. exact Hx.
Qed.

(** The loop falls through when every line is in stock after the lines
    before it.  [ps0] is the collection before the request, [ps] the one
    the loop has reached after [seen]. *)
Lemma order_loop_all_in_stock its : forall ps0 seen ps t ls,
  (forall k, ps !! k = (fun p => set_stock p (stock p - requested k seen)) <$> ps0 !! k) ->
  all_in_stock ps0 seen its = true ->
  exists ps' t' ls', order_loop ps its t ls = (ps', LoopDone t' ls').
Proof.
  induction its as [|it rest IH]; intros ps0 seen ps t ls Hinv Hall; simpl in *.
  - eauto.
  - apply andb_true_iff in Hall. destruct Hall as [Hit Hrest].
    unfold in_stock in Hit.
    destruct (ps0 !! req_product it) as [p0|] eqn:Hp0; [|discriminate].
    apply Z.leb_le in Hit.
    rewrite Hinv, Hp0. simpl.
    destruct (Z.ltb_spec (stock p0 - requested (req_product it) seen) (req_quantity it))
      as [Hlt|_]; [lia|].
    eapply IH; [|exact Hrest].
    intros k. rewrite requested_app. simpl.
    destruct (String.eqb_spec (req_product it) k) as [E|E].
    + subst k. rewrite lookup_insert_eq, Hp0. simpl.
      unfold set_stock; simpl. do 2 f_equal. lia.
    + rewrite lookup_insert_ne by exact E. rewrite Hinv.
      destruct (ps0 !! k); simpl; [|reflexivity]. do 2 f_equal. lia.
Qed.

(** After a run that falls through, every product a line names has a
    stock that is not negative. *)
Lemma order_loop_stock_nonneg its : forall ps t ls ps' t' ls',
  order_loop ps its t ls = (ps', LoopDone t' ls') ->
  forall it, In it its ->
  exists p', ps' !! req_product it = Some p' /\ 0 <= stock p'.
Proof.
  induction its as [|it rest IH]; intros ps t ls ps' t' ls' H x Hx; simpl in *.
  - contradiction.
  - destruct (ps !! req_product it) as [p|] eqn:Hp; [|discriminate].
    destruct (Z.ltb_spec (stock p) (req_quantity it)) as [|Hge]; [discriminate|].
    destruct (in_dec string_dec (req_product x) (map req_product rest)) as [Hin|Hnin].
    + apply in_map_iff in Hin. destruct Hin as (y & Hy & Hyin).
      rewrite <- Hy. eapply IH; [exact H|exact Hyin].
    + destruct Hx as [->|Hx]; [|exfalso; apply Hnin; apply in_map; exact Hx].
      apply order_loop_done in H. destruct H as (_ & _ & Hst).
      rewrite Hst, lookup_insert_eq. simpl.
      eexists. split; [reflexivity|]. simpl.
      rewrite (requested_absent _ _ Hnin). lia.
Qed.

(** ** POST /api/orders *)

Lemma post_order_customer db uid oid its addr u :
  users db !! uid = Some u -> role u = "customer" ->
  post_order db uid oid its addr =
  match its with
  | [] => (db, Fail 400 "No items in order")
  | _ =>
    match order_loop (products db) its 0%Q [] with
    | (ps, LoopReturn code msg) => (mkDb (users db) ps (orders db), Fail code msg)
    | (ps, LoopDone total orderItems) =>
      let order := new_Order uid orderItems total addr in
      (mkDb (users db) ps (<[oid := order]> (orders db)), Json 201 order)
    end
  end.
Proof.
  intros Hu Hr. unfold post_order. rewrite Hu, Hr. reflexivity.
Qed.

(** A request that is answered with an order went through the whole
    loop. *)
Lemma post_order_json_inv db uid oid its addr db' code o :
  post_order db uid oid its addr = (db', Json code o) ->
  order_loop (products db) its 0%Q [] = (products db', LoopDone (total o) (items o)) /\
  its <> [] /\ code = 201%nat /\
  o = new_Order uid (items o) (total o) addr /\
  users db' = users db /\ orders db' = <[oid := o]> (orders db).
Proof.
  unfold post_order. intros H.
  destruct (users db !! uid) as [u|]; [|discriminate].
  destruct (negb (String.eqb (role u) "customer")); [discriminate|].
  destruct its as [|it rest]; [discriminate|].
  destruct (order_loop (products db) (it :: rest) 0%Q []) as [ps [t ls|c m]];
    [|discriminate].
  inversion H; subst. simpl. repeat split; try reflexivity. discriminate.
Qed.

(** A request that is refused leaves the orders as they were. *)
Lemma post_order_fail_orders db uid oid its addr db' code msg :
  post_order db uid oid its addr = (db', Fail code msg) ->
  orders db' = orders db /\ users db' = users db.
Proof.
  unfold post_order. intros H.
  destruct (users db !! uid) as [u|]; [|inversion H; subst; split; reflexivity].
  destruct (negb (String.eqb (role u) "customer"));
    [inversion H; subst; split; reflexivity|].
  destruct its as [|it rest]; [inversion H; subst; split; reflexivity|].
  destruct (order_loop (products db) (it :: rest) 0%Q []) as [ps [t ls|c m]];
    inversion H; subst; split; reflexivity.
Qed.

(** C1 (as amended).  A customer's request with a non-empty item list in
    which every line names an existing product and asks at most the stock
    that the earlier lines of the request leave of it (for lines on distinct
    products: at most the product's stock) is answered 201 and persists an
    order: its total is the sum over the lines of
    price x (1 - offer/100) x quantity, its lines carry
    priceAtPurchase = price x (1 - offer/100), its status and its payment
    status are pending, and the stock of every product decreases by exactly
    the quantity ordered of it. *)
Theorem post_order_creates (db : Db) (uid oid : ObjectId) (u : User)
    (its : list ReqItem) (addr : option Address) :
  users db !! uid = Some u -> role u = "customer" ->
  its <> [] ->
  all_in_stock (products db) [] its = true ->
  exists db' o,
    post_order db uid oid its addr = (db', Json 201 o) /\
    users db' = users db /\
    orders db' = <[oid := o]> (orders db) /\
    customer o = uid /\ status o = pending /\ paymentStatus o = payment_pending /\
    (total o == spec_total (products db) its)%Q /\
    Forall2 (line_for (products db)) its (items o) /\
    forall k, products db' !! k =
              (fun p => set_stock p (stock p - requested k its)) <$> products db !! k.
Proof.
  intros Hu Hr Hne Hall.
  destruct (order_loop_all_in_stock its (products db) [] (products db) 0%Q [])
    as (ps' & t' & ls' & Hloop).
  - intros k. simpl. destruct (products db !! k) as [p|]; simpl; [|reflexivity].
    rewrite Z.sub_0_r, set_stock_same. reflexivity.
  - exact Hall.
  - destruct (order_loop_done _ _ _ _ _ _ _ Hloop) as (Ht & (ls0 & Hls & Hf) & Hst).
    simpl in Hls. subst ls'.
    assert (Htot : (t' == spec_total (products db) its)%Q) by (rewrite Ht; ring).
    exists (mkDb (users db) ps' (<[oid := new_Order uid ls0 t' addr]> (orders db))).
    exists (new_Order uid ls0 t' addr).
    rewrite (post_order_customer _ _ _ _ _ _ Hu Hr), Hloop.
    destruct its as [|it rest]; [congruence|].
    repeat split; try reflexivity; assumption.
Qed.

Lemma post_order_creates_witness :
  exists db' o,
    post_order demo_db "c1" "o1" [mkReqItem "p1" 2; mkReqItem "p2" 1] None
    = (db', Json 201 o) /\
    users db' = users demo_db /\
    orders db' = <[ "o1" := o]> (orders demo_db) /\
    customer o = "c1" /\ status o = pending /\ paymentStatus o = payment_pending /\
    (total o == spec_total (products demo_db) [mkReqItem "p1" 2; mkReqItem "p2" 1])%Q /\
    Forall2 (line_for (products demo_db)) [mkReqItem "p1" 2; mkReqItem "p2" 1] (items o) /\
    forall k, products db' !! k =
              (fun p => set_stock p
                          (stock p - requested k [mkReqItem "p1" 2; mkReqItem "p2" 1]))
              <$> products demo_db !! k.
Proof.
  apply (post_order_creates demo_db "c1" "o1" (mkUser "customer")).
  - reflexivity.
  - reflexivity.
  - discriminate.
  - reflexivity.
Defined.

(** C1, the claim as stated, fails: both lines name an existing product
    and ask 3 of its 5 units, yet the second line is refused, no order is
    persisted and the stock is left at 2. *)
Lemma post_order_duplicate_lines :
  let its := [mkReqItem "p1" 3; mkReqItem "p1" 3] in
  let r := post_order demo_db "c1" "o1" its None in
  role <$> users demo_db !! "c1" = Some "customer" /\
  Forall (fun it => exists p, products demo_db !! req_product it = Some p /\
                              req_quantity it <= stock p) its /\
  snd r = Fail 400 "Insufficient stock for Lamp" /\
  orders (fst r) = orders demo_db /\
  stock <$> products (fst r) !! "p1" = Some 2.
Proof.
  split; [reflexivity|]. split.
  - repeat constructor; exists (lamp 5); (split; [reflexivity|simpl; lia]).
  - split; [vm_compute; reflexivity|]. split; reflexivity.
Qed.

(** Two lamps at 10 and a desk at 80 less 50 percent: the total is 60 and
    the stock goes from 5 and 2 to 3 and 1. *)
Example post_order_two_lines :
  let r := post_order demo_db "c1" "o1" [mkReqItem "p1" 2; mkReqItem "p2" 1] None in
  exists o,
    snd r = Json 201 o /\ orders (fst r) !! "o1" = Some o /\
    (total o == 60)%Q /\
    Forall2 (fun l x => (priceAtPurchase l == x)%Q) (items o) [10%Q; 40%Q] /\
    stock <$> products (fst r) !! "p1" = Some 3 /\
    stock <$> products (fst r) !! "p2" = Some 1.
Proof.
  eexists. split; [reflexivity|]. split; [reflexivity|]. split; [reflexivity|].
  split; [repeat constructor|]. split; reflexivity.
Qed.

(** Two lamps, then three desks of which there are two: the request is
    refused, no order is stored, and the two lamps stay taken. *)
Example post_order_second_line_refused :
  let r := post_order demo_db "c1" "o1" [mkReqItem "p1" 2; mkReqItem "p2" 3] None in
  snd r = Fail 400 "Insufficient stock for Desk" /\
  orders (fst r) = orders demo_db /\
  stock <$> products (fst r) !! "p1" = Some 3 /\
  stock <$> products (fst r) !! "p2" = Some 2.
Proof. repeat split; reflexivity. Qed.

(** The first line that cannot be served decides the reply; the lines
    before it have been written to the stock. *)
Lemma order_loop_first_failure (ps : gmap string Product) pre bad post :
  all_in_stock ps [] pre = true ->
  in_stock ps pre bad = false ->
  exists ps' code msg,
    order_loop ps (pre ++ bad :: post) 0%Q [] = (ps', LoopReturn code msg) /\
    (forall k, ps' !! k = (fun p => set_stock p (stock p - requested k pre)) <$> ps !! k) /\
    match ps !! req_product bad with
    | None => code = 404%nat /\ msg = "Product not found"
    | Some p => code = 400%nat /\ msg = "Insufficient stock for " ++ name p
    end.
Proof.
  intros Hpre Hbad.
  destruct (order_loop_all_in_stock pre ps [] ps 0%Q []) as (ps1 & t1 & ls1 & Hloop).
  - intros k. simpl. destruct (ps !! k) as [p|]; simpl; [|reflexivity].
    rewrite Z.sub_0_r, set_stock_same. reflexivity.
  - exact Hpre.
  - destruct (order_loop_done _ _ _ _ _ _ _ Hloop) as (_ & _ & Hst).
    rewrite (order_loop_app _ _ _ _ _ _ _ _ Hloop). simpl.
    rewrite Hst. unfold in_stock in Hbad.
    destruct (ps !! req_product bad) as [p|] eqn:Hp; simpl.
    + apply Z.leb_gt in Hbad.
      destruct (Z.ltb_spec (stock p - requested (req_product bad) pre) (req_quantity bad))
        as [_|Hge]; [|lia].
      exists ps1, 400%nat, ("Insufficient stock for " ++ name p).
      split; [reflexivity|]. split; [exact Hst|]. split; reflexivity.
    + exists ps1, 404%nat, "Product not found".
      split; [reflexivity|]. split; [exact Hst|]. split; reflexivity.
Qed.

(** C2.  When the lines before some line are served and that line fails
    the product-exists check or the stock check, the request is answered
    with that error, no order is persisted, and the stock written for the
    earlier lines stays written: every product has lost what those lines
    ordered of it. *)
Theorem post_order_partial_failure (db : Db) (uid oid : ObjectId) (u : User)
    (pre : list ReqItem) (bad : ReqItem) (post : list ReqItem)
    (addr : option Address) :
  users db !! uid = Some u -> role u = "customer" ->
  all_in_stock (products db) [] pre = true ->
  in_stock (products db) pre bad = false ->
  exists db' code msg,
    post_order db uid oid (pre ++ bad :: post) addr = (db', Fail code msg) /\
    match products db !! req_product bad with
    | None => code = 404%nat /\ msg = "Product not found"
    | Some p => code = 400%nat /\ msg = "Insufficient stock for " ++ name p
    end /\
    orders db' = orders db /\ users db' = users db /\
    forall k, products db' !! k =
              (fun p => set_stock p (stock p - requested k pre)) <$> products db !! k.
Proof.
  intros Hu Hr Hpre Hbad.
  destruct (order_loop_first_failure _ pre bad post Hpre Hbad)
    as (ps' & code & msg & Hloop & Hst & Hmsg).
  exists (mkDb (users db) ps' (orders db)), code, msg.
  rewrite (post_order_customer _ _ _ _ _ _ Hu Hr), Hloop.
  destruct pre; simpl; repeat split; try reflexivity; assumption.
Qed.

Lemma post_order_partial_failure_witness :
  exists db' code msg,
    post_order demo_db "c1" "o1" ([mkReqItem "p1" 2] ++ mkReqItem "p2" 3 :: []) None
    = (db', Fail code msg) /\
    match products demo_db !! "p2" with
    | None => code = 404%nat /\ msg = "Product not found"
    | Some p => code = 400%nat /\ msg = "Insufficient stock for " ++ name p
    end /\
    orders db' = orders demo_db /\ users db' = users demo_db /\
    forall k, products db' !! k =
              (fun p => set_stock p (stock p - requested k [mkReqItem "p1" 2]))
              <$> products demo_db !! k.
Proof.
  apply (post_order_partial_failure demo_db "c1" "o1" (mkUser "customer")
           [mkReqItem "p1" 2] (mkReqItem "p2" 3) [] None);
    reflexivity.
Defined.

(** C7.  POST / answers a customer's empty item list with 400 (no items),
    a line naming a product that does not exist with 404, a line asking
    more than the stock left with 400 (insufficient stock); in each case no
    order is persisted. *)
Theorem post_order_rejected (db : Db) (uid oid : ObjectId) (u : User)
    (its : list ReqItem) (addr : option Address) (code : nat) (msg : string) :
  users db !! uid = Some u -> role u = "customer" ->
  Rejected (products db) its code msg ->
  exists db',
    post_order db uid oid its addr = (db', Fail code msg) /\
    orders db' = orders db.
Proof.
  intros Hu Hr Hrej. destruct Hrej as [|pre bad post Hpre Hbad|pre bad post p Hpre Hbad Hlt].
  - exists db. rewrite (post_order_customer _ _ _ _ _ _ Hu Hr). split; reflexivity.
  - destruct (order_loop_first_failure (products db) pre bad post Hpre)
      as (ps' & c & m & Hloop & _ & Hmsg).
    { unfold in_stock. rewrite Hbad. reflexivity. }
    rewrite Hbad in Hmsg. destruct Hmsg as [-> ->].
    exists (mkDb (users db) ps' (orders db)).
    rewrite (post_order_customer _ _ _ _ _ _ Hu Hr), Hloop.
    destruct pre; simpl; split; reflexivity.
  - destruct (order_loop_first_failure (products db) pre bad post Hpre)
      as (ps' & c & m & Hloop & _ & Hmsg).
    { unfold in_stock. rewrite Hbad. apply Z.leb_gt. exact Hlt. }
    rewrite Hbad in Hmsg. destruct Hmsg as [-> ->].
    exists (mkDb (users db) ps' (orders db)).
    rewrite (post_order_customer _ _ _ _ _ _ Hu Hr), Hloop.
    destruct pre; simpl; split; reflexivity.
Qed.

Lemma post_order_rejected_witness :
  exists db',
    post_order demo_db "c1" "o1" ([mkReqItem "p1" 2] ++ mkReqItem "p9" 1 :: []) None
    = (db', Fail 404 "Product not found") /\
    orders db' = orders demo_db.
Proof.
  apply (post_order_rejected demo_db "c1" "o1" (mkUser "customer")).
  - reflexivity.
  - reflexivity.
  - apply RejectedNotFound; reflexivity.
Defined.

Lemma Forall2_In_right {A B} (R : A -> B -> Prop) (l1 : list A) (l2 : list B) (y : B) :
  Forall2 R l1 l2 -> In y l2 -> exists x, In x l1 /\ R x y.
Proof.
  induction 1 as [|x y' l1 l2 Hxy _ IH]; simpl; [contradiction|].
  intros [->|Hin].
  - exists x. split; [left; reflexivity|exact Hxy].
  - destruct (IH Hin) as (x' & Hx' & HR). exists x'. split; [right; exact Hx'|exact HR].
Qed.

(** C8.  The claim does not hold of the code: the route never looks at
    the sign of a quantity (the cart route refuses a quantity below 1, PATCH
    /:id/stock a stock below 0).  A line with quantity -2 on a product with
    stock 5 passes the stock check and is answered 201; the persisted line
    has quantity -2 and the stock of the product grows from 5 to 7.  A line
    with quantity 0 is accepted and persisted as well. *)
Lemma post_order_negative_quantity :
  let r := post_order demo_db "c1" "o1" [mkReqItem "p1" (-2)] None in
  let r0 := post_order demo_db "c1" "o1" [mkReqItem "p1" 0] None in
  (exists o, snd r = Json 201 o /\ map quantity (items o) = [-2]) /\
  (fun o => map quantity (items o)) <$> orders (fst r) !! "o1" = Some [-2] /\
  stock <$> products demo_db !! "p1" = Some 5 /\
  stock <$> products (fst r) !! "p1" = Some 7 /\
  (exists o, snd r0 = Json 201 o /\ map quantity (items o) = [0]) /\
  (fun o => map quantity (items o)) <$> orders (fst r0) !! "o1" = Some [0].
Proof.
  split; [eexists; split; reflexivity|].
  split; [reflexivity|]. split; [reflexivity|]. split; [reflexivity|].
  split; [eexists; split; reflexivity|reflexivity].
Qed.

(** ** DELETE /api/orders/:id *)

Lemma restore_stock_lookup its : forall (ps : gmap string Product) k,
  restore_stock ps its !! k =
  (fun p => set_stock p (stock p + ordered_quantity k its)) <$> ps !! k.
Proof.
  induction its as [|it rest IH]; intros ps k; simpl.
  - destruct (ps !! k) as [p|]; simpl; [|reflexivity].
    rewrite Z.add_0_r, set_stock_same. reflexivity.
  - rewrite IH. destruct (String.eqb_spec (product it) k) as [E|E].
    + subst k. rewrite lookup_alter_eq.
      destruct (ps !! product it) as [p|]; simpl; [|reflexivity].
      unfold set_stock; simpl. do 2 f_equal. lia.
    + rewrite lookup_alter_ne by exact E.
      destruct (ps !! k) as [p|]; simpl; reflexivity.
Qed.

Lemma delete_order_permitted db uid id u o :
  orders db !! id = Some o -> users db !! uid = Some u ->
  may_cancel (products db) uid u o ->
  delete_order db uid id =
  match status o with
  | pending =>
    (mkDb (users db) (products db) (<[id := set_status o cancelled]> (orders db)),
     Json 200 (set_status o cancelled))
  | paid =>
    (mkDb (users db) (restore_stock (products db) (items o))
          (<[id := set_status o cancelled]> (orders db)),
     Json 200 (set_status o cancelled))
  | _ => (db, Fail 400 "Order cannot be cancelled at this stage")
  end.
Proof.
  intros Ho Hu [Hc Hv]. unfold delete_order. rewrite Ho, Hu.
  destruct (String.eqb_spec (role u) "customer") as [Ec|Ec]; simpl.
  - rewrite (Hc Ec), String.eqb_refl. simpl.
    destruct (String.eqb_spec (role u) "vendor") as [Ev|Ev]; simpl; [congruence|].
    reflexivity.
  - destruct (String.eqb_spec (role u) "vendor") as [Ev|Ev]; simpl.
    + rewrite (Hv Ev). reflexivity.
    + reflexivity.
Qed.

(** C4.  For a caller that passes the permission check: cancelling a paid
    order adds to every product's stock the quantity of each line on it and
    sets the status to cancelled; cancelling a pending order sets the status
    to cancelled and leaves all stock as it was; cancelling a delivered,
    cancelled or refunded order is refused with 400 (the specification's
    InvalidTransition) and leaves the orders and all stock as they were. *)
Theorem delete_order_cancels (db : Db) (uid id : ObjectId) (u : User) (o : Order) :
  orders db !! id = Some o -> users db !! uid = Some u ->
  may_cancel (products db) uid u o ->
  (status o = paid ->
   exists db',
     delete_order db uid id = (db', Json 200 (set_status o cancelled)) /\
     orders db' = <[id := set_status o cancelled]> (orders db) /\
     status (set_status o cancelled) = cancelled /\
     forall k, products db' !! k =
               (fun p => set_stock p (stock p + ordered_quantity k (items o)))
               <$> products db !! k) /\
  (status o = pending ->
   exists db',
     delete_order db uid id = (db', Json 200 (set_status o cancelled)) /\
     orders db' = <[id := set_status o cancelled]> (orders db) /\
     status (set_status o cancelled) = cancelled /\
     products db' = products db) /\
  (status o = delivered \/ status o = cancelled \/ status o = refunded ->
   delete_order db uid id = (db, Fail 400 "Order cannot be cancelled at this stage")).
Proof.
  intros Ho Hu Hm. rewrite (delete_order_permitted _ _ _ _ _ Ho Hu Hm).
  split; [|split].
  - intros ->. eexists. split; [reflexivity|]. simpl.
    split; [reflexivity|]. split; [reflexivity|].
    intros k. apply restore_stock_lookup.
  - intros ->. eexists. split; [reflexivity|]. simpl. repeat split; reflexivity.
  - intros [-> | [-> | ->]]; reflexivity.
Qed.

Lemma delete_order_cancels_witness :
  (exists db',
     delete_order (demo_db_with paid payment_paid) "c1" "o1"
     = (db', Json 200 (set_status (demo_order paid payment_paid) cancelled)) /\
     orders db' = <[ "o1" := set_status (demo_order paid payment_paid) cancelled]>
                    (orders (demo_db_with paid payment_paid)) /\
     status (set_status (demo_order paid payment_paid) cancelled) = cancelled /\
     forall k, products db' !! k =
               (fun p => set_stock p
                           (stock p + ordered_quantity k (items (demo_order paid payment_paid))))
               <$> products (demo_db_with paid payment_paid) !! k) /\
  delete_order (demo_db_with delivered payment_paid) "a1" "o1"
  = (demo_db_with delivered payment_paid,
     Fail 400 "Order cannot be cancelled at this stage").
Proof.
  split.
  - apply (delete_order_cancels (demo_db_with paid payment_paid) "c1" "o1"
             (mkUser "customer") (demo_order paid payment_paid));
      [reflexivity|reflexivity| |reflexivity].
    split; [reflexivity|discriminate].
  - apply (delete_order_cancels (demo_db_with delivered payment_paid) "a1" "o1"
             (mkUser "admin") (demo_order delivered payment_paid));
      [reflexivity|reflexivity| |left; reflexivity].
    split; discriminate.
Defined.

(** Cancelling the paid order of two lamps and a desk brings the stock
    back from 3 and 1 to 5 and 2. *)
Example delete_order_restores_stock :
  let r := delete_order (demo_db_with paid payment_paid) "c1" "o1" in
  status <$> orders (fst r) !! "o1" = Some cancelled /\
  stock <$> products (fst r) !! "p1" = Some 5 /\
  stock <$> products (fst r) !! "p2" = Some 2.
Proof. repeat split; reflexivity. Qed.

(** ** POST /api/payments/refund *)

(** The order that the handler saves. *)
Lemma post_payment_refund_accepted db uid oid amount reason u o :
  oid <> "" -> ~ (amount == 0)%Q ->
  orders db !! oid = Some o -> users db !! uid = Some u ->
  role u = "admin" \/ customer o = uid ->
  paymentStatus o = payment_paid ->
  (amount <= total o)%Q ->
  exists r,
    post_payment_refund db uid oid amount reason =
    (mkDb (users db) (products db)
          (<[oid := if Qeq_bool amount (total o)
                    then mkOrder (customer o) (items o) (total o) refunded
                                 (shippingAddress o) (paymentMethod o) payment_refunded
                    else o]> (orders db)),
     Json 200 r) /\
    refund_amount r = amount /\ refund_status r = "succeeded".
Proof.
  intros Hid Ha Ho Hu Hauth Hpaid Hle. unfold post_payment_refund.
  destruct (String.eqb_spec oid "") as [E|_]; [contradiction|]. simpl.
  destruct (Qeq_bool amount 0) eqn:E0; [apply Qeq_bool_iff in E0; contradiction|].
  rewrite Ho, Hu.
  assert (Hperm : negb (String.eqb (role u) "admin")
                  && negb (String.eqb (customer o) uid) = false).
  { destruct Hauth as [-> | ->]; [reflexivity|].
    rewrite String.eqb_refl. apply andb_false_r. }
  rewrite Hperm, Hpaid.
  apply Qlt_bool_false_iff in Hle. rewrite Hle.
  eexists. split; [reflexivity|]. split; reflexivity.
Qed.

(** Whatever the handler answers, it writes at most the order of the
    request, and only in the full-refund branch. *)
Lemma post_payment_refund_orders db uid oid amount reason db' rep :
  post_payment_refund db uid oid amount reason = (db', rep) ->
  users db' = users db /\ products db' = products db /\
  (orders db' = orders db \/
   exists o, orders db !! oid = Some o /\ paymentStatus o = payment_paid /\
             (amount == total o)%Q /\
             orders db' =
             <[oid := mkOrder (customer o) (items o) (total o) refunded
                              (shippingAddress o) (paymentMethod o) payment_refunded]>
               (orders db)).
Proof.
  unfold post_payment_refund. intros H.
  destruct (String.eqb oid "" || Qeq_bool amount 0); [inversion H; subst; auto|].
  destruct (orders db !! oid) as [o|] eqn:Ho; [|inversion H; subst; auto].
  destruct (users db !! uid) as [u|]; [|inversion H; subst; auto].
  destruct (negb (String.eqb (role u) "admin") && negb (String.eqb (customer o) uid));
    [inversion H; subst; auto|].
  destruct (paymentStatus o) eqn:Hp; try (inversion H; subst; auto; fail).
  destruct (Qlt_bool (total o) amount); [inversion H; subst; auto|].
  destruct (Qeq_bool amount (total o)) eqn:Eq; inversion H; subst; simpl.
  - split; [reflexivity|]. split; [reflexivity|]. right.
    exists o. apply Qeq_bool_iff in Eq. repeat split; assumption.
  - split; [reflexivity|]. split; [reflexivity|]. left.
    apply insert_id. exact Ho.
Qed.

(** C5, the claim as stated, fails: an order of a product on a 100
    percent offer has total 0; once it is paid, a refund of exactly its
    total is refused by the presence check of line 96 ([!amount]) and the
    order stays paid. *)
Lemma post_payment_refund_zero_total :
  let db0 := mkDb demo_users {[ "p1" := mkProduct "Gift" 10 "" "" "v1" 100 "general" 5 ]} ∅ in
  let db1 := fst (post_order db0 "c1" "o1" [mkReqItem "p1" 1] None) in
  let db2 := fst (post_payment_confirm db1 "c1" "pi_1" "o1") in
  exists o,
    orders db2 !! "o1" = Some o /\
    status o = paid /\ paymentStatus o = payment_paid /\ (total o == 0)%Q /\
    post_payment_refund db2 "c1" "o1" (total o) ""
    = (db2, Fail 400 "Order ID and amount are required").
Proof.
  eexists. split; [reflexivity|]. repeat split; reflexivity.
Qed.

(** C5 (as amended).  A refund is accepted only for an order whose payment
    status is paid and an amount that does not exceed the order's total; an
    amount above the total is refused; for a request with an order id and an
    amount other than 0, sent by the admin or the order's customer on a paid
    order, an amount equal to the total sets both the status and the payment
    status to refunded; a request with amount 0 is refused as incomplete
    and changes nothing. *)
Theorem post_payment_refund_rules (db : Db) (uid oid : ObjectId) (amount : Q)
    (reason : string) (o : Order) :
  orders db !! oid = Some o ->
  (forall db' code r,
     post_payment_refund db uid oid amount reason = (db', Json code r) ->
     paymentStatus o = payment_paid /\ (amount <= total o)%Q) /\
  ((total o < amount)%Q ->
   exists code msg, post_payment_refund db uid oid amount reason = (db, Fail code msg)) /\
  (forall u,
     oid <> "" -> ~ (amount == 0)%Q -> users db !! uid = Some u ->
     role u = "admin" \/ customer o = uid ->
     paymentStatus o = payment_paid -> (amount == total o)%Q ->
     exists db' r o',
       post_payment_refund db uid oid amount reason = (db', Json 200 r) /\
       orders db' !! oid = Some o' /\
       status o' = refunded /\ paymentStatus o' = payment_refunded) /\
  ((amount == 0)%Q ->
   post_payment_refund db uid oid amount reason
   = (db, Fail 400 "Order ID and amount are required")).
Proof.
  intros Ho. split; [|split; [|split]]; cycle 3.
  { intros Hz. unfold post_payment_refund. apply Qeq_bool_iff in Hz.
    rewrite Hz, orb_true_r. reflexivity. }
  - intros db' code r H. unfold post_payment_refund in H. rewrite Ho in H.
    destruct (String.eqb oid "" || Qeq_bool amount 0); [discriminate|].
    destruct (users db !! uid) as [u|]; [|discriminate].
    destruct (negb (String.eqb (role u) "admin") && negb (String.eqb (customer o) uid));
      [discriminate|].
    destruct (paymentStatus o); try discriminate.
    destruct (Qlt_bool (total o) amount) eqn:E; [discriminate|].
    apply Qlt_bool_false_iff in E. split; [reflexivity|exact E].
  - intros Hgt. apply Qlt_bool_iff in Hgt.
    unfold post_payment_refund. rewrite Ho.
    destruct (String.eqb oid "" || Qeq_bool amount 0); [eauto|].
    destruct (users db !! uid) as [u|]; [|eauto].
    destruct (negb (String.eqb (role u) "admin") && negb (String.eqb (customer o) uid));
      [eauto|].
    destruct (paymentStatus o); eauto.
    rewrite Hgt. eauto.
  - intros u Hid Ha Hu Hauth Hpaid Heq.
    destruct (post_payment_refund_accepted db uid oid amount reason u o
                Hid Ha Ho Hu Hauth Hpaid) as (r & Hr & _).
    { rewrite Heq. apply Qle_refl. }
    apply Qeq_bool_iff in Heq. rewrite Heq in Hr.
    eexists _, r, _. split; [exact Hr|]. simpl.
    rewrite lookup_insert_eq. split; [reflexivity|]. split; reflexivity.
Qed.

Lemma post_payment_refund_rules_witness :
  exists db' r o',
    post_payment_refund (demo_db_with paid payment_paid) "c1" "o1" 60 "" = (db', Json 200 r) /\
    orders db' !! "o1" = Some o' /\
    status o' = refunded /\ paymentStatus o' = payment_refunded.
Proof.
  apply (proj1 (proj2 (proj2 (post_payment_refund_rules (demo_db_with paid payment_paid)
                         "c1" "o1" 60 "" (demo_order paid payment_paid) eq_refl)))
           (mkUser "customer")).
  - discriminate.
  - intros H. discriminate H.
  - reflexivity.
  - right. reflexivity.
  - reflexivity.
  - reflexivity.
Defined.

(** C10.  A complete refund request of the admin or the order's customer
    on an order whose payment status is paid, with an amount strictly
    between 0 and the order's total, is answered with a succeeded refund and
    leaves the database, hence the order's status, payment status, total and
    items, as it was; a refund request changes the order only when its
    amount equals the total. *)
Theorem post_payment_refund_partial (db : Db) (uid oid : ObjectId) (amount : Q)
    (reason : string) (u : User) (o : Order) :
  oid <> "" ->
  orders db !! oid = Some o -> users db !! uid = Some u ->
  role u = "admin" \/ customer o = uid ->
  paymentStatus o = payment_paid ->
  (0 < amount)%Q -> (amount < total o)%Q ->
  (exists r,
     post_payment_refund db uid oid amount reason = (db, Json 200 r) /\
     refund_amount r = amount /\ refund_status r = "succeeded") /\
  (forall amount' reason' db' rep o',
     post_payment_refund db uid oid amount' reason' = (db', rep) ->
     orders db' !! oid = Some o' -> o' <> o -> (amount' == total o)%Q).
Proof.
  intros Hid Ho Hu Hauth Hpaid Hpos Hlt. split.
  - destruct (post_payment_refund_accepted db uid oid amount reason u o)
      as (r & Hr & Hre); try assumption.
    + intros E. rewrite E in Hpos. exact (Qlt_irrefl _ Hpos).
    + apply Qlt_le_weak. exact Hlt.
    + exists r. split; [|exact Hre]. rewrite Hr.
      destruct (Qeq_bool amount (total o)) eqn:E.
      * apply Qeq_bool_iff in E. rewrite E in Hlt. destruct (Qlt_irrefl _ Hlt).
      * rewrite (insert_id _ _ _ Ho). destruct db; reflexivity.
  - intros amount' reason' db' rep o' H Ho' Hne.
    apply post_payment_refund_orders in H.
    destruct H as (_ & _ & [Hsame | (o0 & Ho0 & _ & Heq & _)]).
    + rewrite Hsame, Ho in Ho'. congruence.
    + rewrite Ho in Ho0. inversion Ho0; subst o0. exact Heq.
Qed.

Lemma post_payment_refund_partial_witness :
  exists r,
    post_payment_refund (demo_db_with paid payment_paid) "c1" "o1" 25 ""
    = (demo_db_with paid payment_paid, Json 200 r) /\
    refund_amount r = 25%Q /\ refund_status r = "succeeded".
Proof.
  apply (post_payment_refund_partial (demo_db_with paid payment_paid) "c1" "o1" 25 ""
           (mkUser "customer") (demo_order paid payment_paid)).
  - discriminate.
  - reflexivity.
  - reflexivity.
  - right. reflexivity.
  - reflexivity.
  - reflexivity.
  - reflexivity.
Defined.

(** ** POST /api/shipping/calculate *)

Lemma shipping_loop_sums its : forall w v,
  (fst (shipping_loop its w v) == w + spec_weight its)%Q /\
  (snd (shipping_loop its w v) == v + spec_subtotal its)%Q.
Proof.
  unfold spec_weight.
  induction its as [|it rest IH]; intros w v; simpl.
  - unfold units; simpl. split; ring.
  - destruct (IH (w + 0.5 * inject_Z (ship_quantity it))%Q
                 (v + match ship_price it with Some x => or_zero x | None => 0 end
                      * inject_Z (ship_quantity it))%Q) as [Hw Hv].
    split.
    + rewrite Hw. unfold units; simpl. fold (units rest).
      rewrite inject_Z_plus. ring.
    + rewrite Hv. destruct (ship_price it) as [x|]; [rewrite or_zero_eq|]; ring.
Qed.

(** What POST /calculate answers for a request with items and a
    destination, in terms of the rate object of line 50. *)
Lemma post_shipping_calculate_rates (its : list ShipItem) (destination : string)
    (method : option string) :
  its <> [] -> destination <> "" ->
  exists q,
    post_shipping_calculate its destination method = Json 200 q /\
    ((50 < spec_subtotal its)%Q -> shippingCost q = Some 0%Q) /\
    (~ (50 < spec_subtotal its)%Q ->
     match rate_of (default "standard" method) with
     | OwnRate r => cost_is q (base r + perKg r * spec_weight its)
     | Inherited => shippingCost q = None
     end) /\
    estimatedDays q = match rate_of (default "standard" method) with
                      | OwnRate r => Some (maxDays r)
                      | Inherited => None
                      end /\
    shippingMethod q = default "standard" method /\
    (totalWeight q == spec_weight its)%Q.
Proof.
  intros Hne Hd. unfold post_shipping_calculate.
  destruct its as [|it rest] eqn:Hits; [congruence|]. rewrite <- Hits. clear Hne.
  destruct (String.eqb_spec destination "") as [E|_]; [contradiction|].
  destruct (shipping_loop_sums its 0 0) as [Hw Hv].
  destruct (shipping_loop its 0 0) as [w v]. simpl in Hw, Hv.
  eexists. split; [reflexivity|]. cbn [shippingCost estimatedDays shippingMethod totalWeight].
  assert (Hw' : (w == spec_weight its)%Q) by (rewrite Hw; ring).
  assert (Hv' : (v == spec_subtotal its)%Q) by (rewrite Hv; ring).
  split; [|split; [|split; [|split]]].
  - intros Hgt. rewrite <- Hv' in Hgt. apply Qlt_bool_iff in Hgt.
    rewrite Hgt. reflexivity.
  - intros Hngt. destruct (Qlt_bool 50 v) eqn:E.
    { apply Qlt_bool_iff in E. rewrite Hv' in E. contradiction. }
    destruct (rate_of (default "standard" method)) as [r|]; [|reflexivity].
    eexists. split; [reflexivity|]. rewrite Hw'. ring.
  - reflexivity.
  - reflexivity.
  - exact Hw'.
Qed.

(** C9.  For a request with items and a destination, the returned cost
    is 0 when the subtotal (sum of price x quantity) is strictly greater
    than 50, whatever the weight and the method; otherwise it is
    base[method] + perKg[method] x totalWeight with the base and the price
    per kg that the rate table (lines 32-48) gives the method (standard when
    the body names none): 5.99 and 2.50 for standard, 12.99 and 4.00 for
    express, 24.99 and 6.00 for overnight; totalWeight is 0.5 kg per unit of
    quantity across all items. *)
Theorem post_shipping_calculate_cost (its : list ShipItem) (destination : string)
    (method : option string) :
  its <> [] -> destination <> "" ->
  exists q,
    post_shipping_calculate its destination method = Json 200 q /\
    (totalWeight q == spec_weight its)%Q /\
    ((50 < spec_subtotal its)%Q -> shippingCost q = Some 0%Q) /\
    (~ (50 < spec_subtotal its)%Q ->
     (default "standard" method = "standard" ->
      cost_is q (5.99 + 2.50 * spec_weight its)) /\
     (default "standard" method = "express" ->
      cost_is q (12.99 + 4.00 * spec_weight its)) /\
     (default "standard" method = "overnight" ->
      cost_is q (24.99 + 6.00 * spec_weight its)) /\
     (forall rate, shippingRates (default "standard" method) = Some rate ->
                   cost_is q (base rate + perKg rate * spec_weight its))).
Proof.
  intros Hne Hd.
  destruct (post_shipping_calculate_rates its destination method Hne Hd)
    as (q & Hq & Hfree & Hcost & _ & _ & Hw).
  exists q. split; [exact Hq|]. split; [exact Hw|]. split; [exact Hfree|].
  intros Hn. specialize (Hcost Hn).
  repeat split.
  - intros E. rewrite E in Hcost. exact Hcost.
  - intros E. rewrite E in Hcost. exact Hcost.
  - intros E. rewrite E in Hcost. exact Hcost.
  - intros rate Hrate. unfold rate_of in Hcost. rewrite Hrate in Hcost. exact Hcost.
Qed.

Lemma post_shipping_calculate_cost_witness :
  (exists q,
     post_shipping_calculate [mkShipItem 2 (Some 10%Q); mkShipItem 1 None] "Paris"
                             (Some "express") = Json 200 q /\
     cost_is q (12.99 + 4.00 * spec_weight [mkShipItem 2 (Some 10%Q); mkShipItem 1 None])) /\
  (exists q,
     post_shipping_calculate [mkShipItem 3 (Some 20%Q)] "Paris" (Some "overnight")
     = Json 200 q /\
     shippingCost q = Some 0%Q).
Proof.
  split.
  - destruct (post_shipping_calculate_cost
                [mkShipItem 2 (Some 10%Q); mkShipItem 1 None] "Paris" (Some "express")
                ltac:(discriminate) ltac:(discriminate))
      as (q & Hq & _ & _ & Hcost).
    exists q. split; [exact Hq|].
    apply Hcost; [intros H; discriminate H|reflexivity].
  - destruct (post_shipping_calculate_cost
                [mkShipItem 3 (Some 20%Q)] "Paris" (Some "overnight")
                ltac:(discriminate) ltac:(discriminate))
      as (q & Hq & _ & Hfree & _).
    exists q. split; [exact Hq|]. apply Hfree. reflexivity.
Defined.

(** Two lines of 2 x 10 and 1 x nothing sent express: 12.99 + 4.00 x 1.5. *)
Example post_shipping_calculate_express :
  exists q,
    post_shipping_calculate [mkShipItem 2 (Some 10%Q); mkShipItem 1 None] "Paris"
                            (Some "express") = Json 200 q /\
    cost_is q 18.99 /\ estimatedDays q = Some 3%nat /\ freeShipping q = false.
Proof.
  eexists. split; [reflexivity|]. split; [|split; reflexivity].
  eexists. split; [reflexivity|reflexivity].
Qed.

(** The scenario of the specification: a subtotal of 60 ships free,
    whatever the weight and the method. *)
Example post_shipping_calculate_free :
  shippingCost <$>
    match post_shipping_calculate [mkShipItem 3 (Some 20%Q)] "Paris" (Some "overnight") with
    | Json _ q => Some q
    | Fail _ _ => None
    end = Some (Some 0%Q).
Proof. reflexivity. Qed.

(** A method named like an inherited member on a cart that does not ship
    free: the cost is NaN and there are no estimated days. *)
Example post_shipping_calculate_inherited :
  post_shipping_calculate [mkShipItem 1 (Some 10%Q)] "Paris" (Some "constructor")
  = Json 200 (mkQuote None None "constructor" (0 + 0.5 * inject_Z 1)%Q false).
Proof. reflexivity. Qed.

(** ** Terminal states *)

(** C3, the claim as stated, fails: an admin update moves a refunded order
    back to pending and a full refund moves a delivered, paid order to
    refunded; the vendor's status update moves a delivered order to shipped
    and the payment confirmation a cancelled order to paid. *)
Lemma terminal_status_exited :
  let st (d : Db) := status <$> orders d !! "o1" in
  (st (demo_db_with refunded payment_refunded) = Some refunded /\
   st (fst (put_order (demo_db_with refunded payment_refunded) "a1" "o1"
              (mkOrderUpdate (Some "pending") None None))) = Some pending) /\
  (st (demo_db_with delivered payment_paid) = Some delivered /\
   st (fst (post_payment_refund (demo_db_with delivered payment_paid) "c1" "o1" 60 ""))
   = Some refunded) /\
  (st (fst (patch_order_status (demo_db_with delivered payment_paid) "v1" "o1" "shipped"))
   = Some shipped) /\
  (st (demo_db_with cancelled payment_pending) = Some cancelled /\
   st (fst (post_payment_confirm (demo_db_with cancelled payment_pending) "c1" "pi_1" "o1"))
   = Some paid).
Proof. repeat split; vm_compute; reflexivity. Qed.

Lemma patch_order_pay_terminal db uid id o :
  orders db !! id = Some o -> terminal (status o) = true ->
  exists code msg, patch_order_pay db uid id = (db, Fail code msg).
Proof.
  intros Ho Ht. unfold patch_order_pay. rewrite Ho.
  destruct (users db !! uid) as [u|]; [|eauto].
  destruct (negb (String.eqb (role u) "customer")); [eauto|].
  destruct (negb (String.eqb (customer o) uid)); [eauto|].
  destruct (status o); try discriminate; eauto.
Qed.

Lemma delete_order_terminal db uid id o :
  orders db !! id = Some o -> terminal (status o) = true ->
  exists code msg, delete_order db uid id = (db, Fail code msg).
Proof.
  intros Ho Ht. unfold delete_order. rewrite Ho.
  destruct (users db !! uid) as [u|]; [|eauto].
  destruct (String.eqb (role u) "customer" && negb (String.eqb (customer o) uid));
    [eauto|].
  destruct (String.eqb (role u) "vendor"
            && negb (existsb (vendor_of_line (products db) uid) (items o))); [eauto|].
  destruct (status o); try discriminate; eauto.
Qed.

Lemma put_order_status db uid id body db' code o o' :
  orders db !! id = Some o ->
  put_order db uid id body = (db', Json code o') ->
  orders db' !! id = Some o' /\
  status o' = default (status o) (upd_status body ≫= status_of_string) /\
  total o' = default (total o) (upd_total body) /\
  items o' = items o.
Proof.
  intros Ho H. unfold put_order in H. rewrite Ho in H.
  destruct (users db !! uid) as [u|]; [|discriminate].
  destruct (negb (String.eqb (role u) "admin")); [discriminate|].
  destruct (upd_status body) as [s|]; simpl in H.
  - destruct (status_of_string s) as [st|] eqn:Est; [|discriminate].
    inversion H; subst. simpl. rewrite Est, lookup_insert_eq.
    repeat split; reflexivity.
  - inversion H; subst. simpl. rewrite lookup_insert_eq. repeat split; reflexivity.
Qed.

(** C3 (as amended).  For an order whose status is delivered, cancelled
    or refunded: the customer's pay request and the cancellation are refused
    and leave the database as it was; a refund request leaves the status as
    it was unless it is a full refund of an order whose payment status is
    paid, which sets it to refunded; an admin update that is answered with
    the order sets the status to the one of its body, whatever that is. *)
Theorem terminal_status_guarded (db : Db) (id : ObjectId) (o : Order) :
  orders db !! id = Some o -> terminal (status o) = true ->
  (forall uid, exists code msg, patch_order_pay db uid id = (db, Fail code msg)) /\
  (forall uid, exists code msg, delete_order db uid id = (db, Fail code msg)) /\
  (forall uid amount reason,
     exists o', orders (fst (post_payment_refund db uid id amount reason)) !! id = Some o' /\
                (status o' = status o \/
                 status o' = refunded /\ paymentStatus o = payment_paid /\
                 (amount == total o)%Q)) /\
  (forall uid body db' code o',
     put_order db uid id body = (db', Json code o') ->
     orders db' !! id = Some o' /\
     status o' = default (status o) (upd_status body ≫= status_of_string)).
Proof.
  intros Ho Ht. split; [|split; [|split]].
  - intros uid. eapply patch_order_pay_terminal; eassumption.
  - intros uid. eapply delete_order_terminal; eassumption.
  - intros uid amount reason.
    destruct (post_payment_refund db uid id amount reason) as [db' rep] eqn:H.
    apply post_payment_refund_orders in H.
    destruct H as (_ & _ & [Hsame | (o0 & Ho0 & Hp & Heq & Hins)]); simpl.
    + exists o. rewrite Hsame. split; [exact Ho|left; reflexivity].
    + rewrite Ho in Ho0. inversion Ho0; subst o0.
      eexists. rewrite Hins, lookup_insert_eq. split; [reflexivity|].
      right. simpl. repeat split; assumption.
  - intros uid body db' code o' H.
    destruct (put_order_status _ _ _ _ _ _ _ _ Ho H) as (H1 & H2 & _).
    split; assumption.
Qed.

Lemma terminal_status_guarded_witness :
  (exists code msg,
     patch_order_pay (demo_db_with delivered payment_paid) "c1" "o1"
     = (demo_db_with delivered payment_paid, Fail code msg)) /\
  (exists code msg,
     delete_order (demo_db_with delivered payment_paid) "c1" "o1"
     = (demo_db_with delivered payment_paid, Fail code msg)).
Proof.
  destruct (terminal_status_guarded (demo_db_with delivered payment_paid) "o1"
              (demo_order delivered payment_paid) eq_refl eq_refl)
    as (Hpay & Hdel & _).
  split; [apply Hpay|apply Hdel].
Defined.

(** ** The price snapshot *)

Lemma fresh_order_id (db : Db) (id : ObjectId) (o : Order) :
  orders db !! id = Some o -> fresh (dom (orders db)) <> id.
Proof.
  intros Ho E. apply (is_fresh (dom (orders db))).
  rewrite E. apply elem_of_dom. exists o. exact Ho.
Qed.

Ltac split_handler :=
  repeat match goal with
         | |- context [match ?x with _ => _ end] => destruct x eqn:?; simpl
         end.

Ltac keep_snapshot Ho :=
  first
    [ eexists; split; [exact Ho|split; reflexivity]
    | match goal with
      | |- context [<[?k := _]> _ !! ?id] =>
        destruct (decide (k = id)) as [?|?];
        [ subst; rewrite lookup_insert_eq; eexists; split; [reflexivity|];
          simplify_eq; split; reflexivity
        | rewrite lookup_insert_ne by assumption;
          eexists; split; [exact Ho|split; reflexivity] ]
      | |- context [alter _ ?k _ !! ?id] =>
        destruct (decide (k = id)) as [?|?];
        [ subst; rewrite lookup_alter_eq, Ho; eexists; split; [reflexivity|];
          split; reflexivity
        | rewrite lookup_alter_ne by assumption;
          eexists; split; [exact Ho|split; reflexivity] ]
      end ].

(** One request keeps the lines of every stored order, and its total
    unless the request is an admin update of that order with a total. *)
Lemma handle_snapshot (db : Db) (r : Request) (id : ObjectId) (o : Order) :
  orders db !! id = Some o ->
  exists o', orders (handle db r) !! id = Some o' /\
             items o' = items o /\
             (writes_total id r = false -> total o' = total o).
Proof.
  intros Ho.
  assert (Hweak : (exists o', orders (handle db r) !! id = Some o' /\ same_snapshot o o') ->
                  exists o', orders (handle db r) !! id = Some o' /\
                             items o' = items o /\
                             (writes_total id r = false -> total o' = total o)).
  { intros (o' & H1 & H2 & H3). exists o'. auto. }
  destruct r; simpl.
  - apply Hweak. unfold same_snapshot; simpl.
    pose proof (fresh_order_id db id o Ho) as Hfresh.
    unfold post_order. split_handler; try (exists o; split; [exact Ho|split; reflexivity]).
    rewrite lookup_insert_ne by exact Hfresh.
    exists o; split; [exact Ho|split; reflexivity].
  - destruct (put_order db userId id0 body) as [db' [code o'|code msg]] eqn:H; simpl.
    + destruct (decide (id0 = id)) as [->|Hne].
      * destruct (put_order_status _ _ _ _ _ _ _ _ Ho H) as (H1 & _ & H3 & H4).
        exists o'. split; [exact H1|]. split; [exact H4|].
        rewrite String.eqb_refl. simpl. intros Hw. rewrite H3.
        destruct (upd_total body); [discriminate|reflexivity].
      * unfold put_order in H. exists o.
        destruct (users db !! userId) as [u|]; [|discriminate].
        destruct (negb (String.eqb (role u) "admin")); [discriminate|].
        destruct (option_map status_of_string (upd_status body)) as [[st|]|];
          try discriminate;
          (destruct (orders db !! id0) as [o0|]; [|discriminate]);
          inversion H; subst; simpl;
          rewrite lookup_insert_ne by exact Hne; auto.
    + exists o. unfold put_order in H.
      destruct (users db !! userId) as [u|]; [|inversion H; subst; auto].
      destruct (negb (String.eqb (role u) "admin")); [inversion H; subst; auto|].
      destruct (option_map status_of_string (upd_status body)) as [[st|]|];
        try (inversion H; subst; auto; fail);
        (destruct (orders db !! id0) as [o0|]; [discriminate|]);
        inversion H; subst; auto.
  - apply Hweak. cbn [handle]. unfold same_snapshot, delete_order.
    split_handler; keep_snapshot Ho.
  - apply Hweak. cbn [handle]. unfold same_snapshot, patch_order_pay.
    split_handler; keep_snapshot Ho.
  - apply Hweak. cbn [handle]. unfold same_snapshot, patch_order_status.
    split_handler; keep_snapshot Ho.
  - apply Hweak. cbn [handle]. unfold same_snapshot, post_payment_confirm.
    split_handler; keep_snapshot Ho.
  - apply Hweak. cbn [handle]. unfold same_snapshot, post_payment_refund.
    split_handler; keep_snapshot Ho.
  - apply Hweak. cbn [handle]. unfold same_snapshot, post_payment_webhook.
    split_handler; keep_snapshot Ho.
  - apply Hweak. cbn [handle]. unfold same_snapshot, put_product.
    split_handler; keep_snapshot Ho.
  - apply Hweak. cbn [handle]. unfold same_snapshot, delete_product.
    split_handler; keep_snapshot Ho.
  - apply Hweak. cbn [handle]. unfold same_snapshot, patch_product_stock.
    split_handler; keep_snapshot Ho.
  - apply Hweak. cbn [handle]. unfold same_snapshot, patch_product_offer.
    split_handler; keep_snapshot Ho.
Qed.

(** C6, the claim as stated, fails: the admin update writes the total of
    its body over the total fixed at creation. *)
Lemma admin_update_rewrites_total :
  let db := demo_db_with pending payment_pending in
  let db' := fst (put_order db "a1" "o1" (mkOrderUpdate None (Some 1%Q) None)) in
  total <$> orders db !! "o1" = Some 60%Q /\
  total <$> orders db' !! "o1" = Some 1%Q /\
  ~ (1 == 60)%Q.
Proof.
  split; [reflexivity|]. split; [reflexivity|]. intros H. discriminate H.
Qed.

(** C6 (as amended).  Through any sequence of requests a stored order
    keeps its lines, hence every priceAtPurchase, and it keeps its total as
    long as no admin update of that order carries a total; such an update
    overwrites the total with the one of its body.  Writes to the products'
    prices and offers are among the requests and change no order. *)
Theorem order_snapshot_kept (rs : list Request) (db : Db) (id : ObjectId) (o : Order) :
  orders db !! id = Some o ->
  (exists o', orders (run db rs) !! id = Some o' /\
              items o' = items o /\
              (forallb (fun r => negb (writes_total id r)) rs = true ->
               total o' = total o)) /\
  (forall uid body db' code o' t,
     put_order db uid id body = (db', Json code o') -> upd_total body = Some t ->
     orders db' !! id = Some o' /\ items o' = items o /\ total o' = t).
Proof.
  intros Ho. split.
  - revert db o Ho. induction rs as [|r rs IH]; intros db o Ho; simpl.
    + exists o. auto.
    + destruct (handle_snapshot db r id o Ho) as (o1 & Ho1 & Hitems & Htotal).
      destruct (IH _ _ Ho1) as (o' & Ho' & Hitems' & Htotal').
      exists o'. split; [exact Ho'|]. split; [congruence|].
      intros Hall. apply andb_true_iff in Hall. destruct Hall as [Hr Hrs].
      apply negb_true_iff in Hr. rewrite (Htotal' Hrs). apply Htotal. exact Hr.
  - intros uid body db' code o' t H Ht.
    destruct (put_order_status _ _ _ _ _ _ _ _ Ho H) as (H1 & _ & H3 & H4).
    rewrite Ht in H3. auto.
Qed.

Lemma order_snapshot_kept_witness :
  let rs := [PutProduct "v1" "p1"
               (mkProductUpdate None (Some 99%Q) None None (Some 10%Q) None None);
             PatchOrderPay "c1" "o1";
             PatchOrderStatus "v1" "o1" "shipped"] in
  exists o', orders (run (demo_db_with pending payment_pending) rs) !! "o1" = Some o' /\
             items o' = items (demo_order pending payment_pending) /\
             (forallb (fun r => negb (writes_total "o1" r)) rs = true ->
              total o' = total (demo_order pending payment_pending)).
Proof.
  intros rs.
  apply (order_snapshot_kept rs (demo_db_with pending payment_pending) "o1"
           (demo_order pending payment_pending)).
  reflexivity.
Defined.

(** * Further properties *)

(** ** Placing, paying and cancelling *)

Lemma post_order_json_user db uid oid its addr db' code o :
  post_order db uid oid its addr = (db', Json code o) ->
  exists u, users db !! uid = Some u /\ role u = "customer".
Proof.
  unfold post_order. intros H.
  destruct (users db !! uid) as [u|]; [|discriminate].
  destruct (String.eqb_spec (role u) "customer") as [E|E]; [|discriminate].
  exists u. split; [reflexivity|exact E].
Qed.

Lemma ordered_quantity_lines (ps : gmap string Product) k its ls :
  Forall2 (line_for ps) its ls -> ordered_quantity k ls = requested k its.
Proof.
  induction 1 as [|it l its ls (Hp & Hq & _) _ IH]; simpl; [reflexivity|].
  rewrite Hp, Hq, IH. reflexivity.
Qed.

(** What a placed order looks like and where the stock stands. *)
Lemma post_order_placed db uid oid its addr db' code o :
  post_order db uid oid its addr = (db', Json code o) ->
  orders db' !! oid = Some o /\ users db' = users db /\
  customer o = uid /\ status o = pending /\ paymentStatus o = payment_pending /\
  (forall k, ordered_quantity k (items o) = requested k its) /\
  (forall k, products db' !! k =
             (fun p => set_stock p (stock p - requested k its)) <$> products db !! k).
Proof.
  intros H. apply post_order_json_inv in H.
  destruct H as (Hloop & _ & _ & Ho & Hu & Hord).
  destruct (order_loop_done _ _ _ _ _ _ _ Hloop) as (_ & (ls0 & Hls & Hf) & Hst).
  simpl in Hls. subst ls0.
  split; [rewrite Hord; apply lookup_insert_eq|]. split; [exact Hu|].
  rewrite Ho. simpl. repeat split; try reflexivity.
  - intros k. eapply ordered_quantity_lines. exact Hf.
  - exact Hst.
Qed.

(** X1.  Round trip of the stock: an order that is placed, then paid by
    its customer (through PATCH /:id/pay or through the payment
    confirmation) and then cancelled by that customer leaves every product
    exactly as it was before the order, and the order is stored as
    cancelled. *)
Theorem place_pay_cancel_restores_stock (db : Db) (uid oid : ObjectId)
    (its : list ReqItem) (addr : option Address) (db1 : Db) (code : nat) (o : Order)
    (paymentIntentId : string) :
  post_order db uid oid its addr = (db1, Json code o) ->
  oid <> "" -> paymentIntentId <> "" ->
  (let db2 := fst (patch_order_pay db1 uid oid) in
   let db3 := fst (delete_order db2 uid oid) in
   products db3 = products db /\ status <$> orders db3 !! oid = Some cancelled) /\
  (let db2 := fst (post_payment_confirm db1 uid paymentIntentId oid) in
   let db3 := fst (delete_order db2 uid oid) in
   products db3 = products db /\ status <$> orders db3 !! oid = Some cancelled).
Proof.
  intros H Hoid Hpi.
  destruct (post_order_json_user _ _ _ _ _ _ _ _ H) as (u & Hu & Hr).
  destruct (post_order_placed _ _ _ _ _ _ _ _ H)
    as (Ho & Hus & Hc & Hs & Hp & Hq & Hst).
  assert (Hback : restore_stock (products db1) (items o) = products db).
  { apply map_eq. intros k. rewrite restore_stock_lookup, Hst, Hq.
    destruct (products db !! k) as [p|]; simpl; [|reflexivity].
    unfold set_stock; simpl. f_equal.
    replace (stock p - requested k its + requested k its) with (stock p) by lia.
    destruct p; reflexivity. }
  rewrite <- Hus in Hu.
  split; simpl.
  - unfold patch_order_pay. rewrite Hu, Hr, Ho, Hc, !String.eqb_refl, Hs. simpl.
    unfold delete_order. simpl. rewrite lookup_insert_eq, Hu, Hr. simpl.
    rewrite Hc, String.eqb_refl. simpl. rewrite lookup_insert_eq.
    split; [exact Hback|reflexivity].
  - unfold post_payment_confirm.
    destruct (String.eqb_spec paymentIntentId "") as [E|_]; [contradiction|].
    destruct (String.eqb_spec oid "") as [E|_]; [contradiction|]. simpl.
    rewrite Ho, Hu, Hc, String.eqb_refl. simpl.
    unfold delete_order. simpl. rewrite lookup_insert_eq, Hu, Hr. simpl.
    rewrite String.eqb_refl. simpl. rewrite lookup_insert_eq.
    split; [exact Hback|reflexivity].
Qed.

Lemma place_pay_cancel_restores_stock_witness :
  let db1 := fst (post_order demo_db "c1" "o1" [mkReqItem "p1" 2; mkReqItem "p2" 1] None) in
  let db2 := fst (patch_order_pay db1 "c1" "o1") in
  let db3 := fst (delete_order db2 "c1" "o1") in
  products db3 = products demo_db /\ status <$> orders db3 !! "o1" = Some cancelled.
Proof.
  intros db1.
  apply (place_pay_cancel_restores_stock demo_db "c1" "o1"
           [mkReqItem "p1" 2; mkReqItem "p2" 1] None db1 201
           (new_Order "c1" [mkOrderItem "p1" 2 (10 * (1 - 0 / 100))%Q;
                            mkOrderItem "p2" 1 (80 * (1 - 50 / 100))%Q]
                      (0 + 10 * (1 - 0 / 100) * inject_Z 2
                       + 80 * (1 - 50 / 100) * inject_Z 1)%Q None) "pi_1").
  - reflexivity.
  - discriminate.
  - discriminate.
Defined.

(** X2.  An order that is cancelled while it is still pending does not
    give its stock back: after placing and cancelling, every product is
    short of what the order took of it. *)
Theorem place_cancel_keeps_stock_taken (db : Db) (uid oid : ObjectId)
    (its : list ReqItem) (addr : option Address) (db1 : Db) (code : nat) (o : Order) :
  post_order db uid oid its addr = (db1, Json code o) ->
  let db2 := fst (delete_order db1 uid oid) in
  status <$> orders db2 !! oid = Some cancelled /\
  forall k, products db2 !! k =
            (fun p => set_stock p (stock p - requested k its)) <$> products db !! k.
Proof.
  intros H.
  destruct (post_order_json_user _ _ _ _ _ _ _ _ H) as (u & Hu & Hr).
  destruct (post_order_placed _ _ _ _ _ _ _ _ H)
    as (Ho & Hus & Hc & Hs & Hp & Hq & Hst).
  rewrite <- Hus in Hu. simpl.
  unfold delete_order. rewrite Ho, Hu, Hr, Hc, !String.eqb_refl, Hs. simpl.
  rewrite lookup_insert_eq. split; [reflexivity|exact Hst].
Qed.

Lemma place_cancel_keeps_stock_taken_witness :
  let db1 := fst (post_order demo_db "c1" "o1" [mkReqItem "p1" 2] None) in
  let db2 := fst (delete_order db1 "c1" "o1") in
  status <$> orders db2 !! "o1" = Some cancelled /\
  forall k, products db2 !! k =
            (fun p => set_stock p (stock p - requested k [mkReqItem "p1" 2]))
            <$> products demo_db !! k.
Proof.
  intros db1.
  apply (place_cancel_keeps_stock_taken demo_db "c1" "o1" [mkReqItem "p1" 2] None db1 201
           (new_Order "c1" [mkOrderItem "p1" 2 (10 * (1 - 0 / 100))%Q]
                      (0 + 10 * (1 - 0 / 100) * inject_Z 2)%Q None)).
  reflexivity.
Defined.

Lemma vendor_of_line_restore (ps : gmap string Product) (its : list OrderItem)
    (uid : ObjectId) (l : OrderItem) :
  vendor_of_line (restore_stock ps its) uid l = vendor_of_line ps uid l.
Proof.
  unfold vendor_of_line. rewrite restore_stock_lookup.
  destruct (ps !! product l) as [p|]; reflexivity.
Qed.

Lemma existsb_pointwise {A : Type} (f g : A -> bool) (l : list A) :
  (forall x, f x = g x) -> existsb f l = existsb g l.
Proof. intros H. induction l as [|x l IH]; simpl; [reflexivity|]. rewrite H, IH. reflexivity. Qed.

(** X3.  DELETE /:id is guarded by the stored status alone.  Sent again
    on the state an accepted cancellation left, it is refused, whoever
    sends it, and changes nothing.  But once the payment confirmation has
    set the cancelled order back to paid, the customer's second DELETE is
    accepted, and every product has then got the order's quantities back
    twice. *)
Theorem delete_order_repeated (db : Db) (uid id : ObjectId) (db1 : Db) (code : nat)
    (o1 : Order) :
  delete_order db uid id = (db1, Json code o1) ->
  (forall uid2, exists code2 msg, delete_order db1 uid2 id = (db1, Fail code2 msg)) /\
  (forall o paymentIntentId,
     orders db !! id = Some o -> status o = paid -> customer o = uid ->
     id <> "" -> paymentIntentId <> "" ->
     let db2 := fst (post_payment_confirm db1 uid paymentIntentId id) in
     exists db3 o3,
       delete_order db2 uid id = (db3, Json 200 o3) /\ status o3 = cancelled /\
       forall k, products db3 !! k =
                 (fun p => set_stock p (stock p + 2 * ordered_quantity k (items o)))
                 <$> products db !! k).
Proof.
  intros H.
  assert (Ho1 : orders db1 !! id = Some o1 /\ status o1 = cancelled).
  { unfold delete_order in H.
    destruct (orders db !! id) as [o|]; [|discriminate].
    destruct (users db !! uid) as [u|]; [|discriminate].
    destruct (String.eqb (role u) "customer" && negb (String.eqb (customer o) uid));
      [discriminate|].
    destruct (String.eqb (role u) "vendor"
              && negb (existsb (vendor_of_line (products db) uid) (items o)));
      [discriminate|].
    destruct (status o); inversion H; subst; simpl;
      rewrite lookup_insert_eq; split; reflexivity. }
  destruct Ho1 as [Ho1 Hs].
  split.
  - intros uid2. eapply delete_order_terminal; [exact Ho1|rewrite Hs; reflexivity].
  - intros o paymentIntentId Ho Hpaid Hc Hid Hpi. cbv zeta.
    unfold delete_order in H. rewrite Ho in H.
    destruct (users db !! uid) as [u|] eqn:Hu; [|discriminate].
    destruct (String.eqb (role u) "customer" && negb (String.eqb (customer o) uid))
      eqn:Hperm1; [discriminate|].
    destruct (String.eqb (role u) "vendor"
              && negb (existsb (vendor_of_line (products db) uid) (items o)))
      eqn:Hperm2; [discriminate|].
    rewrite Hpaid in H. inversion H; subst db1 code o1. clear H.
    unfold post_payment_confirm.
    destruct (String.eqb_spec paymentIntentId "") as [E|_]; [contradiction|].
    destruct (String.eqb_spec id "") as [E|_]; [contradiction|].
    cbn [orb orders users]. rewrite lookup_insert_eq, Hu.
    cbn [set_status customer]. rewrite Hc, String.eqb_refl. cbn [negb fst].
    unfold delete_order. cbn [orders users products]. rewrite lookup_insert_eq, Hu.
    cbn [customer items status]. rewrite Hc in Hperm1. rewrite Hperm1.
    change (items (set_status o cancelled)) with (items o).
    rewrite (existsb_pointwise _ (vendor_of_line (products db) uid))
      by (intros x; apply vendor_of_line_restore).
    rewrite Hperm2.
    eexists _, _. split; [reflexivity|]. split; [reflexivity|].
    intros k. cbn [products]. rewrite !restore_stock_lookup.
    destruct (products db !! k) as [p|]; simpl; [|reflexivity].
    unfold set_stock; simpl. do 2 f_equal. lia.
Qed.

Lemma delete_order_repeated_witness :
  let db := demo_db_with paid payment_paid in
  let db1 := fst (delete_order db "c1" "o1") in
  let db2 := fst (post_payment_confirm db1 "c1" "pi_1" "o1") in
  (exists code2 msg, delete_order db1 "a1" "o1" = (db1, Fail code2 msg)) /\
  (exists db3 o3,
     delete_order db2 "c1" "o1" = (db3, Json 200 o3) /\ status o3 = cancelled /\
     forall k, products db3 !! k =
               (fun p => set_stock p
                           (stock p + 2 * ordered_quantity k
                                            (items (demo_order paid payment_paid))))
               <$> products db !! k).
Proof.
  intros db db1 db2.
  destruct (delete_order_repeated db "c1" "o1" db1 200
              (set_status (demo_order paid payment_paid) cancelled) eq_refl)
    as [Hrep Hagain].
  split; [apply Hrep|].
  apply (Hagain (demo_order paid payment_paid) "pi_1");
    [reflexivity|reflexivity|reflexivity|discriminate|discriminate].
Defined.

(** The stock of the lamp through cancel, confirm, cancel: 3, 5, 7. *)
Example delete_order_twice_stock :
  let db := demo_db_with paid payment_paid in
  let db1 := fst (delete_order db "c1" "o1") in
  let db2 := fst (post_payment_confirm db1 "c1" "pi_1" "o1") in
  let db3 := fst (delete_order db2 "c1" "o1") in
  (stock <$> products db !! "p1", stock <$> products db1 !! "p1",
   stock <$> products db3 !! "p1") = (Some 3, Some 5, Some 7).
Proof. reflexivity. Qed.

(** ** Paying and refunding *)

(** Whatever a refund request is answered, a refusal leaves the database
    as it was. *)
Lemma post_payment_refund_not_paid db uid id amount reason o :
  orders db !! id = Some o -> paymentStatus o <> payment_paid ->
  exists code msg, post_payment_refund db uid id amount reason = (db, Fail code msg).
Proof.
  intros Ho Hp. unfold post_payment_refund. rewrite Ho.
  destruct (String.eqb id "" || Qeq_bool amount 0); [eauto|].
  destruct (users db !! uid) as [u|]; [|eauto].
  destruct (negb (String.eqb (role u) "admin") && negb (String.eqb (customer o) uid));
    [eauto|].
  destruct (paymentStatus o); try congruence; eauto.
Qed.

(** X4.  PATCH /:id/pay sets only the status: the payment status stays
    what it was, so an order paid through this route (its payment status
    is not paid) cannot be refunded; every refund request on it is refused
    and changes nothing. *)
Theorem pay_route_not_refundable (db : Db) (uid id : ObjectId) (o : Order)
    (db1 : Db) (code : nat) (o1 : Order) :
  orders db !! id = Some o -> paymentStatus o <> payment_paid ->
  patch_order_pay db uid id = (db1, Json code o1) ->
  orders db1 !! id = Some o1 /\
  status o1 = paid /\ paymentStatus o1 = paymentStatus o /\
  total o1 = total o /\ items o1 = items o /\ products db1 = products db /\
  forall uid2 amount reason,
    exists code2 msg,
      post_payment_refund db1 uid2 id amount reason = (db1, Fail code2 msg).
Proof.
  intros Ho Hp H. unfold patch_order_pay in H. rewrite Ho in H.
  destruct (users db !! uid) as [u|]; [|discriminate].
  destruct (negb (String.eqb (role u) "customer")); [discriminate|].
  destruct (negb (String.eqb (customer o) uid)); [discriminate|].
  destruct (status o); try discriminate.
  inversion H; subst. simpl. rewrite lookup_insert_eq.
  repeat split; try reflexivity.
  intros uid2 amount reason.
  eapply post_payment_refund_not_paid; [simpl; apply lookup_insert_eq|exact Hp].
Qed.

Lemma pay_route_not_refundable_witness :
  let db := demo_db_with pending payment_pending in
  let db1 := fst (patch_order_pay db "c1" "o1") in
  exists code2 msg, post_payment_refund db1 "c1" "o1" 60 "" = (db1, Fail code2 msg).
Proof.
  intros db db1.
  apply (pay_route_not_refundable db "c1" "o1" (demo_order pending payment_pending)
           db1 200 (set_status (demo_order pending payment_pending) paid)).
  - reflexivity.
  - discriminate.
  - reflexivity.
Defined.

(** X5.  A refund that is accepted for the whole total stores the order
    as refunded with payment status refunded, total and lines unchanged, and
    on that state every refund request, whoever sends it and for whatever
    amount, is refused and changes nothing.  The refusal rests on the
    payment status alone: once the customer's payment confirmation has set
    the refunded order back to paid, the same refund is accepted a second
    time. *)
Theorem full_refund_repeated (db : Db) (uid id : ObjectId) (amount : Q) (reason : string)
    (o : Order) (db1 : Db) (code : nat) (r : Refund) :
  orders db !! id = Some o -> (amount == total o)%Q ->
  post_payment_refund db uid id amount reason = (db1, Json code r) ->
  (exists o1, orders db1 !! id = Some o1 /\
              status o1 = refunded /\ paymentStatus o1 = payment_refunded /\
              total o1 = total o /\ items o1 = items o) /\
  (forall uid2 amount2 reason2,
     exists code2 msg,
       post_payment_refund db1 uid2 id amount2 reason2 = (db1, Fail code2 msg)) /\
  (forall paymentIntentId,
     paymentIntentId <> "" -> customer o = uid ->
     let db2 := fst (post_payment_confirm db1 uid paymentIntentId id) in
     exists db3 r3 o3,
       post_payment_refund db2 uid id amount reason = (db3, Json 200 r3) /\
       orders db3 !! id = Some o3 /\
       status o3 = refunded /\ paymentStatus o3 = payment_refunded).
Proof.
  intros Ho Heq H.
  unfold post_payment_refund in H. rewrite Ho in H.
  destruct (String.eqb_spec id "") as [|Hid]; [discriminate|].
  destruct (Qeq_bool amount 0) eqn:Hnz; [discriminate|]. cbn [orb] in H.
  destruct (users db !! uid) as [u|] eqn:Hu; [|discriminate].
  destruct (negb (String.eqb (role u) "admin") && negb (String.eqb (customer o) uid));
    [discriminate|].
  destruct (paymentStatus o); try discriminate.
  destruct (Qlt_bool (total o) amount) eqn:Hlt; [discriminate|].
  pose proof Heq as Heqb. apply Qeq_bool_iff in Heqb. rewrite Heqb in H.
  inversion H; subst db1 code r. clear H. cbn [orders].
  split; [|split].
  - eexists. split; [apply lookup_insert_eq|]. repeat split; reflexivity.
  - intros uid2 amount2 reason2.
    eapply post_payment_refund_not_paid; [apply lookup_insert_eq|discriminate].
  - intros paymentIntentId Hpi Hc. cbv zeta.
    unfold post_payment_confirm.
    destruct (String.eqb_spec paymentIntentId "") as [E|_]; [contradiction|].
    destruct (String.eqb_spec id "") as [E|_]; [contradiction|].
    cbn [orb orders users]. rewrite lookup_insert_eq, Hu.
    cbn [customer]. rewrite Hc, String.eqb_refl. cbn [negb fst].
    unfold post_payment_refund.
    destruct (String.eqb_spec id "") as [E|_]; [contradiction|].
    rewrite Hnz. cbn [orb orders users paymentStatus total customer].
    rewrite lookup_insert_eq, Hu. cbn [paymentStatus total customer].
    rewrite String.eqb_refl, andb_false_r, Hlt, Heqb.
    eexists _, _, _. split; [reflexivity|]. cbn [orders].
    split; [apply lookup_insert_eq|]. split; reflexivity.
Qed.

Lemma full_refund_repeated_witness :
  let db := demo_db_with paid payment_paid in
  let db1 := fst (post_payment_refund db "c1" "o1" 60 "") in
  let db2 := fst (post_payment_confirm db1 "c1" "pi_1" "o1") in
  (exists code2 msg, post_payment_refund db1 "a1" "o1" 60 "" = (db1, Fail code2 msg)) /\
  (exists db3 r3 o3,
     post_payment_refund db2 "c1" "o1" 60 "" = (db3, Json 200 r3) /\
     orders db3 !! "o1" = Some o3 /\
     status o3 = refunded /\ paymentStatus o3 = payment_refunded).
Proof.
  intros db db1 db2.
  destruct (full_refund_repeated db "c1" "o1" 60 "" (demo_order paid payment_paid) db1 200
              (mkRefund 60 "Customer request" "succeeded" "o1")
              eq_refl ltac:(reflexivity) eq_refl) as (_ & Hrep & Hagain).
  split; [apply Hrep|].
  apply (Hagain "pi_1"); [discriminate|reflexivity].
Defined.

(** X6.  Partial refunds are not added up: any series of refund requests
    of the order's customer (or the admin), each for an amount strictly
    between 0 and the total, is accepted one after the other and leaves the
    database as it was, however large their sum. *)
Theorem partial_refunds_repeat (db : Db) (uid id : ObjectId) (u : User) (o : Order)
    (amounts : list Q) :
  id <> "" ->
  orders db !! id = Some o -> users db !! uid = Some u ->
  role u = "admin" \/ customer o = uid ->
  paymentStatus o = payment_paid ->
  Forall (fun a => (0 < a)%Q /\ (a < total o)%Q) amounts ->
  fold_left (fun d a => fst (post_payment_refund d uid id a "")) amounts db = db /\
  Forall (fun a => exists r, snd (post_payment_refund db uid id a "") = Json 200 r) amounts.
Proof.
  intros Hid Ho Hu Hauth Hp Hall.
  assert (Hone : forall a, (0 < a)%Q /\ (a < total o)%Q ->
                           exists r, post_payment_refund db uid id a "" = (db, Json 200 r)).
  { intros a [Ha1 Ha2].
    destruct (post_payment_refund_accepted db uid id a "" u o) as (r & Hr & _);
      try assumption.
    - intros E. rewrite E in Ha1. exact (Qlt_irrefl _ Ha1).
    - apply Qlt_le_weak. exact Ha2.
    - exists r. rewrite Hr.
      destruct (Qeq_bool a (total o)) eqn:E.
      + apply Qeq_bool_iff in E. rewrite E in Ha2. destruct (Qlt_irrefl _ Ha2).
      + rewrite (insert_id _ _ _ Ho). destruct db; reflexivity. }
  split.
  - induction Hall as [|a rest Ha _ IH]; simpl; [reflexivity|].
    destruct (Hone a Ha) as (r & Hr). rewrite Hr. simpl. exact IH.
  - eapply Forall_impl; [exact Hall|].
    intros a Ha. destruct (Hone a Ha) as (r & Hr). exists r. rewrite Hr. reflexivity.
Qed.

Lemma partial_refunds_repeat_witness :
  let db := demo_db_with paid payment_paid in
  fold_left (fun d a => fst (post_payment_refund d "c1" "o1" a "")) [50%Q; 50%Q; 59%Q] db = db /\
  Forall (fun a => exists r, snd (post_payment_refund db "c1" "o1" a "") = Json 200 r)
         [50%Q; 50%Q; 59%Q].
Proof.
  intros db.
  apply (partial_refunds_repeat db "c1" "o1" (mkUser "customer")
           (demo_order paid payment_paid) [50%Q; 50%Q; 59%Q]).
  - discriminate.
  - reflexivity.
  - reflexivity.
  - right. reflexivity.
  - reflexivity.
  - repeat constructor.
Defined.

(** X7.  The payment confirmation is for the order's customer only and
    does not look at the status: when it is accepted the caller is the
    customer of the order, which is stored as paid, with payment status
    paid and method card, whatever its status was; lines, total and stock
    are untouched, and a refund of the whole total by that customer is then
    accepted. *)
Theorem confirm_makes_refundable (db : Db) (uid id : ObjectId) (paymentIntentId : string)
    (db1 : Db) (code : nat) (r : ConfirmReply) :
  post_payment_confirm db uid paymentIntentId id = (db1, Json code r) ->
  exists o o1,
    orders db !! id = Some o /\ customer o = uid /\
    orders db1 !! id = Some o1 /\
    status o1 = paid /\ paymentStatus o1 = payment_paid /\ paymentMethod o1 = "card" /\
    items o1 = items o /\ total o1 = total o /\ products db1 = products db /\
    forall amount reason,
      ~ (amount == 0)%Q -> (amount == total o)%Q ->
      exists db2 r2 o2,
        post_payment_refund db1 uid id amount reason = (db2, Json 200 r2) /\
        orders db2 !! id = Some o2 /\ status o2 = refunded.
Proof.
  intros H. unfold post_payment_confirm in H.
  destruct (String.eqb_spec paymentIntentId "") as [|_]; [discriminate|].
  destruct (String.eqb_spec id "") as [|Hid]; [discriminate|]. simpl in H.
  destruct (orders db !! id) as [o|] eqn:Ho; [|discriminate].
  destruct (users db !! uid) as [u|] eqn:Hu; [|discriminate].
  destruct (String.eqb_spec (customer o) uid) as [Hc|]; [|discriminate].
  simpl in H. inversion H; subst db1 code r. clear H.
  eexists o, _. split; [reflexivity|]. split; [exact Hc|].
  simpl. rewrite lookup_insert_eq. split; [reflexivity|].
  repeat split; try reflexivity.
  intros amount reason Hnz Heq.
  edestruct (post_payment_refund_accepted
               (mkDb (users db) (products db)
                     (<[id := mkOrder (customer o) (items o) (total o) paid
                                      (shippingAddress o) "card" payment_paid]> (orders db)))
               uid id amount reason u) as (r2 & Hr2 & _).
  - exact Hid.
  - exact Hnz.
  - simpl. apply lookup_insert_eq.
  - exact Hu.
  - right. exact Hc.
  - reflexivity.
  - simpl. rewrite Heq. apply Qle_refl.
  - simpl in Hr2. apply Qeq_bool_iff in Heq. rewrite Heq in Hr2.
    eexists _, r2, _. split; [exact Hr2|]. simpl. rewrite lookup_insert_eq.
    split; reflexivity.
Qed.

Lemma confirm_makes_refundable_witness :
  let db := demo_db_with cancelled payment_pending in
  let db1 := fst (post_payment_confirm db "c1" "pi_1" "o1") in
  exists o o1,
    orders db !! "o1" = Some o /\ customer o = "c1" /\
    orders db1 !! "o1" = Some o1 /\
    status o1 = paid /\ paymentStatus o1 = payment_paid /\ paymentMethod o1 = "card" /\
    items o1 = items o /\ total o1 = total o /\ products db1 = products db /\
    forall amount reason,
      ~ (amount == 0)%Q -> (amount == total o)%Q ->
      exists db2 r2 o2,
        post_payment_refund db1 "c1" "o1" amount reason = (db2, Json 200 r2) /\
        orders db2 !! "o1" = Some o2 /\ status o2 = refunded.
Proof.
  intros db db1.
  apply (confirm_makes_refundable db "c1" "o1" "pi_1" db1 200
           (mkConfirmReply "o1" paid payment_paid)).
  reflexivity.
Defined.

(** ** The vendor's status update and the webhook *)

(** X8.  The vendor's status update is accepted only from a vendor who
    owns a product of one of the order's lines and only for shipped,
    delivered or cancelled; it writes the status and nothing else.  In
    particular an order cancelled through this route gets no stock back
    from it, and a DELETE /:id sent on the state it leaves is refused,
    whoever sends it. *)
Theorem vendor_status_update_effect (db : Db) (uid id : ObjectId) (s : string)
    (db1 : Db) (code : nat) (o1 : Order) :
  patch_order_status db uid id s = (db1, Json code o1) ->
  exists u o st,
    users db !! uid = Some u /\ role u = "vendor" /\
    orders db !! id = Some o /\
    existsb (vendor_of_line (products db) uid) (items o) = true /\
    status_of_string s = Some st /\ In st [shipped; delivered; cancelled] /\
    o1 = set_status o st /\
    db1 = mkDb (users db) (products db) (<[id := o1]> (orders db)) /\
    (st = cancelled ->
     forall uid2, exists code2 msg, delete_order db1 uid2 id = (db1, Fail code2 msg)).
Proof.
  intros H. unfold patch_order_status in H.
  destruct (users db !! uid) as [u|] eqn:Hu; [|discriminate].
  destruct (String.eqb_spec (role u) "vendor") as [Hr|]; [|discriminate].
  cbn [negb] in H.
  destruct (existsb (String.eqb s) validStatuses) eqn:Hv; [|discriminate].
  cbn [negb] in H.
  destruct (orders db !! id) as [o|] eqn:Ho; [|discriminate].
  destruct (existsb (vendor_of_line (products db) uid) (items o)) eqn:Hown;
    [|discriminate].
  cbn [negb] in H.
  destruct (status_of_string s) as [st|] eqn:Hst; [|discriminate].
  inversion H; subst db1 code o1. clear H.
  exists u, o, st. repeat split; try assumption; try reflexivity.
  - unfold validStatuses in Hv. simpl in Hv.
    apply orb_true_iff in Hv. destruct Hv as [Hv|Hv].
    { apply String.eqb_eq in Hv. subst s. vm_compute in Hst. inversion Hst. simpl. auto. }
    apply orb_true_iff in Hv. destruct Hv as [Hv|Hv].
    { apply String.eqb_eq in Hv. subst s. vm_compute in Hst. inversion Hst. simpl. auto. }
    apply orb_true_iff in Hv. destruct Hv as [Hv|Hv]; [|discriminate].
    apply String.eqb_eq in Hv. subst s. vm_compute in Hst. inversion Hst. simpl. auto.
  - intros -> uid2. eapply delete_order_terminal.
    + simpl. apply lookup_insert_eq.
    + reflexivity.
Qed.

Lemma vendor_status_update_effect_witness :
  let db := demo_db_with paid payment_paid in
  let db1 := fst (patch_order_status db "v1" "o1" "cancelled") in
  products db1 = products db /\
  forall uid2, exists code2 msg, delete_order db1 uid2 "o1" = (db1, Fail code2 msg).
Proof.
  intros db db1.
  destruct (vendor_status_update_effect db "v1" "o1" "cancelled" db1 200
              (set_status (demo_order paid payment_paid) cancelled) eq_refl)
    as (u & o & st & _ & _ & _ & _ & Hst & _ & _ & _ & Hdel).
  split; [reflexivity|]. apply Hdel. inversion Hst. reflexivity.
Defined.





(** ** What placing an order writes *)

Lemma same_but_stock_refl (p : Product) : same_but_stock p p.
Proof. apply set_stock_same. Qed.

Lemma same_but_stock_set (p : Product) (s : Z) : same_but_stock p (set_stock p s).
Proof. unfold same_but_stock. destruct p; reflexivity. Qed.

Lemma same_but_stock_trans (p q r : Product) :
  same_but_stock p q -> same_but_stock q r -> same_but_stock p r.
Proof.
  unfold same_but_stock. intros H1 H2. rewrite <- H1 at 2. rewrite <- H2.
  reflexivity.
Qed.

Lemma same_but_stock_fields (p p' : Product) :
  same_but_stock p p' ->
  name p' = name p /\ price p' = price p /\ offer p' = offer p /\ vendor p' = vendor p.
Proof. unfold same_but_stock. intros <-. repeat split; reflexivity. Qed.

(** The loop, however it ends, writes stock only. *)
Lemma order_loop_frame its : forall ps t ls ps' ex,
  order_loop ps its t ls = (ps', ex) ->
  forall k, option_Forall2 same_but_stock (ps !! k) (ps' !! k).
Proof.
  assert (Hrefl : forall (ps : gmap string Product) k,
             option_Forall2 same_but_stock (ps !! k) (ps !! k)).
  { intros ps k. destruct (ps !! k); constructor. apply same_but_stock_refl. }
  induction its as [|it rest IH]; intros ps t ls ps' ex H k; simpl in H.
  - inversion H; subst. apply Hrefl.
  - destruct (ps !! req_product it) as [p|] eqn:Hp;
      [|inversion H; subst; apply Hrefl].
    destruct (stock p <? req_quantity it); [inversion H; subst; apply Hrefl|].
    specialize (IH _ _ _ _ _ H k).
    destruct (decide (req_product it = k)) as [<-|Hne].
    + rewrite lookup_insert_eq in IH. rewrite Hp.
      inversion IH as [? q Hq|]; subst. constructor.
      eapply same_but_stock_trans; [apply same_but_stock_set|exact Hq].
    + rewrite lookup_insert_ne in IH by exact Hne. exact IH.
Qed.

(** X10.  Placing an order, accepted or refused, creates and deletes no
    product and changes no product's name, price, offer or vendor: it can
    only write stock, and it writes no user. *)
Theorem post_order_writes_stock_only (db : Db) (uid oid : ObjectId)
    (its : list ReqItem) (addr : option Address) :
  let db1 := fst (post_order db uid oid its addr) in
  users db1 = users db /\
  forall k, option_Forall2 same_but_stock (products db !! k) (products db1 !! k).
Proof.
  assert (Hrefl : forall k, option_Forall2 same_but_stock (products db !! k)
                                           (products db !! k)).
  { intros k. destruct (products db !! k); constructor. apply same_but_stock_refl. }
  unfold post_order.
  destruct (users db !! uid) as [u|]; [|split; [reflexivity|exact Hrefl]].
  destruct (negb (String.eqb (role u) "customer")); [split; [reflexivity|exact Hrefl]|].
  destruct its as [|it rest]; [split; [reflexivity|exact Hrefl]|].
  destruct (order_loop (products db) (it :: rest) 0%Q []) as [ps ex] eqn:Hloop.
  pose proof (order_loop_frame _ _ _ _ _ _ Hloop) as Hf.
  destruct ex; simpl; split; try reflexivity; exact Hf.
Qed.

Lemma line_price_bounds (p : Product) :
  (0 <= price p)%Q -> (0 <= offer p)%Q -> (offer p <= 100)%Q ->
  (0 <= line_price p)%Q /\ (line_price p <= price p)%Q.
Proof.
  intros Hp Ho1 Ho2. unfold line_price.
  assert (E : (1 - offer p / 100 == (100 - offer p) * (1 # 100))%Q) by field.
  assert (H0 : (0 <= 1 - offer p / 100)%Q).
  { rewrite E. apply Qmult_le_0_compat; [|discriminate].
    apply (Qplus_le_l _ _ (offer p)). ring_simplify. exact Ho2. }
  assert (H1 : (1 - offer p / 100 <= 1)%Q).
  { apply (Qplus_le_l _ _ (offer p / 100)). ring_simplify.
    apply (Qplus_le_l _ _ (-(1))). ring_simplify.
    assert (E2 : (offer p / 100 == offer p * (1 # 100))%Q) by field.
    rewrite E2. apply Qmult_le_0_compat; [exact Ho1|discriminate]. }
  split.
  - apply Qmult_le_0_compat; assumption.
  - assert (E3 : (price p == 1 * price p)%Q) by ring.
    rewrite E3 at 2. rewrite (Qmult_comm (price p)).
    apply Qmult_le_compat_r; assumption.
Qed.

Lemma spec_total_nonneg (ps : gmap string Product) (its : list ReqItem) :
  priced_sanely ps -> (forall it, In it its -> 0 <= req_quantity it) ->
  (0 <= spec_total ps its)%Q.
Proof.
  intros Hps. induction its as [|it rest IH]; intros Hq; simpl; [apply Qle_refl|].
  assert (Hrest : (0 <= spec_total ps rest)%Q)
    by (apply IH; intros x Hx; apply Hq; right; exact Hx).
  assert (Hit : (0 <= inject_Z (req_quantity it))%Q).
  { change 0%Q with (inject_Z 0). rewrite <- Zle_Qle. apply Hq. left. reflexivity. }
  assert (E : (0 == 0 + 0)%Q) by ring. rewrite E.
  apply Qplus_le_compat; [|exact Hrest].
  destruct (ps !! req_product it) as [p|] eqn:Hp; [|apply Qle_refl].
  destruct (Hps _ _ Hp) as (H1 & H2 & H3).
  apply Qmult_le_0_compat; [|exact Hit].
  apply line_price_bounds; assumption.
Qed.

(** X11.  With a catalogue whose prices are at least 0 and whose offers
    lie between 0 and 100, an accepted order with no negative quantity has
    a total of at least 0, and every line's priceAtPurchase lies between 0
    and the price of its product. *)
Theorem post_order_total_nonneg (db : Db) (uid oid : ObjectId) (its : list ReqItem)
    (addr : option Address) (db1 : Db) (code : nat) (o : Order) :
  priced_sanely (products db) ->
  (forall it, In it its -> 0 <= req_quantity it) ->
  post_order db uid oid its addr = (db1, Json code o) ->
  (0 <= total o)%Q /\
  forall l, In l (items o) ->
    exists p, products db !! product l = Some p /\
              (0 <= priceAtPurchase l)%Q /\ (priceAtPurchase l <= price p)%Q.
Proof.
  intros Hps Hq H. apply post_order_json_inv in H. destruct H as (Hloop & _).
  destruct (order_loop_done _ _ _ _ _ _ _ Hloop) as (Ht & (ls0 & Hls & Hf) & _).
  simpl in Hls. subst ls0. split.
  - rewrite Ht. assert (E : (0 == 0 + 0)%Q) by ring. rewrite E at 1.
    apply Qplus_le_compat; [apply Qle_refl|]. apply spec_total_nonneg; assumption.
  - intros l Hl.
    destruct (Forall2_In_right _ _ _ _ Hf Hl) as (it & _ & Hprod & _ & p & Hp & Hpr).
    exists p. rewrite Hprod. split; [exact Hp|].
    destruct (Hps _ _ Hp) as (H1 & H2 & H3).
    rewrite Hpr. apply line_price_bounds; assumption.
Qed.

Lemma post_order_total_nonneg_witness :
  let r := post_order demo_db "c1" "o1" [mkReqItem "p1" 2; mkReqItem "p2" 1] None in
  exists o, snd r = Json 201 o /\ (0 <= total o)%Q.
Proof.
  intros r. eexists. split; [reflexivity|].
  refine (proj1 (post_order_total_nonneg demo_db "c1" "o1"
                   [mkReqItem "p1" 2; mkReqItem "p2" 1] None (fst r) 201 _ _ _ eq_refl)).
  - intros k p Hp. unfold demo_db in Hp. cbn [products] in Hp.
    apply lookup_insert_Some in Hp. destruct Hp as [[_ <-]|[_ Hp]].
    + repeat split; discriminate.
    + apply lookup_singleton_Some in Hp. destruct Hp as [_ <-].
      repeat split; discriminate.
  - intros it [<-|[<-|[]]]; simpl; lia.
Defined.

(** ** Invariants of the whole system *)

(** One request deletes no order and keeps every order's customer. *)
Lemma handle_keeps_order (db : Db) (r : Request) (id : ObjectId) (o : Order) :
  orders db !! id = Some o ->
  exists o', orders (handle db r) !! id = Some o' /\
             customer o' = customer o /\ items o' = items o.
Proof.
  intros Ho.
  destruct r; cbn [handle].
  - pose proof (fresh_order_id db id o Ho) as Hfresh.
    unfold post_order. split_handler; try (exists o; split; [exact Ho|split; reflexivity]).
    rewrite lookup_insert_ne by exact Hfresh.
    exists o; split; [exact Ho|split; reflexivity].
  - unfold put_order. split_handler; keep_snapshot Ho.
  - unfold delete_order. split_handler; keep_snapshot Ho.
  - unfold patch_order_pay. split_handler; keep_snapshot Ho.
  - unfold patch_order_status. split_handler; keep_snapshot Ho.
  - unfold post_payment_confirm. split_handler; keep_snapshot Ho.
  - unfold post_payment_refund. split_handler; keep_snapshot Ho.
  - unfold post_payment_webhook. split_handler; keep_snapshot Ho.
  - unfold put_product. split_handler; keep_snapshot Ho.
  - unfold delete_product. split_handler; keep_snapshot Ho.
  - unfold patch_product_stock. split_handler; keep_snapshot Ho.
  - unfold patch_product_offer. split_handler; keep_snapshot Ho.
Qed.

(** X12.  Through any sequence of requests an order is never deleted and
    never changes its customer: whatever is stored under an order id stays
    an order of the same customer. *)
Theorem orders_never_deleted (rs : list Request) (db : Db) (id : ObjectId) (o : Order) :
  orders db !! id = Some o ->
  exists o', orders (run db rs) !! id = Some o' /\ customer o' = customer o.
Proof.
  revert db o. induction rs as [|r rs IH]; intros db o Ho; simpl.
  - exists o. auto.
  - destruct (handle_keeps_order db r id o Ho) as (o1 & Ho1 & Hc1 & _).
    destruct (IH _ _ Ho1) as (o' & Ho' & Hc').
    exists o'. split; [exact Ho'|congruence].
Qed.

Lemma orders_never_deleted_witness :
  let rs := [DeleteOrder "c1" "o1"; PostPaymentWebhook "payment_intent.succeeded" (Metadata "o1");
             PutOrder "a1" "o1" (mkOrderUpdate (Some "shipped") (Some 1%Q) None)] in
  exists o', orders (run (demo_db_with paid payment_paid) rs) !! "o1" = Some o' /\
             customer o' = customer (demo_order paid payment_paid).
Proof.
  intros rs.
  apply (orders_never_deleted rs (demo_db_with paid payment_paid) "o1"
           (demo_order paid payment_paid)).
  reflexivity.
Defined.

Lemma products_from_refl (ps : gmap string Product) : products_from ps ps.
Proof. intros k p' H. exists p'. auto. Qed.

Lemma products_from_insert (ps : gmap string Product) id p0 p1 :
  ps !! id = Some p0 -> vendor p1 = vendor p0 -> products_from ps (<[id := p1]> ps).
Proof.
  intros H0 Hv k p' H. destruct (decide (id = k)) as [<-|Hne].
  - rewrite lookup_insert_eq in H. inversion H; subst. exists p0. auto.
  - rewrite lookup_insert_ne in H by exact Hne. exists p'. auto.
Qed.

Lemma products_from_delete (ps : gmap string Product) id :
  products_from ps (delete id ps).
Proof.
  intros k p' H. apply lookup_delete_Some in H. destruct H as [_ H]. exists p'. auto.
Qed.

Lemma products_from_restore (ps : gmap string Product) its :
  products_from ps (restore_stock ps its).
Proof.
  intros k p' H. rewrite restore_stock_lookup in H.
  destruct (ps !! k) as [p|]; [|discriminate]. simpl in H. inversion H; subst.
  exists p. auto.
Qed.

Lemma products_from_loop ps its t ls ps' ex :
  order_loop ps its t ls = (ps', ex) -> products_from ps ps'.
Proof.
  intros Hloop k p' H. pose proof (order_loop_frame _ _ _ _ _ _ Hloop k) as Hf.
  rewrite H in Hf. inversion Hf as [p ? Hs|]; subst.
  exists p. split; [reflexivity|]. apply same_but_stock_fields in Hs. tauto.
Qed.

Ltac from_old :=
  first
    [ apply products_from_refl
    | apply products_from_delete
    | apply products_from_restore
    | eapply products_from_loop; eassumption
    | eapply products_from_insert; [eassumption|reflexivity] ].

(** No request creates a product or changes a product's vendor. *)
Lemma handle_products_from (db : Db) (r : Request) :
  products_from (products db) (products (handle db r)).
Proof.
  destruct r; cbn [handle].
  - unfold post_order.
    destruct (users db !! userId) as [u|]; [|from_old].
    destruct (negb (String.eqb (role u) "customer")); [from_old|].
    destruct its as [|it rest]; [from_old|].
    destruct (order_loop (products db) (it :: rest) 0%Q []) as [ps ex] eqn:Hloop.
    destruct ex; cbn [fst products]; from_old.
  - unfold put_order. split_handler; from_old.
  - unfold delete_order. split_handler; from_old.
  - unfold patch_order_pay. split_handler; from_old.
  - unfold patch_order_status. split_handler; from_old.
  - unfold post_payment_confirm. split_handler; from_old.
  - unfold post_payment_refund. split_handler; from_old.
  - unfold post_payment_webhook. split_handler; from_old.
  - unfold put_product. split_handler; from_old.
  - unfold delete_product. split_handler; from_old.
  - unfold patch_product_stock. split_handler; from_old.
  - unfold patch_product_offer. split_handler; from_old.
Qed.

(** X13.  Through any sequence of requests the ownership of the catalogue
    is fixed: a product found afterwards was there before, and it has the
    vendor it had. *)
Theorem product_vendor_fixed (rs : list Request) (db : Db) (k : ObjectId) (p' : Product) :
  products (run db rs) !! k = Some p' ->
  exists p, products db !! k = Some p /\ vendor p' = vendor p.
Proof.
  revert db. induction rs as [|r rs IH]; intros db H; simpl in H.
  - exists p'. auto.
  - destruct (IH _ H) as (p1 & Hp1 & Hv1).
    destruct (handle_products_from db r k p1 Hp1) as (p & Hp & Hv).
    exists p. split; [exact Hp|congruence].
Qed.

Lemma product_vendor_fixed_witness :
  let rs := [PutProduct "a1" "p1"
               (mkProductUpdate (Some "Torch") (Some 12%Q) None None None None (Some 9));
             PatchProductStock "v1" "p1" 4] in
  exists p, products demo_db !! "p1" = Some p /\
            vendor (mkProduct "Torch" 12 "" "" "v1" 0 "general" 4) = vendor p.
Proof.
  intros rs.
  apply (product_vendor_fixed rs demo_db "p1" (mkProduct "Torch" 12 "" "" "v1" 0 "general" 4)).
  reflexivity.
Defined.

(** The loop, however it ends, leaves no stock below 0: a line is served
    only when the stock is not smaller than its quantity. *)
Lemma order_loop_stocks_nonneg its : forall ps t ls ps' ex,
  stocks_nonneg ps -> order_loop ps its t ls = (ps', ex) -> stocks_nonneg ps'.
Proof.
  induction its as [|it rest IH]; intros ps t ls ps' ex Hps H; simpl in H.
  - inversion H; subst. exact Hps.
  - destruct (ps !! req_product it) as [p|] eqn:Hp; [|inversion H; subst; exact Hps].
    destruct (Z.ltb_spec (stock p) (req_quantity it)) as [|Hge];
      [inversion H; subst; exact Hps|].
    eapply IH; [|exact H].
    intros k q Hq. destruct (decide (req_product it = k)) as [<-|Hne].
    + rewrite lookup_insert_eq in Hq. inversion Hq; subst. simpl. lia.
    + rewrite lookup_insert_ne in Hq by exact Hne. eapply Hps. exact Hq.
Qed.

Lemma ordered_quantity_nonneg (k : ObjectId) (its : list OrderItem) :
  (forall l, In l its -> 0 <= quantity l) -> 0 <= ordered_quantity k its.
Proof.
  induction its as [|it rest IH]; simpl; intros H; [lia|].
  assert (0 <= quantity it) by (apply H; left; reflexivity).
  assert (0 <= ordered_quantity k rest) by (apply IH; intros x Hx; apply H; right; exact Hx).
  destruct (String.eqb (product it) k); lia.
Qed.

Lemma restore_stocks_nonneg (ps : gmap string Product) (its : list OrderItem) :
  stocks_nonneg ps -> (forall l, In l its -> 0 <= quantity l) ->
  stocks_nonneg (restore_stock ps its).
Proof.
  intros Hps Hq k p H. rewrite restore_stock_lookup in H.
  destruct (ps !! k) as [p0|] eqn:Hp0; [|discriminate]. simpl in H.
  inversion H; subst. simpl.
  pose proof (Hps _ _ Hp0). pose proof (ordered_quantity_nonneg k its Hq). lia.
Qed.

Lemma stocks_nonneg_insert (ps : gmap string Product) id p :
  stocks_nonneg ps -> 0 <= stock p -> stocks_nonneg (<[id := p]> ps).
Proof.
  intros Hps Hp k q Hq. destruct (decide (id = k)) as [<-|Hne].
  - rewrite lookup_insert_eq in Hq. inversion Hq; subst. exact Hp.
  - rewrite lookup_insert_ne in Hq by exact Hne. eapply Hps. exact Hq.
Qed.

Lemma stocks_nonneg_delete (ps : gmap string Product) id :
  stocks_nonneg ps -> stocks_nonneg (delete id ps).
Proof.
  intros Hps k q Hq. apply lookup_delete_Some in Hq. destruct Hq as [_ Hq].
  eapply Hps. exact Hq.
Qed.

Lemma orders_from_refl (os : gmap string Order) : orders_from os os.
Proof. intros id o' H. exists o'. auto. Qed.

Lemma orders_from_insert (os : gmap string Order) id o0 o1 :
  os !! id = Some o0 -> items o1 = items o0 -> orders_from os (<[id := o1]> os).
Proof.
  intros H0 Hi k o' H. destruct (decide (id = k)) as [<-|Hne].
  - rewrite lookup_insert_eq in H. inversion H; subst. exists o0. auto.
  - rewrite lookup_insert_ne in H by exact Hne. exists o'. auto.
Qed.

Lemma orders_from_alter (os : gmap string Order) id (f : Order -> Order) :
  (forall o, items (f o) = items o) -> orders_from os (alter f id os).
Proof.
  intros Hf k o' H. destruct (decide (id = k)) as [<-|Hne].
  - rewrite lookup_alter_eq in H. destruct (os !! id) as [o|]; [|discriminate].
    simpl in H. inversion H; subst. exists o. auto.
  - rewrite lookup_alter_ne in H by exact Hne. exists o'. auto.
Qed.

Ltac from_old_orders :=
  first
    [ apply orders_from_refl
    | apply orders_from_alter; intros; reflexivity
    | eapply orders_from_insert; [eassumption|reflexivity]
    | eapply orders_from_insert; [eassumption|];
      match goal with |- context [if ?b then _ else _] => destruct b end; reflexivity ].

(** Apart from placing an order, no request creates an order or changes
    the lines of one. *)
Lemma handle_orders_from (db : Db) (r : Request) :
  (forall u its addr, r <> PostOrder u its addr) ->
  orders_from (orders db) (orders (handle db r)).
Proof.
  intros Hr. destruct r; cbn [handle].
  - exfalso. eapply Hr. reflexivity.
  - unfold put_order. split_handler; from_old_orders.
  - unfold delete_order. split_handler; from_old_orders.
  - unfold patch_order_pay. split_handler; from_old_orders.
  - unfold patch_order_status. split_handler; from_old_orders.
  - unfold post_payment_confirm. split_handler; from_old_orders.
  - unfold post_payment_refund. split_handler; from_old_orders.
  - unfold post_payment_webhook. split_handler; from_old_orders.
  - unfold put_product. split_handler; from_old_orders.
  - unfold delete_product. split_handler; from_old_orders.
  - unfold patch_product_stock. split_handler; from_old_orders.
  - unfold patch_product_offer. split_handler; from_old_orders.
Qed.

Lemma handle_stocks_nonneg (db : Db) (r : Request) :
  stock_sane db -> benign r = true -> stocks_nonneg (products (handle db r)).
Proof.
  intros [Hps Hos] Hb. fold (stocks_nonneg (products db)) in Hps.
  destruct r; cbn [handle].
  - unfold post_order.
    destruct (users db !! userId) as [u|]; [|exact Hps].
    destruct (negb (String.eqb (role u) "customer")); [exact Hps|].
    destruct its as [|it rest]; [exact Hps|].
    destruct (order_loop (products db) (it :: rest) 0%Q []) as [ps ex] eqn:Hloop.
    pose proof (order_loop_stocks_nonneg _ _ _ _ _ _ Hps Hloop).
    destruct ex; assumption.
  - unfold put_order. split_handler; exact Hps.
  - unfold delete_order. split_handler; try exact Hps.
    apply restore_stocks_nonneg; [exact Hps|].
    intros l Hl. eapply Hos; eassumption.
  - unfold patch_order_pay. split_handler; exact Hps.
  - unfold patch_order_status. split_handler; exact Hps.
  - unfold post_payment_confirm. split_handler; exact Hps.
  - unfold post_payment_refund. split_handler; exact Hps.
  - unfold post_payment_webhook. split_handler; exact Hps.
  - unfold put_product.
    destruct (users db !! userId) as [u|]; [|exact Hps].
    destruct (negb (String.eqb (role u) "vendor") && negb (String.eqb (role u) "admin"));
      [exact Hps|].
    destruct (products db !! id) as [p|] eqn:Hp; [|exact Hps].
    destruct (String.eqb (role u) "vendor" && negb (String.eqb (vendor p) userId));
      [exact Hps|].
    cbn [fst products]. apply stocks_nonneg_insert; [exact Hps|].
    simpl in Hb. unfold apply_update; simpl.
    destruct (upd_stock body) as [s|]; simpl.
    + apply Z.leb_le. exact Hb.
    + eapply Hps. exact Hp.
  - unfold delete_product. split_handler; try exact Hps.
    apply stocks_nonneg_delete. exact Hps.
  - unfold patch_product_stock.
    destruct (users db !! userId) as [u|]; [|exact Hps].
    destruct (negb (String.eqb (role u) "vendor")); [exact Hps|].
    destruct (Z.ltb_spec new_stock 0) as [|Hge]; [exact Hps|].
    destruct (products db !! id) as [p|] eqn:Hp; [|exact Hps].
    destruct (negb (String.eqb (vendor p) userId)); [exact Hps|].
    cbn [fst products]. apply stocks_nonneg_insert; [exact Hps|exact Hge].
  - unfold patch_product_offer.
    destruct (users db !! userId) as [u|]; [|exact Hps].
    destruct (negb (String.eqb (role u) "vendor")); [exact Hps|].
    destruct (Qlt_bool new_offer 0 || Qlt_bool 100 new_offer); [exact Hps|].
    destruct (products db !! id) as [p|] eqn:Hp; [|exact Hps].
    destruct (negb (String.eqb (vendor p) userId)); [exact Hps|].
    cbn [fst products]. apply stocks_nonneg_insert; [exact Hps|].
    simpl. eapply Hps. exact Hp.
Qed.

Lemma handle_lines_nonneg (db : Db) (r : Request) :
  stock_sane db -> benign r = true ->
  forall id o l, orders (handle db r) !! id = Some o -> In l (items o) -> 0 <= quantity l.
Proof.
  intros [Hps Hos] Hb id o l Ho Hl.
  destruct (match r with PostOrder _ _ _ => true | _ => false end) eqn:Hr.
  - destruct r; try discriminate. cbn [handle] in Ho.
    destruct (post_order db userId (fresh (dom (orders db))) its addr)
      as [db1 [code o1|code msg]] eqn:H; cbn [fst] in Ho.
    + pose proof H as Hinv. apply post_order_json_inv in Hinv.
      destruct Hinv as (Hloop & _ & _ & _ & _ & Hord).
      rewrite Hord in Ho.
      destruct (decide (fresh (dom (orders db)) = id)) as [<-|Hne].
      * rewrite lookup_insert_eq in Ho. inversion Ho; subst o1.
        destruct (order_loop_done _ _ _ _ _ _ _ Hloop) as (_ & (ls0 & Hls & Hf) & _).
        simpl in Hls. subst ls0.
        destruct (Forall2_In_right _ _ _ _ Hf Hl) as (it & Hit & _ & Hq & _).
        rewrite Hq. simpl in Hb. rewrite forallb_forall in Hb.
        apply Z.leb_le. apply Hb. exact Hit.
      * rewrite lookup_insert_ne in Ho by exact Hne. eapply Hos; eassumption.
    + apply post_order_fail_orders in H. destruct H as [H _].
      rewrite H in Ho. eapply Hos; eassumption.
  - destruct (handle_orders_from db r) with (id := id) (o' := o) as (o0 & Ho0 & Hi).
    + intros u its addr E. subst r. discriminate.
    + exact Ho.
    + rewrite Hi in Hl. eapply Hos; eassumption.
Qed.

Lemma post_product_stock_sane (db : Db) (userId newId : ObjectId) (body : NewProduct) :
  stock_sane db ->
  match np_stock body with Some s => 0 <= s | None => True end ->
  stock_sane (fst (post_product db userId newId body)).
Proof.
  intros [Hps Hos] Hb. unfold post_product.
  destruct (users db !! userId) as [u|]; [|split; assumption].
  destruct (negb (String.eqb (role u) "vendor") && negb (String.eqb (role u) "admin"));
    [split; assumption|].
  destruct (np_name body) as [n|]; [|split; assumption].
  destruct (np_price body) as [pr|]; [|split; assumption].
  destruct (String.eqb n ""); [split; assumption|].
  split; cbn [fst products orders]; [|exact Hos].
  intros k p Hp. apply lookup_insert_Some in Hp.
  destruct Hp as [[_ <-]|[_ Hp]]; [|eapply Hps; exact Hp].
  cbn [stock]. destruct (np_stock body) as [s|]; simpl; [exact Hb|lia].
Qed.

(** X14.  Stock never goes below 0 under sequential requests: when every
    product has a stock of at least 0 and every stored order line a quantity
    of at least 0, the same holds after any sequence of the requests that
    write orders or products, the creation of products included, in which no
    order is placed with a negative quantity and no product is created or
    updated (PUT) with a negative stock. *)
Theorem stock_never_negative (rs : list CatalogueRequest) (db : Db) :
  stock_sane db -> forallb catalogue_benign rs = true ->
  stock_sane (catalogue_run db rs).
Proof.
  revert db. induction rs as [|r rs IH]; intros db Hs Hb; simpl; [exact Hs|].
  simpl in Hb. apply andb_true_iff in Hb. destruct Hb as [Hr Hrs].
  apply IH; [|exact Hrs]. destruct r as [r|userId body]; cbn [catalogue_handle].
  - simpl in Hr. split.
    + apply handle_stocks_nonneg; assumption.
    + apply handle_lines_nonneg; assumption.
  - apply post_product_stock_sane; [exact Hs|].
    simpl in Hr. destruct (np_stock body) as [s|]; [apply Z.leb_le; exact Hr|exact I].
Qed.

Lemma demo_db_with_sane (s : OrderStatus) (ps : PaymentStatus) :
  stock_sane (demo_db_with s ps).
Proof.
  split.
  - intros k p Hp. unfold demo_db_with in Hp. cbn [products] in Hp.
    apply lookup_insert_Some in Hp. destruct Hp as [[_ <-]|[_ Hp]]; [simpl; lia|].
    apply lookup_singleton_Some in Hp. destruct Hp as [_ <-]. simpl; lia.
  - intros id o l Ho Hl. unfold demo_db_with in Ho. cbn [orders] in Ho.
    apply lookup_singleton_Some in Ho. destruct Ho as [_ <-].
    simpl in Hl. destruct Hl as [<-|[<-|[]]]; simpl; lia.
Defined.

Lemma stock_never_negative_witness :
  stock_sane
    (catalogue_run (demo_db_with paid payment_paid)
       [Write (PostOrder "c1" [mkReqItem "p1" 3] None);
        PostProduct "v1" (mkNewProduct (Some "Mug") (Some 4%Q) None None None None (Some 3));
        Write (DeleteOrder "c1" "o1");
        Write (PatchProductStock "v1" "p2" 0)]).
Proof.
  apply (stock_never_negative _ (demo_db_with paid payment_paid)).
  - apply demo_db_with_sane.
  - reflexivity.
Defined.

(** Without the condition on the request the invariant breaks: the route
    stores the stock it is sent. *)
Example post_product_negative_stock :
  stock <$>
    match post_product demo_db "v1" "p9"
            (mkNewProduct (Some "Mug") (Some 4%Q) None None None None (Some (-5))) with
    | (_, Json _ p) => Some p
    | _ => None
    end = Some (-5).
Proof. reflexivity. Qed.

(** ** Writes to the catalogue *)

(** X15.  A vendor cannot write another vendor's product: PUT, DELETE,
    PATCH stock and PATCH offer on a product whose vendor is somebody else
    are all refused and leave the database as it was.  The two PATCH routes
    are for vendors only: the admin is refused as well. *)
Theorem foreign_product_write_refused (db : Db) (uid id : ObjectId) (u : User)
    (p : Product) (body : ProductUpdate) (new_stock : Z) (new_offer : Q) :
  users db !! uid = Some u -> products db !! id = Some p ->
  (role u = "vendor" /\ vendor p <> uid) \/ role u = "admin" ->
  (role u = "vendor" ->
   put_product db uid id body = (db, Fail 404 "Product not found or not owned by you") /\
   delete_product db uid id = (db, Fail 404 "Product not found")) /\
  (exists code msg, patch_product_stock db uid id new_stock = (db, Fail code msg)) /\
  (exists code msg, patch_product_offer db uid id new_offer = (db, Fail code msg)).
Proof.
  intros Hu Hp Hrole.
  unfold put_product, delete_product, patch_product_stock, patch_product_offer.
  rewrite Hu, Hp.
  destruct Hrole as [[Hr Hv]|Hr]; rewrite Hr; simpl.
  - apply String.eqb_neq in Hv. rewrite Hv. simpl.
    split; [intros _; split; reflexivity|].
    split.
    + destruct (new_stock <? 0); eauto.
    + destruct (Qlt_bool new_offer 0 || Qlt_bool 100 new_offer); eauto.
  - split; [discriminate|]. split; eauto.
Qed.

Lemma foreign_product_write_refused_witness :
  let db := mkDb (<[ "v2" := mkUser "vendor" ]> demo_users) (products demo_db) ∅ in
  (exists code msg, patch_product_stock db "v2" "p1" 100 = (db, Fail code msg)) /\
  (exists code msg, patch_product_offer db "v2" "p1" 90 = (db, Fail code msg)).
Proof.
  intros db.
  apply (foreign_product_write_refused db "v2" "p1" (mkUser "vendor") (lamp 5)
           (mkProductUpdate None None None None None None None) 100 90).
  - reflexivity.
  - reflexivity.
  - left. split; [reflexivity|discriminate].
Defined.

(** ** Reading an order *)

(** X16.  GET /:id shows an order only to its customer, to a vendor of a
    product of one of its lines, or to a caller who is neither customer nor
    vendor (the admin): whenever the order is sent, it is the stored order
    and the caller is one of these.  A vendor is answered 500 as soon as one
    line's product has been deleted, own lines or not. *)
Theorem get_order_access (db : Db) (uid id : ObjectId) :
  (forall code o,
     get_order db uid id = Json code o ->
     orders db !! id = Some o /\
     exists u, users db !! uid = Some u /\
               (role u = "customer" -> customer o = uid) /\
               (role u = "vendor" ->
                existsb (vendor_of_line (products db) uid) (items o) = true)) /\
  (forall u o l,
     users db !! uid = Some u -> role u = "vendor" ->
     orders db !! id = Some o -> In l (items o) -> products db !! product l = None ->
     get_order db uid id = Fail 500 "Error fetching order").
Proof.
  split.
  - intros code o H. unfold get_order in H.
    destruct (orders db !! id) as [o0|]; [|discriminate].
    destruct (users db !! uid) as [u|]; [|discriminate].
    destruct (String.eqb_spec (role u) "customer") as [Ec|Ec].
    + destruct (users db !! customer o0); [|discriminate].
      destruct (String.eqb_spec (customer o0) uid) as [E|E]; [|discriminate].
      inversion H; subst. split; [reflexivity|].
      exists u. split; [reflexivity|]. split; [reflexivity|].
      intros Ev. rewrite Ec in Ev. discriminate.
    + destruct (String.eqb_spec (role u) "vendor") as [Ev|Ev].
      * destruct (forallb _ (items o0)); [|discriminate].
        destruct (existsb (vendor_of_line (products db) uid) (items o0)) eqn:Hown;
          [|discriminate].
        inversion H; subst. split; [reflexivity|].
        exists u. split; [reflexivity|]. split; [contradiction|]. intros _. exact Hown.
      * inversion H; subst. split; [reflexivity|].
        exists u. split; [reflexivity|]. split; contradiction.
  - intros u o l Hu Hr Ho Hl Hp. unfold get_order. rewrite Ho, Hu, Hr. simpl.
    destruct (forallb _ (items o)) eqn:Hall; [|reflexivity].
    rewrite forallb_forall in Hall. specialize (Hall l Hl).
    apply bool_decide_eq_true in Hall. rewrite Hp in Hall.
    destruct Hall as [x Hx]. discriminate.
Qed.

(** ** Shipping *)

(** X17.  Tracking information is only ever sent for an order that is
    neither shipped nor delivered, and then it carries exactly the two
    updates Order Placed and Processing; for a shipped or delivered order
    every caller gets an error. *)
Theorem get_shipping_track_never_shipped (db : Db) (uid id : ObjectId) :
  (forall code info,
     get_shipping_track db uid id = Json code info ->
     exists o, orders db !! id = Some o /\
               status o <> shipped /\ status o <> delivered /\
               tracking_status info = status o /\
               map update_status (updates info) = ["Order Placed"; "Processing"]) /\
  (forall o, orders db !! id = Some o -> status o = shipped \/ status o = delivered ->
     exists code msg, get_shipping_track db uid id = Fail code msg).
Proof.
  split.
  - intros code info H. unfold get_shipping_track in H.
    destruct (orders db !! id) as [o|]; [|discriminate].
    destruct (users db !! uid) as [u|]; [|discriminate].
    destruct (String.eqb (role u) "customer" && negb (String.eqb (customer o) uid));
      [discriminate|].
    exists o. split; [reflexivity|].
    destruct (status o) eqn:Hs; try discriminate; inversion H; subst; simpl;
      repeat split; try discriminate; reflexivity.
  - intros o Ho Hs. unfold get_shipping_track. rewrite Ho.
    destruct (users db !! uid) as [u|]; [|eauto].
    destruct (String.eqb (role u) "customer" && negb (String.eqb (customer o) uid));
      [eauto|].
    destruct Hs as [-> | ->]; eauto.
Qed.

Lemma get_shipping_track_never_shipped_witness :
  exists code msg,
    get_shipping_track (demo_db_with shipped payment_paid) "c1" "o1" = Fail code msg.
Proof.
  apply (proj2 (get_shipping_track_never_shipped (demo_db_with shipped payment_paid)
                  "c1" "o1") (demo_order shipped payment_paid)).
  - reflexivity.
  - left. reflexivity.
Defined.

(** The tracking number of a pending order with a 24 digit id. *)
Example get_shipping_track_number :
  let db := mkDb demo_users ∅ {[ "60f7b3b3b3b3b3b3b3b3c4d5" := demo_order paid payment_paid ]} in
  trackingNumber <$>
    match get_shipping_track db "c1" "60f7b3b3b3b3b3b3b3b3c4d5" with
    | Json _ i => Some i
    | Fail _ _ => None
    end = Some "TRKB3B3C4D5".
Proof. reflexivity. Qed.

(** X18.  The methods that GET /methods advertises are exactly the ones
    POST /calculate has rates for, and a cart that does not ship free is
    charged the advertised base price plus the advertised price per kg for
    0.5 kg per unit. *)
Theorem advertised_methods_charged (its : list ShipItem) (destination : string) :
  its <> [] -> destination <> "" -> ~ (50 < spec_subtotal its)%Q ->
  (forall m, In m shippingMethods ->
     exists q,
       post_shipping_calculate its destination (Some (method_id m)) = Json 200 q /\
       cost_is q (basePrice m + perKgPrice m * spec_weight its)) /\
  (forall s r, shippingRates s = Some r ->
     exists m, In m shippingMethods /\ method_id m = s).
Proof.
  intros Hne Hd Hfree. split.
  - intros m Hm.
    destruct (post_shipping_calculate_rates its destination (Some (method_id m)) Hne Hd)
      as (q & Hq & _ & Hcost & _).
    exists q. split; [exact Hq|]. specialize (Hcost Hfree).
    simpl in Hm. destruct Hm as [<-|[<-|[<-|[]]]]; exact Hcost.
  - intros s r H. unfold shippingRates in H.
    destruct (String.eqb_spec s "standard") as [->|_];
      [eexists; split; [left; reflexivity|reflexivity]|].
    destruct (String.eqb_spec s "express") as [->|_];
      [eexists; split; [right; left; reflexivity|reflexivity]|].
    destruct (String.eqb_spec s "overnight") as [->|_];
      [eexists; split; [right; right; left; reflexivity|reflexivity]|].
    discriminate.
Qed.

Lemma advertised_methods_charged_witness :
  exists q,
    post_shipping_calculate [mkShipItem 2 (Some 10%Q)] "Paris" (Some "overnight") = Json 200 q /\
    cost_is q (24.99 + 6.00 * spec_weight [mkShipItem 2 (Some 10%Q)]).
Proof.
  apply (proj1 (advertised_methods_charged [mkShipItem 2 (Some 10%Q)] "Paris"
                  ltac:(discriminate) ltac:(discriminate) ltac:(intros H; discriminate H))
           (mkShippingMethod "overnight" "Overnight Shipping" "Next business day" 24.99 6.00)).
  right. right. left. reflexivity.
Defined.

(** X19.  A shipping method that is no key of the rate table is not
    refused, and the reply repeats its name.  When the name is not that of
    a member inherited from Object.prototype either, it is charged and timed
    as standard shipping.  When it is (constructor, toString, __proto__ and
    the like), the inherited member is taken for the rate: the reply has no
    estimated days, and unless the cart ships free its cost is NaN. *)
Theorem unknown_method_rates (its : list ShipItem) (destination method : string) :
  its <> [] -> destination <> "" -> shippingRates method = None ->
  exists q q0,
    post_shipping_calculate its destination (Some method) = Json 200 q /\
    post_shipping_calculate its destination (Some "standard") = Json 200 q0 /\
    shippingMethod q = method /\
    totalWeight q = totalWeight q0 /\ freeShipping q = freeShipping q0 /\
    (~ In method objectPrototypeKeys ->
     shippingCost q = shippingCost q0 /\ estimatedDays q = estimatedDays q0) /\
    (In method objectPrototypeKeys ->
     estimatedDays q = None /\
     shippingCost q = if freeShipping q then Some 0%Q else None).
Proof.
  intros Hne Hd Hm. unfold post_shipping_calculate. simpl.
  destruct its as [|it rest] eqn:Hits; [congruence|]. rewrite <- Hits.
  destruct (String.eqb_spec destination "") as [E|_]; [contradiction|].
  destruct (shipping_loop its 0 0) as [w v].
  eexists _, _. split; [reflexivity|]. split; [reflexivity|].
  cbn [shippingCost estimatedDays shippingMethod totalWeight freeShipping].
  split; [reflexivity|]. split; [reflexivity|]. split; [reflexivity|].
  unfold rate_of. rewrite Hm.
  destruct (existsb (String.eqb method) objectPrototypeKeys) eqn:Ex.
  - split.
    + intros Hnot. exfalso. apply Hnot.
      apply existsb_exists in Ex. destruct Ex as (x & Hx & Hxe).
      apply String.eqb_eq in Hxe. subst x. exact Hx.
    + intros _. split; reflexivity.
  - split.
    + intros _. split; reflexivity.
    + intros Hin. exfalso.
      assert (Ht : existsb (String.eqb method) objectPrototypeKeys = true).
      { apply existsb_exists. exists method. split; [exact Hin|apply String.eqb_refl]. }
      congruence.
Qed.

Lemma unknown_method_rates_witness :
  (exists q q0,
     post_shipping_calculate [mkShipItem 1 (Some 10%Q)] "Paris" (Some "pigeon") = Json 200 q /\
     post_shipping_calculate [mkShipItem 1 (Some 10%Q)] "Paris" (Some "standard") = Json 200 q0 /\
     shippingMethod q = "pigeon" /\
     shippingCost q = shippingCost q0 /\ estimatedDays q = estimatedDays q0) /\
  (exists q,
     post_shipping_calculate [mkShipItem 1 (Some 10%Q)] "Paris" (Some "toString") = Json 200 q /\
     estimatedDays q = None /\ shippingCost q = None).
Proof.
  split.
  - destruct (unknown_method_rates [mkShipItem 1 (Some 10%Q)] "Paris" "pigeon"
                ltac:(discriminate) ltac:(discriminate) eq_refl)
      as (q & q0 & Hq & Hq0 & Hm & _ & _ & Hstd & _).
    exists q, q0. split; [exact Hq|]. split; [exact Hq0|]. split; [exact Hm|].
    apply Hstd. simpl. intros H.
    repeat (destruct H as [H|H]; [discriminate H|]). exact H.
  - destruct (unknown_method_rates [mkShipItem 1 (Some 10%Q)] "Paris" "toString"
                ltac:(discriminate) ltac:(discriminate) eq_refl)
      as (q & q0 & Hq & _ & _ & _ & Hf & _ & Hinh).
    exists q. split; [exact Hq|].
    destruct Hinh as [Hd Hc]; [simpl; auto 15|].
    split; [exact Hd|]. rewrite Hc.
    assert (Ef : freeShipping q = false) by (inversion Hq; reflexivity).
    rewrite Ef. reflexivity.
Defined.

Lemma units_nonneg (its : list ShipItem) :
  (forall it, In it its -> 0 <= ship_quantity it) -> 0 <= units its.
Proof.
  unfold units. induction its as [|it rest IH]; simpl; intros H; [lia|].
  assert (0 <= ship_quantity it) by (apply H; left; reflexivity).
  assert (0 <= fold_right Z.add 0 (map ship_quantity rest))
    by (apply IH; intros x Hx; apply H; right; exact Hx).
  lia.
Qed.

(** X20.  When no quantity is negative, a shipping cost that is a number
    is never negative, and on a cart that does not ship free it is at least
    the base price of the method's rate.  The cost is not a number (NaN) in
    one case only: the cart does not ship free and the method is named like
    a member inherited from Object.prototype. *)
Theorem shipping_cost_bounds (its : list ShipItem) (destination : string)
    (method : option string) :
  its <> [] -> destination <> "" ->
  (forall it, In it its -> 0 <= ship_quantity it) ->
  exists q,
    post_shipping_calculate its destination method = Json 200 q /\
    match shippingCost q with
    | Some c =>
      (0 <= c)%Q /\
      (forall rate,
         shippingRates (default "standard" method) = Some rate ->
         ~ (50 < spec_subtotal its)%Q -> (base rate <= c)%Q)
    | None =>
      In (default "standard" method) objectPrototypeKeys /\
      ~ (50 < spec_subtotal its)%Q
    end.
Proof.
  intros Hne Hd Hq.
  destruct (post_shipping_calculate_rates its destination method Hne Hd)
    as (q & Hcalc & Hfree & Hcost & _).
  assert (Hw : (0 <= spec_weight its)%Q).
  { unfold spec_weight. apply Qmult_le_0_compat; [discriminate|].
    change 0%Q with (inject_Z 0). rewrite <- Zle_Qle. apply units_nonneg. exact Hq. }
  assert (Hge : forall b k : Q, (0 <= k)%Q -> (b <= b + k * spec_weight its)%Q).
  { intros b k Hk. assert (E : (b == b + 0)%Q) by ring. rewrite E at 1.
    apply Qplus_le_r. apply Qmult_le_0_compat; assumption. }
  assert (Hown : forall r, rate_of (default "standard" method) = OwnRate r ->
                           (0 <= base r)%Q /\ (0 <= perKg r)%Q).
  { intros r Hr. unfold rate_of, shippingRates in Hr.
    destruct (String.eqb (default "standard" method) "standard");
      [inversion Hr; subst; split; discriminate|].
    destruct (String.eqb (default "standard" method) "express");
      [inversion Hr; subst; split; discriminate|].
    destruct (String.eqb (default "standard" method) "overnight");
      [inversion Hr; subst; split; discriminate|].
    destruct (existsb _ objectPrototypeKeys); [discriminate|].
    inversion Hr; subst; split; discriminate. }
  exists q. split; [exact Hcalc|].
  destruct (Qlt_le_dec 50 (spec_subtotal its)) as [Hgt|Hle].
  - rewrite (Hfree Hgt). split; [apply Qle_refl|].
    intros rate _ Hn. contradiction.
  - assert (Hn : ~ (50 < spec_subtotal its)%Q) by (apply Qle_not_lt; exact Hle).
    specialize (Hcost Hn).
    destruct (rate_of (default "standard" method)) as [r|] eqn:Hr.
    + destruct Hcost as (c & Hc & Hceq). rewrite Hc.
      destruct (Hown r eq_refl) as [Hb Hk].
      split.
      * rewrite Hceq. apply Qle_trans with (base r); [exact Hb|apply Hge; exact Hk].
      * intros rate Hrate _. unfold rate_of in Hr. rewrite Hrate in Hr.
        inversion Hr; subst rate. rewrite Hceq. apply Hge. exact Hk.
    + rewrite Hcost. split; [|exact Hn].
      unfold rate_of in Hr.
      destruct (shippingRates (default "standard" method)); [discriminate|].
      destruct (existsb (String.eqb (default "standard" method)) objectPrototypeKeys)
        eqn:Ex; [|discriminate].
      apply existsb_exists in Ex. destruct Ex as (x & Hx & Hxe).
      apply String.eqb_eq in Hxe. subst x. exact Hx.
Qed.

Lemma shipping_cost_bounds_witness :
  exists q c,
    post_shipping_calculate [mkShipItem 2 (Some 10%Q)] "Paris" None = Json 200 q /\
    shippingCost q = Some c /\ (0 <= c)%Q /\ (5.99 <= c)%Q.
Proof.
  destruct (shipping_cost_bounds [mkShipItem 2 (Some 10%Q)] "Paris" None
              ltac:(discriminate) ltac:(discriminate)) as (q & Hq & Hc).
  { intros it [<-|[]]. simpl. lia. }
  inversion Hq. subst q. cbn [shippingCost] in Hc.
  eexists _, _. split; [reflexivity|]. split; [reflexivity|].
  destruct Hc as [H0 Hb]. split; [exact H0|].
  apply (Hb (mkRate 5.99 2.50 7)); [reflexivity|intros H; discriminate H].
Defined.

(** ** Pages of the payment history *)

Lemma pages_cover {A : Type} (k : nat) : forall (n : nat) (l : list A),
  (0 < k)%nat -> (length l <= n * k)%nat ->
  concat (map (fun i => firstn k (skipn (i * k) l)) (seq 0 n)) = l.
Proof.
  induction n as [|n IH]; intros l Hk Hlen.
  - simpl in *. destruct l; [reflexivity|simpl in Hlen; lia].
  - rewrite <- cons_seq. simpl map. simpl concat.
    rewrite <- seq_shift, map_map.
    rewrite (map_ext _ (fun i => firstn k (skipn (i * k) (skipn k l)))).
    + rewrite IH; [apply firstn_skipn|exact Hk|].
      rewrite length_skipn. simpl in Hlen. lia.
    + intros i. rewrite skipn_skipn. f_equal. f_equal. simpl. lia.
Qed.

Lemma ceil_div_covers (total : nat) (limit : positive) :
  (total <= ceil_div total limit * Pos.to_nat limit)%nat.
Proof.
  unfold ceil_div. pose proof (Pos2Nat.is_pos limit) as Hpos.
  set (k := Pos.to_nat limit) in *.
  pose proof (Nat.div_mod (total + (k - 1)) k ltac:(lia)) as Hdm.
  pose proof (Nat.mod_upper_bound (total + (k - 1)) k ltac:(lia)) as Hmod.
  nia.
Qed.

Lemma ceil_div_tight (total : nat) (limit : positive) :
  (0 < total)%nat -> ((ceil_div total limit - 1) * Pos.to_nat limit < total)%nat.
Proof.
  unfold ceil_div. intros Ht. pose proof (Pos2Nat.is_pos limit) as Hpos.
  set (k := Pos.to_nat limit) in *.
  pose proof (Nat.div_mod (total + (k - 1)) k ltac:(lia)) as Hdm.
  pose proof (Nat.mod_upper_bound (total + (k - 1)) k ltac:(lia)) as Hmod.
  assert (1 <= (total + (k - 1)) / k)%nat.
  { apply Nat.div_le_lower_bound; lia. }
  nia.
Qed.

(** X21.  The pages of the payment history cut the caller's orders
    (all orders, or the own orders for a customer) into consecutive pieces
    of at most [limit] entries: pages 1 to totalPages put one after the other
    are the whole list, in order and without repetition, the last of them is
    not empty, and every page after totalPages is empty. *)
Theorem payment_history_pages (db : Db) (newest_first : list (ObjectId * Order))
    (uid : ObjectId) (u : User) (limit : positive) :
  users db !! uid = Some u ->
  let found := history_found newest_first uid u in
  let n := ceil_div (length found) limit in
  (forall page,
     exists h,
       get_payment_history db newest_first uid page limit = Json 200 h /\
       (length (payments h) <= Pos.to_nat limit)%nat /\
       totalPages h = n /\ history_total h = length found /\
       ((n < Pos.to_nat page)%nat -> payments h = [])) /\
  concat (map (history_page db newest_first uid limit) (seq 0 n)) = found /\
  (found <> [] -> history_page db newest_first uid limit (n - 1) <> []).
Proof.
  intros Hu found n.
  assert (Hget : forall page,
             get_payment_history db newest_first uid page limit =
             Json 200 (mkHistory (page_of limit page found) n page (length found))).
  { intros page. unfold get_payment_history. rewrite Hu. reflexivity. }
  pose proof (Pos2Nat.is_pos limit) as Hpos.
  pose proof (ceil_div_covers (length found) limit) as Hcov. fold n in Hcov.
  split; [|split].
  - intros page. eexists. split; [apply Hget|]. simpl.
    split; [unfold page_of; rewrite length_firstn; lia|].
    split; [reflexivity|]. split; [reflexivity|].
    intros Hbig. unfold page_of. rewrite skipn_all2; [apply firstn_nil|]. nia.
  - rewrite (map_ext _ (fun i => firstn (Pos.to_nat limit)
                                        (skipn (i * Pos.to_nat limit) found))).
    + apply pages_cover; [exact Hpos|exact Hcov].
    + intros i. unfold history_page. rewrite Hget. simpl. unfold page_of.
      rewrite SuccNat2Pos.id_succ. do 2 f_equal. lia.
  - intros Hne. unfold history_page. rewrite Hget. simpl. unfold page_of.
    rewrite SuccNat2Pos.id_succ.
    assert (Hlen : (0 < length found)%nat) by (destruct found; [congruence|simpl; lia]).
    pose proof (ceil_div_tight (length found) limit Hlen) as Htight. fold n in Htight.
    replace (S (n - 1) - 1)%nat with (n - 1)%nat by lia.
    intros E. apply (f_equal (@length _)) in E.
    rewrite length_firstn, length_skipn in E. simpl in E. lia.
Qed.

Lemma payment_history_pages_witness :
  let l := [("o3", demo_order paid payment_paid); ("o2", demo_order pending payment_pending);
            ("o1", demo_order delivered payment_paid)] in
  concat (map (history_page demo_db l "c1" 2) (seq 0 (ceil_div (length (history_found l "c1" (mkUser "customer"))) 2)))
  = history_found l "c1" (mkUser "customer").
Proof.
  intros l.
  apply (payment_history_pages demo_db l "c1" (mkUser "customer") 2).
  reflexivity.
Defined.

(** ** The cart *)

Lemma findIndex_None {A : Type} (f : A -> bool) (l : list A) :
  findIndex f l = None -> forall x, In x l -> f x = false.
Proof.
  induction l as [|y rest IH]; simpl; [contradiction|].
  destruct (f y) eqn:Hy; [discriminate|].
  destruct (findIndex f rest); [discriminate|].
  intros _ x [<-|Hx]; [exact Hy|apply IH; [reflexivity|exact Hx]].
Qed.

(** The add, line by line. *)
Lemma cart_add_cons (i : CartItem) (rest : list CartItem) (p : ObjectId) (q : Z) :
  cart_add (i :: rest) p q =
  if String.eqb (cart_product i) p
  then mkCartItem (cart_product i) (cart_quantity i + q) :: rest
  else i :: cart_add rest p q.
Proof.
  unfold cart_add. simpl.
  destruct (String.eqb (cart_product i) p); [reflexivity|].
  destruct (findIndex _ rest); reflexivity.
Qed.

Lemma cart_add_products (its : list CartItem) (p : ObjectId) (q : Z) :
  map cart_product (cart_add its p q) =
  if existsb (fun i => String.eqb (cart_product i) p) its
  then map cart_product its
  else (map cart_product its ++ [p])%list.
Proof.
  induction its as [|i rest IH]; [reflexivity|].
  rewrite cart_add_cons. simpl.
  destruct (String.eqb (cart_product i) p); simpl; [reflexivity|].
  rewrite IH. destruct (existsb _ rest); reflexivity.
Qed.

Lemma cart_add_units (its : list CartItem) (p : ObjectId) (q : Z) (k : ObjectId) :
  cart_units k (cart_add its p q) =
  cart_units k its + (if String.eqb p k then q else 0).
Proof.
  induction its as [|i rest IH].
  - unfold cart_add. simpl. lia.
  - rewrite cart_add_cons.
    destruct (String.eqb_spec (cart_product i) p) as [E|E]; simpl.
    + rewrite E. destruct (String.eqb p k); lia.
    + rewrite IH. lia.
Qed.

Lemma NoDup_snoc {A : Type} (l : list A) (x : A) :
  List.NoDup l -> ~ In x l -> List.NoDup (l ++ [x]).
Proof.
  induction 1 as [|y l Hy Hnd IH]; simpl; intros Hx.
  - constructor; [intros []|constructor].
  - constructor.
    + intros Hin. apply in_app_or in Hin. destruct Hin as [Hin|[Hin|[]]].
      * exact (Hy Hin).
      * apply Hx. left. symmetry. exact Hin.
    + apply IH. intros Hin. apply Hx. right. exact Hin.
Qed.

Lemma cart_add_ok (its : list CartItem) (p : ObjectId) (q : Z) :
  1 <= q -> cart_ok its -> cart_ok (cart_add its p q).
Proof.
  intros Hq [Hnd Hall]. split.
  - rewrite cart_add_products.
    destruct (existsb _ its) eqn:Hex; [exact Hnd|].
    apply NoDup_snoc; [exact Hnd|].
    intros Hin. apply in_map_iff in Hin. destruct Hin as (x & Hx & Hxin).
    assert (existsb (fun i => String.eqb (cart_product i) p) its = true).
    { apply existsb_exists. exists x. split; [exact Hxin|]. rewrite Hx.
      apply String.eqb_refl. }
    congruence.
  - induction its as [|i rest IH]; [unfold cart_add; simpl; repeat constructor; exact Hq|].
    rewrite cart_add_cons. inversion Hall as [|? ? Hi Hrest]; subst.
    inversion Hnd as [|? ? _ Hnd']; subst.
    destruct (String.eqb (cart_product i) p).
    + constructor; [simpl; lia|exact Hrest].
    + constructor; [exact Hi|]. apply IH; assumption.
Qed.

Lemma cart_remove_units (its : list CartItem) (p k : ObjectId) :
  cart_units k (cart_remove its p) = if String.eqb p k then 0 else cart_units k its.
Proof.
  unfold cart_remove. induction its as [|i rest IH]; simpl.
  - destruct (String.eqb p k); reflexivity.
  - destruct (String.eqb_spec (cart_product i) p) as [E|E]; simpl.
    + rewrite IH, E. destruct (String.eqb p k); lia.
    + rewrite IH. destruct (String.eqb_spec p k) as [E2|E2].
      * destruct (String.eqb_spec (cart_product i) k) as [E3|E3]; [congruence|lia].
      * reflexivity.
Qed.

Lemma cart_remove_add (its : list CartItem) (p : ObjectId) (q : Z) :
  cart_remove (cart_add its p q) p = cart_remove its p.
Proof.
  induction its as [|i rest IH].
  - unfold cart_add, cart_remove. simpl. rewrite String.eqb_refl. reflexivity.
  - rewrite cart_add_cons. unfold cart_remove in *.
    destruct (String.eqb (cart_product i) p) eqn:E; simpl; rewrite E; simpl.
    + reflexivity.
    + rewrite IH. reflexivity.
Qed.

Lemma cart_remove_ok (its : list CartItem) (p : ObjectId) :
  cart_ok its -> cart_ok (cart_remove its p).
Proof.
  unfold cart_remove. intros [Hnd Hall]. split.
  - induction its as [|i rest IH]; simpl; [constructor|].
    inversion Hnd as [|? ? Hi Hnd']; subst. inversion Hall; subst.
    destruct (negb (String.eqb (cart_product i) p)); simpl; [|apply IH; assumption].
    constructor; [|apply IH; assumption].
    intros Hin. apply Hi. apply in_map_iff in Hin. destruct Hin as (x & Hx & Hxin).
    apply filter_In in Hxin. apply in_map_iff. exists x. tauto.
  - apply List.Forall_forall. intros x Hx. apply filter_In in Hx.
    rewrite List.Forall_forall in Hall. apply Hall. tauto.
Qed.

(** The reply of an accepted add. *)
Lemma post_cart_add_accepted (db : Db) (carts : gmap string (list CartItem))
    (uid : ObjectId) (u : User) (p : ObjectId) (q : Z) :
  users db !! uid = Some u -> role u = "customer" -> p <> "" -> 1 <= q ->
  post_cart_add db carts uid p q
  = (<[uid := cart_add (default [] (carts !! uid)) p q]> carts,
     Json 200 (cart_add (default [] (carts !! uid)) p q)).
Proof.
  intros Hu Hr Hp Hq. unfold post_cart_add. rewrite Hu, Hr. simpl.
  destruct (String.eqb_spec p "") as [|_]; [contradiction|].
  destruct (Z.eqb_spec q 0) as [|_]; [lia|].
  destruct (Z.ltb_spec q 1) as [|_]; [lia|]. reflexivity.
Qed.

(** X22.  Adding to the cart merges by product: an accepted add raises
    the units of that product in the customer's cart by the quantity sent
    and leaves every other product and every other customer's cart as they
    were; a cart with no two lines on one product and no quantity below 1
    stays such a cart. *)
Theorem post_cart_add_merges (db : Db) (carts : gmap string (list CartItem))
    (uid : ObjectId) (u : User) (p : ObjectId) (q : Z) :
  users db !! uid = Some u -> role u = "customer" -> p <> "" -> 1 <= q ->
  let its := default [] (carts !! uid) in
  exists its',
    post_cart_add db carts uid p q = (<[uid := its']> carts, Json 200 its') /\
    cart_units p its' = cart_units p its + q /\
    (forall k, k <> p -> cart_units k its' = cart_units k its) /\
    (cart_ok its -> cart_ok its').
Proof.
  intros Hu Hr Hp Hq its. exists (cart_add its p q).
  unfold post_cart_add. rewrite Hu, Hr. simpl.
  destruct (String.eqb_spec p "") as [|_]; [contradiction|].
  destruct (Z.eqb_spec q 0) as [|_]; [lia|].
  destruct (Z.ltb_spec q 1) as [|_]; [lia|]. simpl.
  split; [reflexivity|]. split; [|split].
  - rewrite cart_add_units, String.eqb_refl. reflexivity.
  - intros k Hk. rewrite cart_add_units.
    destruct (String.eqb_spec p k) as [E|_]; [congruence|lia].
  - apply cart_add_ok. exact Hq.
Qed.

Lemma post_cart_add_merges_witness :
  let carts : gmap string (list CartItem) := {[ "c1" := [mkCartItem "p1" 2; mkCartItem "p2" 1] ]} in
  exists its',
    post_cart_add demo_db carts "c1" "p2" 3 = (<[ "c1" := its']> carts, Json 200 its') /\
    cart_units "p2" its' = cart_units "p2" (default [] (carts !! "c1")) + 3 /\
    (forall k, k <> "p2" -> cart_units k its' = cart_units k (default [] (carts !! "c1"))) /\
    (cart_ok (default [] (carts !! "c1")) -> cart_ok its').
Proof.
  intros carts.
  apply (post_cart_add_merges demo_db carts "c1" (mkUser "customer") "p2" 3).
  - reflexivity.
  - reflexivity.
  - discriminate.
  - lia.
Defined.

Lemma cart_handle_ok (db : Db) (carts : gmap string (list CartItem)) (r : CartRequest) :
  (forall u its, carts !! u = Some its -> cart_ok its) ->
  forall u its, cart_handle db carts r !! u = Some its -> cart_ok its.
Proof.
  intros Hok u its H.
  assert (Hdef : forall v, cart_ok (default [] (carts !! v))).
  { intros v. destruct (carts !! v) as [l|] eqn:E; simpl; [eapply Hok; exact E|].
    split; constructor. }
  assert (Hins : forall v l, cart_ok l -> <[v := l]> carts !! u = Some its -> cart_ok its).
  { intros v l Hl Hv. destruct (decide (v = u)) as [<-|Hne].
    - rewrite lookup_insert_eq in Hv. inversion Hv; subst. exact Hl.
    - rewrite lookup_insert_ne in Hv by exact Hne. eapply Hok. exact Hv. }
  destruct r; cbn [cart_handle] in H.
  - unfold post_cart_add in H.
    destruct (users db !! userId) as [usr|]; [|eapply Hok; exact H].
    destruct (negb (String.eqb (role usr) "customer")); [eapply Hok; exact H|].
    destruct (String.eqb p "") eqn:Ep; [eapply Hok; exact H|].
    destruct (Z.eqb_spec q 0) as [|Hq0]; [eapply Hok; exact H|].
    destruct (Z.ltb_spec q 1) as [|Hq1]; [eapply Hok; exact H|].
    simpl in H. eapply Hins; [|exact H]. apply cart_add_ok; [exact Hq1|apply Hdef].
  - unfold post_cart_remove in H.
    destruct (users db !! userId) as [usr|]; [|eapply Hok; exact H].
    destruct (negb (String.eqb (role usr) "customer")); [eapply Hok; exact H|].
    destruct (carts !! userId) as [l|] eqn:El; [|eapply Hok; exact H].
    simpl in H. eapply Hins; [|exact H]. apply cart_remove_ok. eapply Hok. exact El.
  - unfold post_cart_clear in H.
    destruct (users db !! userId) as [usr|]; [|eapply Hok; exact H].
    destruct (negb (String.eqb (role usr) "customer")); [eapply Hok; exact H|].
    destruct (carts !! userId) as [l|] eqn:El; [|eapply Hok; exact H].
    simpl in H. eapply Hins; [|exact H]. split; constructor.
Qed.

(** X23.  Starting without carts, whatever cart requests follow, every
    cart has at most one line per product and every line a quantity of at
    least 1. *)
Theorem carts_stay_ok (db : Db) (rs : list CartRequest) :
  forall u its, fold_left (cart_handle db) rs ∅ !! u = Some its -> cart_ok its.
Proof.
  assert (Hgen : forall (carts : gmap string (list CartItem)),
             (forall u its, carts !! u = Some its -> cart_ok its) ->
             forall u its, fold_left (cart_handle db) rs carts !! u = Some its ->
                           cart_ok its).
  { induction rs as [|r rs IH]; intros carts Hok; simpl; [exact Hok|].
    apply IH. apply cart_handle_ok. exact Hok. }
  apply Hgen. intros u its H. rewrite lookup_empty in H. discriminate.
Qed.

Lemma carts_stay_ok_witness :
  cart_ok [mkCartItem "p1" 5].
Proof.
  apply (carts_stay_ok demo_db
           [CartAdd "c1" "p1" 2; CartAdd "c1" "p2" 1; CartAdd "c1" "p1" 3;
            CartRemove "c1" "p2"; CartAdd "c1" "p1" 0] "c1").
  reflexivity.
Defined.

(** X24.  Removing a product from the cart removes all of it and nothing
    else, and it undoes an add: after an accepted add of a product,
    removing that product leaves the cart that removing it at once would
    have left.  Without a stored cart the removal is refused with 404. *)
Theorem post_cart_remove_undoes_add (db : Db) (carts : gmap string (list CartItem))
    (uid : ObjectId) (u : User) (p : ObjectId) (q : Z) :
  users db !! uid = Some u -> role u = "customer" -> p <> "" -> 1 <= q ->
  let its := default [] (carts !! uid) in
  let carts1 := fst (post_cart_add db carts uid p q) in
  post_cart_remove db carts1 uid p
  = (<[uid := cart_remove its p]> carts, Json 200 (cart_remove its p)) /\
  cart_units p (cart_remove its p) = 0 /\
  (forall k, k <> p -> cart_units k (cart_remove its p) = cart_units k its) /\
  (carts !! uid = None ->
   post_cart_remove db carts uid p = (carts, Fail 404 "Cart not found")).
Proof.
  intros Hu Hr Hp Hq its carts1.
  pose proof (post_cart_add_accepted db carts uid u p q Hu Hr Hp Hq) as Hadd.
  unfold carts1. rewrite Hadd. simpl.
  split; [|split; [|split]].
  - unfold post_cart_remove. rewrite Hu, Hr. simpl. rewrite lookup_insert_eq.
    rewrite cart_remove_add, insert_insert_eq. reflexivity.
  - rewrite cart_remove_units, String.eqb_refl. reflexivity.
  - intros k Hk. rewrite cart_remove_units.
    destruct (String.eqb_spec p k) as [E|_]; [congruence|reflexivity].
  - intros Hn. unfold post_cart_remove. rewrite Hu, Hr, Hn. reflexivity.
Qed.

Lemma post_cart_remove_undoes_add_witness :
  let carts : gmap string (list CartItem) := {[ "c1" := [mkCartItem "p1" 2] ]} in
  let carts1 := fst (post_cart_add demo_db carts "c1" "p2" 3) in
  post_cart_remove demo_db carts1 "c1" "p2"
  = (<[ "c1" := cart_remove (default [] (carts !! "c1")) "p2"]> carts,
     Json 200 (cart_remove (default [] (carts !! "c1")) "p2")).
Proof.
  intros carts.
  apply (post_cart_remove_undoes_add demo_db carts "c1" (mkUser "customer") "p2" 3).
  - reflexivity.
  - reflexivity.
  - discriminate.
  - lia.
Defined.

(** ** The address book *)

Lemma defaults_cleared (l : list SavedAddress) :
  defaults (map (set_default false) l) = 0%nat.
Proof. unfold defaults. induction l as [|a l IH]; simpl; [reflexivity|exact IH]. Qed.

Lemma defaults_app (l1 l2 : list SavedAddress) :
  defaults (l1 ++ l2) = (defaults l1 + defaults l2)%nat.
Proof. unfold defaults. rewrite List.filter_app, List.length_app. reflexivity. Qed.

Lemma defaults_cons (a : SavedAddress) (l : list SavedAddress) :
  defaults (a :: l) = ((if isDefault a then 1 else 0) + defaults l)%nat.
Proof. unfold defaults. simpl. destruct (isDefault a); reflexivity. Qed.

Lemma findIndex_lookup {A : Type} (f : A -> bool) (l : list A) (i : nat) :
  findIndex f l = Some i -> exists x, l !! i = Some x /\ f x = true.
Proof.
  revert i. induction l as [|y rest IH]; intros i; simpl; [discriminate|].
  destruct (f y) eqn:Hy.
  - intros H. inversion H; subst. exists y. auto.
  - destruct (findIndex f rest) as [j|]; [|discriminate].
    intros H. inversion H; subst. simpl. apply IH. reflexivity.
Qed.

Lemma defaults_delete (l : list SavedAddress) (i : nat) (x : SavedAddress) :
  l !! i = Some x ->
  defaults l = ((if isDefault x then 1 else 0) + defaults (delete i l))%nat.
Proof.
  revert i. induction l as [|a l IH]; intros i H; [discriminate|].
  destruct i as [|i]; simpl in H.
  - inversion H; subst. change (delete 0%nat (x :: l)) with l. apply defaults_cons.
  - change (delete (S i) (a :: l)) with (a :: delete i l).
    rewrite !defaults_cons, (IH i H). lia.
Qed.

Lemma defaults_alter (l : list SavedAddress) (i : nat) (x : SavedAddress) :
  l !! i = Some x ->
  (defaults (alter (set_default true) i l) + (if isDefault x then 1 else 0)
   = defaults l + 1)%nat.
Proof.
  revert i. induction l as [|a l IH]; intros i H; [discriminate|].
  destruct i as [|i]; simpl in H.
  - inversion H; subst. change (alter (set_default true) 0%nat (x :: l))
      with (set_default true x :: l).
    rewrite !defaults_cons. simpl. destruct (isDefault x); lia.
  - change (alter (set_default true) (S i) (a :: l))
      with (a :: alter (set_default true) i l).
    rewrite !defaults_cons. pose proof (IH i H). lia.
Qed.

Lemma address_handle_ok (db : Db) (book : gmap string (list SavedAddress))
    (r : AddressRequest) :
  (forall u l, book !! u = Some l -> book_ok l) ->
  forall u l, address_handle db book r !! u = Some l -> book_ok l.
Proof.
  intros Hok u l H.
  assert (Hdef : forall v, book_ok (default [] (book !! v))).
  { intros v. destruct (book !! v) as [l0|] eqn:E; simpl; [eapply Hok; exact E|].
    left. reflexivity. }
  assert (Hins : forall v l0, book_ok l0 -> <[v := l0]> book !! u = Some l -> book_ok l).
  { intros v l0 Hl Hv. destruct (decide (v = u)) as [<-|Hne].
    - rewrite lookup_insert_eq in Hv. inversion Hv; subst. exact Hl.
    - rewrite lookup_insert_ne in Hv by exact Hne. eapply Hok. exact Hv. }
  destruct r; cbn [address_handle] in H.
  - unfold post_shipping_address in H.
    destruct (String.eqb (street a) "" || String.eqb (city a) ""
              || String.eqb (state a) "" || String.eqb (zipCode a) ""
              || String.eqb (country a) ""); [eapply Hok; exact H|].
    destruct (users db !! userId); [|eapply Hok; exact H].
    specialize (Hdef userId). set (addresses := default [] (book !! userId)) in *.
    destruct ((length addresses =? 0)%nat || is_default) eqn:Hc; simpl in H.
    + eapply Hins; [|exact H]. right.
      rewrite defaults_app, defaults_cleared. reflexivity.
    + eapply Hins; [|exact H]. right.
      apply orb_false_iff in Hc. destruct Hc as [Hlen ->].
      rewrite defaults_app. destruct Hdef as [E|E].
      * rewrite E in Hlen. discriminate.
      * rewrite E. reflexivity.
  - unfold delete_shipping_address in H.
    destruct (users db !! userId); [|eapply Hok; exact H].
    specialize (Hdef userId). set (addresses := default [] (book !! userId)) in *.
    destruct (findIndex _ addresses) as [i|] eqn:Hi; [|eapply Hok; exact H].
    destruct (findIndex_lookup _ _ _ Hi) as (x & Hx & _).
    simpl in H. rewrite Hx in H. eapply Hins; [|exact H].
    destruct Hdef as [E|E]; [rewrite E in Hx; discriminate|].
    pose proof (defaults_delete _ _ _ Hx) as Hd. rewrite E in Hd.
    destruct (isDefault x); simpl.
    + destruct (delete i addresses) as [|y rest] eqn:Hrest; simpl; [left; reflexivity|].
      right. rewrite defaults_cons in *. simpl. lia.
    + right. lia.
  - unfold patch_shipping_address_default in H.
    destruct (users db !! userId); [|eapply Hok; exact H].
    set (addresses := default [] (book !! userId)) in *.
    destruct (findIndex _ addresses) as [i|] eqn:Hi; [|eapply Hok; exact H].
    destruct (findIndex_lookup _ _ _ Hi) as (x & Hx & _).
    assert (Hx' : map (set_default false) addresses !! i = Some (set_default false x)).
    { clear -Hx. revert i Hx. induction addresses as [|a l IH]; intros i Hx;
        [discriminate|].
      destruct i; simpl in *; [inversion Hx; reflexivity|apply IH; exact Hx]. }
    destruct (alter (set_default true) i (map (set_default false) addresses) !! i)
      eqn:Ha; [|eapply Hok; exact H].
    simpl in H. eapply Hins; [|exact H]. right.
    pose proof (defaults_alter _ _ _ Hx') as Hd. rewrite defaults_cleared in Hd.
    simpl in Hd. lia.
Qed.

(** X25.  Starting from empty address books, whatever addresses are
    added, deleted or made the default, every address book that is not
    empty has exactly one default address. *)
Theorem address_book_one_default (db : Db) (rs : list AddressRequest) :
  forall u l, fold_left (address_handle db) rs ∅ !! u = Some l -> book_ok l.
Proof.
  assert (Hgen : forall (book : gmap string (list SavedAddress)),
             (forall u l, book !! u = Some l -> book_ok l) ->
             forall u l, fold_left (address_handle db) rs book !! u = Some l -> book_ok l).
  { induction rs as [|r rs IH]; intros book Hok; simpl; [exact Hok|].
    apply IH. apply address_handle_ok. exact Hok. }
  apply Hgen. intros u l H. rewrite lookup_empty in H. discriminate.
Qed.

Lemma address_book_one_default_witness :
  book_ok [mkSavedAddress "a2" home true; mkSavedAddress "a3" home false].
Proof.
  apply (address_book_one_default demo_db
           [AddressAdd "c1" "a1" home false; AddressAdd "c1" "a2" home false;
            AddressAdd "c1" "a3" home false; AddressDelete "c1" "a1"] "c1").
  reflexivity.
Defined.

(** ** Categories *)

Lemma category_unique (cats : list (ObjectId * Category)) id c c' :
  List.NoDup (map fst cats) -> In (id, c) cats -> In (id, c') cats -> c = c'.
Proof.
  induction cats as [|[k v] rest IH]; simpl; intros Hnd H1 H2; [contradiction|].
  inversion Hnd as [|? ? Hk Hnd']; subst.
  destruct H1 as [H1|H1], H2 as [H2|H2].
  - congruence.
  - inversion H1; subst. exfalso. apply Hk. apply (in_map fst) in H2. exact H2.
  - inversion H2; subst. exfalso. apply Hk. apply (in_map fst) in H1. exact H1.
  - apply IH; assumption.
Qed.

Lemma chain_incl cats path parentId :
  chain cats path parentId -> incl path (map fst cats).
Proof.
  revert parentId. induction path as [|x rest IH]; intros parentId H y Hy;
    [contradiction|].
  destruct H as (_ & c & Hc & Hrest). destruct Hy as [<-|Hy].
  - apply (in_map fst) in Hc. exact Hc.
  - eapply IH; eassumption.
Qed.

(** The parent of a member of a chain is a member of the chain. *)
Lemma chain_parent_inside cats path parentId id c :
  List.NoDup (map fst cats) -> chain cats path parentId ->
  In id path -> In (id, c) cats ->
  parentCategory c = None \/ exists q, parentCategory c = Some q /\ In q path.
Proof.
  intros Hnd. revert parentId. induction path as [|x rest IH]; intros parentId H Hid Hc;
    [contradiction|].
  destruct H as (_ & cx & Hcx & Hrest). destruct Hid as [->|Hid].
  - rewrite (category_unique _ _ _ _ Hnd Hc Hcx).
    destruct rest as [|y rest']; simpl in Hrest.
    + left. exact Hrest.
    + right. destruct Hrest as (Hy & _). exists y. split; [exact Hy|]. right. left.
      reflexivity.
  - destruct (IH _ Hrest Hid Hc) as [Hn|(q & Hq & Hin)]; [left; exact Hn|].
    right. exists q. split; [exact Hq|right; exact Hin].
Qed.

(** A child of the head of a chain is not on the chain. *)
Lemma chain_child_fresh cats path parentId id c :
  List.NoDup (map fst cats) -> chain cats path parentId -> List.NoDup path ->
  In (id, c) cats -> parentCategory c = parentId -> ~ In id path.
Proof.
  intros Hnd H Hp Hc Hpar Hid.
  destruct path as [|x rest]; [contradiction|].
  destruct H as (Hx & cx & Hcx & Hrest). inversion Hp as [|? ? Hxrest Hp']; subst.
  destruct Hid as [->|Hid].
  - rewrite (category_unique _ _ _ _ Hnd Hc Hcx) in Hpar.
    destruct rest as [|y rest']; simpl in Hrest.
    + congruence.
    + destruct Hrest as (Hy & _). rewrite Hy in Hpar. inversion Hpar; subst.
      apply Hxrest. left. reflexivity.
  - destruct (chain_parent_inside _ _ _ _ _ Hnd Hrest Hid Hc) as [Hn|(q & Hq & Hin)].
    + congruence.
    + rewrite Hq in Hpar. inversion Hpar; subst. exact (Hxrest Hin).
Qed.

Lemma buildTree_fuel cats : List.NoDup (map fst cats) ->
  forall fuel path parentId,
    chain cats path parentId -> List.NoDup path ->
    (length cats < fuel + length path)%nat ->
    is_Some (buildTree fuel cats parentId).
Proof.
  intros Hnd. induction fuel as [|fuel IH]; intros path parentId Hch Hp Hlen.
  - exfalso. pose proof (NoDup_incl_length Hp (chain_incl _ _ _ Hch)) as Hle.
    rewrite length_map in Hle. simpl in Hlen. lia.
  - simpl. apply mapM_is_Some. apply Forall_forall. intros [id c] Hin.
    apply list_elem_of_In in Hin. apply filter_In in Hin. destruct Hin as [Hin Hpar].
    apply bool_decide_eq_true in Hpar. simpl in Hpar.
    simpl. apply fmap_is_Some. apply (IH (id :: path)).
    + simpl. split; [reflexivity|]. exists c. split; [exact Hin|].
      rewrite Hpar. exact Hch.
    + constructor; [|exact Hp]. eapply chain_child_fresh; eassumption.
    + simpl. lia.
Qed.

Lemma buildTree_more_fuel cats : forall fuel parentId t,
  buildTree fuel cats parentId = Some t -> buildTree (S fuel) cats parentId = Some t.
Proof.
  induction fuel as [|fuel IH]; intros parentId t H; [discriminate|].
  change (buildTree (S (S fuel)) cats parentId) with
    (mapM (fun cat => CategoryNode (fst cat) (snd cat)
                        <$> buildTree (S fuel) cats (Some (fst cat)))
          (List.filter (fun cat => bool_decide (parentCategory (snd cat) = parentId)) cats)).
  simpl in H. apply mapM_Some in H. apply mapM_Some.
  eapply Forall2_impl; [exact H|]. intros cat node Hcat. simpl in Hcat.
  destruct (buildTree fuel cats (Some (fst cat))) as [ch|] eqn:E; [|discriminate].
  rewrite (IH _ _ E). exact Hcat.
Qed.

(** X26.  The category tree is always built: for any category collection
    with distinct ids, parent cycles included, [buildTree] comes to an end
    within a depth of the number of active categories, and more fuel does
    not change the tree. *)
Theorem category_tree_terminates (by_name : list (ObjectId * Category)) :
  List.NoDup (map fst by_name) ->
  exists t,
    forall fuel, (length by_name < fuel)%nat -> get_category_tree fuel by_name = Some t.
Proof.
  intros Hnd. unfold get_category_tree.
  set (cats := List.filter (fun cat => cat_isActive (snd cat)) by_name).
  assert (Hnd' : List.NoDup (map fst cats)).
  { clear -Hnd. unfold cats. induction by_name as [|cat rest IH]; simpl; [constructor|].
    inversion Hnd as [|? ? Hk Hnd']; subst.
    destruct (cat_isActive (snd cat)); simpl; [|apply IH; exact Hnd'].
    constructor; [|apply IH; exact Hnd'].
    intros Hin. apply Hk. apply in_map_iff in Hin. destruct Hin as (x & Hx & Hxin).
    apply filter_In in Hxin. apply in_map_iff. exists x. tauto. }
  assert (Hlen : (length cats <= length by_name)%nat).
  { unfold cats. clear. induction by_name as [|cat rest IH]; simpl; [lia|].
    destruct (cat_isActive (snd cat)); simpl; lia. }
  destruct (buildTree_fuel cats Hnd' (S (length cats)) [] None) as [t Ht].
  - reflexivity.
  - constructor.
  - simpl. lia.
  - exists t. intros fuel Hfuel.
    assert (Hmore : forall k, buildTree (k + S (length cats)) cats None = Some t).
    { induction k as [|k IHk]; [exact Ht|]. simpl plus.
      apply buildTree_more_fuel. exact IHk. }
    replace fuel with ((fuel - S (length cats)) + S (length cats))%nat by lia.
    apply Hmore.
Qed.

Lemma category_tree_terminates_witness :
  exists t,
    forall fuel, (length demo_categories < fuel)%nat ->
                 get_category_tree fuel demo_categories = Some t.
Proof.
  apply (category_tree_terminates demo_categories).
  repeat constructor; simpl; intuition discriminate.
Defined.

(** The two categories that are each other's parent are not in the tree. *)
Example get_category_tree_demo :
  get_category_tree 5 demo_categories
  = Some [CategoryNode "a" (mkCategory "Audio" "" "" None true)
            [CategoryNode "b" (mkCategory "Bass" "" "" (Some "a") true) []]].
Proof. reflexivity. Qed.

Lemma mapM_None {A B : Type} (f : A -> option B) (l : list A) (x : A) :
  In x l -> f x = None -> mapM f l = None.
Proof.
  intros Hin Hx. destruct (mapM f l) as [k|] eqn:E; [|reflexivity].
  assert (Hs : is_Some (mapM f l)) by (rewrite E; eauto).
  apply mapM_is_Some in Hs. rewrite Forall_forall in Hs.
  apply list_elem_of_In in Hin. specialize (Hs x Hin). simpl in Hs.
  rewrite Hx in Hs. destruct Hs as [y Hy]. discriminate.
Qed.

(** X27.  The walk over the subcategories has no guard against parent
    cycles: from a category that lies on a cycle (in general, from any
    category of a set in which every member has a child in the set), and so
    from a category that is its own parent, [getAllSubcategories] never
    comes to an end, whatever the fuel. *)
Theorem subcategory_walk_diverges (cats : list (ObjectId * Category))
    (trap : ObjectId -> Prop) :
  (forall x, trap x ->
     exists y c, In (y, c) cats /\ parentCategory c = Some x /\ trap y) ->
  forall fuel x, trap x -> getAllSubcategories fuel cats x = None.
Proof.
  intros Htrap. induction fuel as [|fuel IH]; intros x Hx; [reflexivity|].
  destruct (Htrap x Hx) as (y & c & Hin & Hpar & Hy).
  simpl.
  rewrite (mapM_None _ _ (y, c)); [reflexivity| |simpl; apply IH; exact Hy].
  apply filter_In. split; [exact Hin|]. apply bool_decide_eq_true. exact Hpar.
Qed.

Lemma subcategory_walk_diverges_witness :
  getAllSubcategories 1000 demo_categories "c" = None.
Proof.
  apply (subcategory_walk_diverges demo_categories (fun x => x = "c" \/ x = "d")).
  - intros x [-> | ->].
    + exists "d", (mkCategory "Docks" "" "" (Some "c") true).
      split; [simpl; tauto|]. split; [reflexivity|right; reflexivity].
    + exists "c", (mkCategory "Cables" "" "" (Some "d") true).
      split; [simpl; tauto|]. split; [reflexivity|left; reflexivity].
  - left. reflexivity.
Defined.

(** Away from the cycle the walk ends: a category and its subcategory. *)
Example getAllSubcategories_demo :
  getAllSubcategories 3 demo_categories "a" = Some ["a"; "b"].
Proof. reflexivity. Qed.

Lemma remove_category_In (id : ObjectId) (cats : list (ObjectId * Category)) x :
  In x (remove_category id cats) -> In x cats.
Proof.
  induction cats as [|cat rest IH]; simpl; [contradiction|].
  destruct (String.eqb (fst cat) id); [intros H; right; exact H|].
  intros [H|H]; [left; exact H|right; apply IH; exact H].
Qed.

Lemma remove_category_keeps (id : ObjectId) (cats : list (ObjectId * Category)) x :
  In x cats -> fst x <> id -> In x (remove_category id cats).
Proof.
  induction cats as [|cat rest IH]; simpl; [contradiction|].
  intros [->|H] Hne.
  - destruct (String.eqb_spec (fst x) id) as [E|_]; [contradiction|]. left. reflexivity.
  - destruct (String.eqb (fst cat) id); [exact H|]. right. apply IH; assumption.
Qed.

(** X28.  Deleting a category leaves nothing pointing at it: when the
    deletion is accepted, the caller is an admin, no product was in the
    category, no category had it as parent, every other category is kept,
    and if every parent named in the collection was a category of the
    collection before, that is still so afterwards. *)
Theorem delete_category_no_dangling (db : Db) (cats : list (ObjectId * Category))
    (uid id : ObjectId) (cats' : list (ObjectId * Category)) (code : nat) (c : Category) :
  delete_category db cats uid id = (cats', Json code c) ->
  In (id, c) cats /\
  (exists u, users db !! uid = Some u /\ role u = "admin") /\
  (forall k p, products db !! k = Some p -> category p <> id) /\
  (forall k cat, In (k, cat) cats -> parentCategory cat <> Some id) /\
  (forall x, In x cats -> fst x <> id -> In x cats') /\
  (forall x, In x cats' -> In x cats) /\
  (parents_resolve cats -> parents_resolve cats').
Proof.
  intros H. unfold delete_category in H.
  destruct (users db !! uid) as [u|] eqn:Hu; [|discriminate].
  destruct (String.eqb_spec (role u) "admin") as [Hr|]; [|discriminate].
  cbn [negb] in H.
  destruct (Nat.ltb_spec 0 (size (filter (fun kp => category (snd kp) = id) (products db))))
    as [|Hprod]; [discriminate|].
  destruct (Nat.ltb_spec 0
              (length (List.filter
                         (fun cat => bool_decide (parentCategory (snd cat) = Some id)) cats)))
    as [|Hsub]; [discriminate|].
  destruct (List.find (fun cat => String.eqb (fst cat) id) cats) as [[k c0]|] eqn:Hfind;
    [|discriminate].
  inversion H; subst cats' code c. clear H.
  apply find_some in Hfind. destruct Hfind as [Hin Hk]. simpl in Hk.
  apply String.eqb_eq in Hk. subst k.
  assert (Hnochild : forall k cat, In (k, cat) cats -> parentCategory cat <> Some id).
  { intros k cat Hcat Hpar.
    assert (Hf : In (k, cat)
                    (List.filter
                       (fun cat => bool_decide (parentCategory (snd cat) = Some id)) cats)).
    { apply filter_In. split; [exact Hcat|]. apply bool_decide_eq_true. exact Hpar. }
    destruct (List.filter _ cats); [contradiction|simpl in Hsub; lia]. }
  split; [exact Hin|]. split; [exists u; auto|]. split; [|split; [exact Hnochild|]].
  - intros k p Hp Hcat.
    assert (Hempty : filter (fun kp => category (snd kp) = id) (products db) = ∅).
    { apply map_size_empty_iff. lia. }
    assert (Hl : filter (fun kp => category (snd kp) = id) (products db) !! k = Some p).
    { apply map_lookup_filter_Some. split; [exact Hp|exact Hcat]. }
    rewrite Hempty, lookup_empty in Hl. discriminate.
  - split; [intros x Hx Hne; apply remove_category_keeps; assumption|].
    split; [intros x Hx; eapply remove_category_In; exact Hx|].
    intros Hres k cat q Hcat Hpar.
    apply remove_category_In in Hcat.
    pose proof (Hres _ _ _ Hcat Hpar) as Hq.
    apply in_map_iff in Hq. destruct Hq as ([q' cq] & Hq' & Hqin). simpl in Hq'. subst q'.
    apply in_map_iff. exists (q, cq). split; [reflexivity|].
    apply remove_category_keeps; [exact Hqin|]. simpl.
    intros ->. exact (Hnochild _ _ Hcat Hpar).
Qed.

Lemma delete_category_no_dangling_witness :
  let r := delete_category demo_db demo_categories "a1" "b" in
  In ("b", mkCategory "Bass" "" "" (Some "a") true) demo_categories /\
  (parents_resolve demo_categories -> parents_resolve (fst r)).
Proof.
  intros r.
  destruct (delete_category_no_dangling demo_db demo_categories "a1" "b" (fst r) 200
              (mkCategory "Bass" "" "" (Some "a") true) eq_refl)
    as (Hin & _ & _ & _ & _ & _ & Hres).
  split; [exact Hin|exact Hres].
Defined.

(** ** Revenue *)

Lemma revenue_sum_replace (os : gmap string Order) (id : ObjectId) (o o' : Order) :
  os !! id = Some o ->
  (map_fold (fun _ x acc => acc + revenue_of x) 0 (<[id := o']> os)
   == map_fold (fun _ x acc => acc + revenue_of x) 0 os - revenue_of o + revenue_of o')%Q.
Proof.
  intros Ho.
  assert (Hproper : forall (j : string) (z : Order),
             Proper (Qeq ==> Qeq) (fun acc => acc + revenue_of z)%Q).
  { intros j z a b Hab. rewrite Hab. reflexivity. }
  assert (Hcomm : forall (z1 z2 : Order) (y : Q),
             (y + revenue_of z2 + revenue_of z1 == y + revenue_of z1 + revenue_of z2)%Q).
  { intros. ring. }
  pose proof (map_fold_delete Qeq (fun (_ : string) x acc => acc + revenue_of x)%Q
                0%Q id o os Hproper) as Hdel.
  pose proof (map_fold_insert Qeq (fun (_ : string) x acc => acc + revenue_of x)%Q
                0%Q id o' (delete id os) Hproper) as Hins.
  rewrite insert_delete_eq in Hins.
  rewrite Hins, Hdel.
  - ring.
  - intros. apply Hcomm.
  - exact Ho.
  - intros. apply Hcomm.
  - apply lookup_delete_eq.
Qed.

(** X29.  The revenue of the analytics counts an order exactly while its
    status is paid or delivered: when the vendor's status update is accepted
    the revenue changes by what the order counts for after the update less
    what it counted for before.  So marking a paid order shipped takes its
    total out of the revenue, and marking it delivered puts it back. *)
Theorem revenue_follows_status (db : Db) (uid id : ObjectId) (s : string) (o : Order)
    (db1 : Db) (code : nat) (o1 : Order) :
  orders db !! id = Some o ->
  patch_order_status db uid id s = (db1, Json code o1) ->
  (totalRevenue db1 == totalRevenue db - revenue_of o + revenue_of o1)%Q /\
  (status o = paid -> s = "shipped" -> (totalRevenue db1 == totalRevenue db - total o)%Q) /\
  (status o = shipped -> s = "delivered" ->
   (totalRevenue db1 == totalRevenue db + total o)%Q).
Proof.
  intros Ho H.
  assert (Hdb1 : orders db1 = <[id := o1]> (orders db) /\ total o1 = total o /\
                 status_of_string s = Some (status o1)).
  { unfold patch_order_status in H. rewrite Ho in H.
    destruct (users db !! uid) as [u|]; [|discriminate].
    destruct (negb (String.eqb (role u) "vendor")); [discriminate|].
    destruct (negb (existsb (String.eqb s) validStatuses)); [discriminate|].
    destruct (negb (existsb (vendor_of_line (products db) uid) (items o)));
      [discriminate|].
    destruct (status_of_string s) as [st|]; [|discriminate].
    inversion H; subst. repeat split; reflexivity. }
  destruct Hdb1 as (Hord & Htot & Hst).
  assert (Hmain : (totalRevenue db1 == totalRevenue db - revenue_of o + revenue_of o1)%Q).
  { unfold totalRevenue. rewrite !or_zero_eq, Hord. apply revenue_sum_replace. exact Ho. }
  split; [exact Hmain|]. split.
  - intros Hpaid ->. change (status_of_string "shipped") with (Some shipped) in Hst.
    assert (Hs1 : status o1 = shipped) by congruence.
    rewrite Hmain. unfold revenue_of, counts_as_revenue. rewrite Hpaid, Hs1. ring.
  - intros Hship ->. change (status_of_string "delivered") with (Some delivered) in Hst.
    assert (Hs1 : status o1 = delivered) by congruence.
    rewrite Hmain. unfold revenue_of, counts_as_revenue. rewrite Hship, Hs1, Htot. ring.
Qed.

Lemma revenue_follows_status_witness :
  let db := demo_db_with paid payment_paid in
  let db1 := fst (patch_order_status db "v1" "o1" "shipped") in
  (totalRevenue db1 == totalRevenue db - total (demo_order paid payment_paid))%Q.
Proof.
  intros db db1.
  refine (proj1 (proj2 (revenue_follows_status db "v1" "o1" "shipped"
                          (demo_order paid payment_paid) db1 200
                          (set_status (demo_order paid payment_paid) shipped)
                          eq_refl eq_refl)) eq_refl eq_refl).
Defined.

(** ** Routes that are never reached *)

(** X30.  In routes/order.js the route GET /:id is declared before
    GET /mine and GET /vendor, and in routes/notifications.js DELETE /:id
    before DELETE /clear: every request those later routes could match is
    taken by the earlier one, so their handlers are never run, however the
    router compares literal segments. *)
Theorem shadowed_routes_unreachable (lit_eq : string -> string -> bool)
    (path : list string) :
  dispatch lit_eq order_routes GET path <> Some GetMyOrders /\
  dispatch lit_eq order_routes GET path <> Some GetVendorOrders /\
  (forall m, dispatch lit_eq notification_routes m path <> Some ClearNotifications) /\
  (forall seg, dispatch lit_eq order_routes GET [seg] = Some GetOrderById) /\
  (forall seg, dispatch lit_eq notification_routes DELETE [seg] = Some DeleteNotification).
Proof.
  assert (Hnotif : forall m, dispatch lit_eq notification_routes m path
                             <> Some ClearNotifications).
  { intros m. destruct m, path as [|x [|y [|z rest]]]; simpl;
      repeat match goal with
             | |- context [lit_eq ?a ?b] => destruct (lit_eq a b); simpl
             end; discriminate. }
  repeat split; try exact Hnotif;
    destruct path as [|x [|y [|z rest]]]; simpl;
    repeat match goal with
           | |- context [lit_eq ?a ?b] => destruct (lit_eq a b); simpl
           end; discriminate.
Qed.
